(** * CertStudy: the quiz/explanation server (server.js), embedded and verified

    The server is a Node.js/Express program.  The development has these layers:

    - [JS]: the fragment of the JavaScript run time the server relies on
      (strings, IEEE-754 numbers, JSON values, truthiness, [String(...)],
      [parseInt], [Number.prototype.toFixed], [Math.min]/[Math.max]);
    - [Server]: the functions of server.js, translated statement by statement
      ([buildErrorDebugInfo], the [/api/generate-quiz] and [/api/explain]
      handlers);
    - the properties of the specification, stated over [Server];
    - [Client]: what the page's script (public/script.js) computes before it
      calls the server and after it has the answer, for the properties that
      hold of the two together.

    JavaScript numbers are binary64 floats and are modelled by Rocq's
    primitive [float]; their decimal printing and reading is computed exactly
    through [Prim2SF]/[SF2Prim].  A JavaScript string is a sequence of UTF-16
    code units; the model keeps the code units below 256, one [ascii] each. *)

From Stdlib Require Import ZArith List String Ascii Bool Lia Floats.
Import ListNotations.

Set Warnings "-inexact-float,-register-all".

Open Scope string_scope.
Open Scope Z_scope.

(* ================================================================== *)
(** * The JavaScript run time *)
(* ================================================================== *)

Module JS.

(** ** Strings *)

(** [WhiteSpace] and [LineTerminator] code units below 256:
    TAB, LF, VT, FF, CR, SP and NBSP. *)
Definition is_white_space (c : ascii) : bool :=
  let n := nat_of_ascii c in
  ((9 <=? n)%nat && (n <=? 13)%nat) || (n =? 32)%nat || (n =? 160)%nat.

Fixpoint trimStart (s : string) : string :=
  match s with
  | String c r => if is_white_space c then trimStart r else s
  | EmptyString => EmptyString
  end.

Fixpoint trimEnd (s : string) : string :=
  match s with
  | EmptyString => EmptyString
  | String c r =>
      match trimEnd r with
      | EmptyString => if is_white_space c then EmptyString else String c EmptyString
      | r' => String c r'
      end
  end.

(** [s.trim()] *)
Definition trim (s : string) : string := trimEnd (trimStart s).

(** [s.slice(0, n)] for a string [s] and [n >= 0]: the first [n] code units. *)
Definition String_slice0 (n : nat) (s : string) : string := substring 0 n s.

Definition lower_char (c : ascii) : ascii :=
  let n := nat_of_ascii c in
  if ((65 <=? n)%nat && (n <=? 90)%nat)
     || ((192 <=? n)%nat && (n <=? 222)%nat && negb (n =? 215)%nat)
  then ascii_of_nat (n + 32) else c.

(** [s.toLowerCase()]: every cased code unit below 256 has its lower case
    below 256. *)
Fixpoint toLowerCase (s : string) : string :=
  match s with
  | EmptyString => EmptyString
  | String c r => String (lower_char c) (toLowerCase r)
  end.

(** [s.toUpperCase()].  Exact on code units below 128 and on the Latin-1
    letters whose upper case is again below 256; the sharp s becomes SS.
    (The micro sign and y-diaeresis have their upper case above 255 and are
    left as they are; the server upper-cases ASCII words only.) *)
Fixpoint toUpperCase (s : string) : string :=
  match s with
  | EmptyString => EmptyString
  | String c r =>
      let n := nat_of_ascii c in
      if (n =? 223)%nat then String "S" (String "S" (toUpperCase r))
      else if ((97 <=? n)%nat && (n <=? 122)%nat)
              || ((224 <=? n)%nat && (n <=? 254)%nat && negb (n =? 247)%nat)
      then String (ascii_of_nat (n - 32)) (toUpperCase r)
      else String c (toUpperCase r)
  end.

Definition is_empty (s : string) : bool :=
  match s with EmptyString => true | _ => false end.

Fixpoint repeat_char (c : ascii) (n : nat) : string :=
  match n with O => EmptyString | S k => String c (repeat_char c k) end.

Fixpoint join (sep : string) (l : list string) : string :=
  match l with
  | [] => ""
  | [s] => s
  | s :: r => s ++ sep ++ join sep r
  end.

(** ** Numbers *)

(** The Number nearest to an integer (round to nearest, ties to even). *)
Definition Z2F (z : Z) : float := SF2Prim (binary_normalize prec emax z 0 false).

(** The Number nearest to [n/d] for positive [n] and [d], with the sign
    [neg].  The quotient is taken with at least 56 bits and a sticky bit, so
    the one final rounding of [binary_normalize] is the correct one. *)
Definition ratio2F (neg : bool) (n d : Z) : float :=
  let sh := Z.max 0 (Z.log2 d - Z.log2 n + 56) in
  let q := (n * 2 ^ sh) / d in
  let r := (n * 2 ^ sh) mod d in
  let m := 2 * q + (if r =? 0 then 0 else 1) in
  SF2Prim (binary_normalize prec emax (if neg then - m else m) (- sh - 1) neg).

(** The Number nearest to [m * 10^e] ([m >= 0]) with the sign [neg]: what
    reading a decimal literal yields.  Exponents far outside the binary64
    range are decided without computing the power of ten. *)
Definition dec2F (neg : bool) (m e : Z) : float :=
  if m =? 0 then (if neg then neg_zero else zero)
  else if 400 <? e then (if neg then neg_infinity else infinity)
  else if e + Z.log2 m <? - 400 then (if neg then neg_zero else zero)
  else if 0 <=? e then
    SF2Prim (binary_normalize prec emax (if neg then - (m * 10 ^ e) else m * 10 ^ e) 0 neg)
  else ratio2F neg m (10 ^ (- e)).

(** ToBoolean on a Number: false for [+0], [-0] and [NaN]. *)
Definition Number_truthy (x : float) : bool := negb (is_nan x || is_zero x).

(** [Math.max(a, b)] and [Math.min(a, b)] *)
Definition Math_max (a b : float) : float :=
  if is_nan a || is_nan b then nan
  else if (a <? b)%float then b
  else if (b <? a)%float then a
  else if get_sign a then b else a.

Definition Math_min (a b : float) : float :=
  if is_nan a || is_nan b then nan
  else if (a <? b)%float then a
  else if (b <? a)%float then b
  else if get_sign a then a else b.

(** *** Decimal digits *)

Definition digit_of_ascii (c : ascii) : option Z :=
  let n := nat_of_ascii c in
  if ((48 <=? n)%nat && (n <=? 57)%nat) then Some (Z.of_nat (n - 48)) else None.

Definition ascii_of_digit (d : Z) : ascii := ascii_of_nat (48 + Z.to_nat d).

(** The decimal digits of [n >= 0] put before [acc], the last digit first;
    [fuel] bounds the number of digits. *)
Fixpoint digits_before (fuel : nat) (n : Z) (acc : string) : string :=
  match fuel with
  | O => acc
  | S f =>
      let acc' := String (ascii_of_digit (n mod 10)) acc in
      if n <? 10 then acc' else digits_before f (n / 10) acc'
  end.

(** The decimal numeral of an integer [z >= 0]. *)
Definition decimal (z : Z) : string :=
  digits_before (S (Z.to_nat (Z.log2 z))) z EmptyString.

Fixpoint string_of_digits (ds : list Z) : string :=
  match ds with
  | [] => EmptyString
  | d :: r => String (ascii_of_digit d) (string_of_digits r)
  end.

(** *** Number::toString (radix 10)

    The digits are the shortest decimal that reads back as the same Number,
    the closest such to the value; they are produced by the free-format
    digit generation over exact integers: the value is [r/s * 10^n] and the
    half-distances to the neighbouring Numbers are [mp/s] and [mm/s]. *)

Record gen_state := { g_r : Z; g_s : Z; g_mp : Z; g_mm : Z }.

Definition gen_init (m : positive) (e : Z) : gen_state :=
  let boundary := (Zpos m =? 2 ^ 52) && negb (e =? -1074) in
  if 0 <=? e then
    if boundary
    then {| g_r := Zpos m * 2 ^ e * 4; g_s := 4; g_mp := 2 ^ (e + 1); g_mm := 2 ^ e |}
    else {| g_r := Zpos m * 2 ^ e * 2; g_s := 2; g_mp := 2 ^ e; g_mm := 2 ^ e |}
  else
    if boundary
    then {| g_r := Zpos m * 4; g_s := 2 ^ (2 - e); g_mp := 2; g_mm := 1 |}
    else {| g_r := Zpos m * 2; g_s := 2 ^ (1 - e); g_mp := 1; g_mm := 1 |}.

(** The upper end of the rounding interval reaches [1]: the ends belong to
    the interval when the mantissa is even. *)
Definition high_reaches (even : bool) (g : gen_state) (bound : Z) : bool :=
  if even then bound <=? g_r g + g_mp g else bound <? g_r g + g_mp g.

Fixpoint scale_up (fuel : nat) (even : bool) (g : gen_state) (n : Z) : gen_state * Z :=
  match fuel with
  | O => (g, n)
  | S f =>
      if high_reaches even g (g_s g)
      then scale_up f even {| g_r := g_r g; g_s := g_s g * 10; g_mp := g_mp g; g_mm := g_mm g |} (n + 1)
      else (g, n)
  end.

Fixpoint scale_down (fuel : nat) (even : bool) (g : gen_state) (n : Z) : gen_state * Z :=
  match fuel with
  | O => (g, n)
  | S f =>
      let g' := {| g_r := g_r g * 10; g_s := g_s g; g_mp := g_mp g * 10; g_mm := g_mm g * 10 |} in
      if high_reaches even g' (g_s g)
      then (g, n)
      else scale_down f even g' (n - 1)
  end.

Fixpoint gen_digits (fuel : nat) (even : bool) (g : gen_state) : list Z :=
  match fuel with
  | O => []
  | S f =>
      let d := (g_r g * 10) / g_s g in
      let r := (g_r g * 10) mod g_s g in
      let mp := g_mp g * 10 in
      let mm := g_mm g * 10 in
      let low := if even then r <=? mm else r <? mm in
      let high := if even then g_s g <=? r + mp else g_s g <? r + mp in
      match low, high with
      | false, false => d :: gen_digits f even {| g_r := r; g_s := g_s g; g_mp := mp; g_mm := mm |}
      | true, false => [d]
      | false, true => [d + 1]
      | true, true =>
          match 2 * r ?= g_s g with
          | Lt => [d]
          | Gt => [d + 1]
          | Eq => if Z.even d then [d] else [d + 1]
          end
      end
  end.

(** The digits [d1 ... dk] and the exponent [n] of a positive finite Number
    [m * 2^e], with value [0.d1...dk * 10^n]. *)
Definition shortest (m : positive) (e : Z) : list Z * Z :=
  let even := Z.even (Zpos m) in
  let '(g1, n1) := scale_up 400 even (gen_init m e) 0 in
  let '(g2, n2) := scale_down 400 even g1 n1 in
  (gen_digits 25 even g2, n2).

Definition format_digits (ds : list Z) (n : Z) : string :=
  let k := Z.of_nat (List.length ds) in
  let s := string_of_digits ds in
  if (k <=? n) && (n <=? 21) then s ++ repeat_char "0" (Z.to_nat (n - k))
  else if (0 <? n) && (n <=? 21) then
    substring 0 (Z.to_nat n) s ++ "." ++ substring (Z.to_nat n) (Z.to_nat (k - n)) s
  else if (-6 <? n) && (n <=? 0) then "0." ++ repeat_char "0" (Z.to_nat (- n)) ++ s
  else
    let ex := n - 1 in
    let es := (if ex <? 0 then "-" else "+") ++ decimal (Z.abs ex) in
    if k =? 1 then s ++ "e" ++ es
    else substring 0 1 s ++ "." ++ substring 1 (Z.to_nat (k - 1)) s ++ "e" ++ es.

Definition Number_toString (x : float) : string :=
  match Prim2SF x with
  | S754_nan => "NaN"
  | S754_zero _ => "0"
  | S754_infinity s => if s then "-Infinity" else "Infinity"
  | S754_finite s m e =>
      let '(ds, n) := shortest m e in
      (if s then "-" else "") ++ format_digits ds n
  end.

(** *** Number.prototype.toFixed(f), for [0 <= f <= 100]

    For a finite [|x| < 10^21] the digits are those of the integer [n] with
    [n / 10^f] nearest to the exact value of [x], the larger [n] on a tie. *)

Definition fixed_string (f : nat) (n : Z) : string :=
  let m := decimal n in
  match f with
  | O => m
  | _ =>
      let m' := repeat_char "0" (S f - String.length m) ++ m in
      let k := String.length m' in
      substring 0 (k - f) m' ++ "." ++ substring (k - f) f m'
  end.

(** The integer nearest to [m * 2^e * 10^f], the larger one on a tie. *)
Definition nearest_scaled (f : nat) (m : positive) (e : Z) : Z :=
  let p := 10 ^ Z.of_nat f in
  if 0 <=? e then Zpos m * 2 ^ e * p
  else (2 * Zpos m * p + 2 ^ (- e)) / 2 ^ (1 - e).

Definition toFixed (f : nat) (x : float) : string :=
  match Prim2SF x with
  | S754_nan => "NaN"
  | S754_infinity _ => Number_toString x
  | S754_zero _ => fixed_string f 0
  | S754_finite s m e =>
      if (1e21 <=? abs x)%float then Number_toString x
      else (if s then "-" else "") ++ fixed_string f (nearest_scaled f m e)
  end.

(** *** Reading numbers: StringToNumber ([Number(s)]) and [parseInt(s)] *)

(** The run of decimal digits at the head of [s]: their value appended to
    [acc], their count added to [cnt], and the rest. *)
Fixpoint scan_digits (s : string) (acc cnt : Z) : Z * Z * string :=
  match s with
  | String c r =>
      match digit_of_ascii c with
      | Some d => scan_digits r (acc * 10 + d) (cnt + 1)
      | None => (acc, cnt, s)
      end
  | EmptyString => (acc, cnt, s)
  end.

(** An optional ExponentPart: [None] when an [e] is not followed by a
    well-formed exponent. *)
Definition scan_exponent (s : string) : option (Z * string) :=
  match s with
  | String c r =>
      if (Ascii.eqb c "e" || Ascii.eqb c "E")%bool then
        let '(neg, r1) :=
          match r with
          | String "-" r' => (true, r')
          | String "+" r' => (false, r')
          | _ => (false, r)
          end in
        let '(v, cnt, r2) := scan_digits r1 0 0 in
        if cnt =? 0 then None else Some (if neg then - v else v, r2)
      else Some (0, s)
  | EmptyString => Some (0, s)
  end.

(** StrUnsignedDecimalLiteral without [Infinity]: digits, an optional
    fraction and an optional exponent, as mantissa and decimal exponent.
    With [strict] the JSON number grammar is applied: no superfluous leading
    zero, and digits on both sides of the point. *)
Definition scan_decimal (strict : bool) (s : string) : option (Z * Z * string) :=
  let '(ip, ic, r1) := scan_digits s 0 0 in
  let leading_zero :=
    match s with String "0" _ => 1 <? ic | _ => false end in
  if strict && ((ic =? 0) || leading_zero) then None
  else
    match r1 with
    | String "." r1' =>
        let '(m, fc, r2) := scan_digits r1' ip 0 in
        if (if strict then fc =? 0 else ic + fc =? 0) then None
        else
          match scan_exponent r2 with
          | Some (e, r3) => Some (m, e - fc, r3)
          | None => None
          end
    | _ =>
        if ic =? 0 then None
        else
          match scan_exponent r1 with
          | Some (e, r3) => Some (ip, e, r3)
          | None => None
          end
    end.

Definition digit_in_radix (radix : Z) (c : ascii) : option Z :=
  let n := Z.of_nat (nat_of_ascii c) in
  let d := if (48 <=? n) && (n <=? 57) then n - 48
           else if (97 <=? n) && (n <=? 122) then n - 87
           else if (65 <=? n) && (n <=? 90) then n - 55
           else 36 in
  if d <? radix then Some d else None.

Fixpoint scan_radix (radix : Z) (s : string) (acc cnt : Z) : Z * Z * string :=
  match s with
  | String c r =>
      match digit_in_radix radix c with
      | Some d => scan_radix radix r (acc * radix + d) (cnt + 1)
      | None => (acc, cnt, s)
      end
  | EmptyString => (acc, cnt, s)
  end.

(** An optional sign: whether it is [-], and the rest. *)
Definition strip_sign (t : string) : bool * string :=
  match t with
  | String c r =>
      if Ascii.eqb c "-" then (true, r)
      else if Ascii.eqb c "+" then (false, r)
      else (false, t)
  | EmptyString => (false, t)
  end.

(** The radix a prefix letter announces after a leading [0]. *)
Definition radix_letter (c : ascii) : option Z :=
  if (Ascii.eqb c "x" || Ascii.eqb c "X")%bool then Some 16
  else if (Ascii.eqb c "o" || Ascii.eqb c "O")%bool then Some 8
  else if (Ascii.eqb c "b" || Ascii.eqb c "B")%bool then Some 2
  else None.

(** A prefix [0x], [0o] or [0b] (in either case): its radix, and the rest. *)
Definition radix_prefix (t : string) : option (Z * string) :=
  match t with
  | String c0 (String c1 r) =>
      if Ascii.eqb c0 "0" then
        match radix_letter c1 with
        | Some radix => Some (radix, r)
        | None => None
        end
      else None
  | _ => None
  end.

(** [Number(s)] on a string. *)
Definition StringToNumber (s : string) : float :=
  let t := trim s in
  if is_empty t then zero
  else
    match radix_prefix t with
    | Some (radix, r) =>
        let '(v, cnt, rest) := scan_radix radix r 0 0 in
        if (0 <? cnt) && is_empty rest then Z2F v else nan
    | None =>
        let '(neg, u) := strip_sign t in
        if String.eqb u "Infinity" then (if neg then neg_infinity else infinity)
        else
          match scan_decimal false u with
          | Some (m, e, rest) => if is_empty rest then dec2F neg m e else nan
          | None => nan
          end
    end.

(** [parseInt(s)] on a string, no radix given. *)
Definition parseInt_string (s : string) : float :=
  let '(neg, u) := strip_sign (trimStart s) in
  let '(radix, digits) :=
    match radix_prefix u with
    | Some (16, r) => (16, r)
    | _ => (10, u)
    end in
  let '(v, cnt, _) := scan_radix radix digits 0 0 in
  if cnt =? 0 then nan
  else if v =? 0 then (if neg then neg_zero else zero)
  else Z2F (if neg then - v else v).

(** ** Values *)

(** The values the server handles: [undefined] and the JSON values, and
    [JNative n] for a built-in object reached as the member [n] of
    [Object.prototype] (the function [Object] for [constructor],
    [Object.prototype] itself for [__proto__]).  The own properties of a
    [JObj] are in the order they were written; a later one of the same name
    overrides an earlier one. *)
Inductive JVal : Type :=
| JUndefined
| JNull
| JBool (b : bool)
| JNum (x : float)
| JStr (s : string)
| JArr (items : list JVal)
| JObj (props : list (string * JVal))
| JNative (name : string).

(** The TypeErrors the engine raises in the server's code. *)
Inductive EngineError : Type :=
| NotAFunction (method : string)     (* calling a member that is no function *)
| CannotConvertToPrimitive           (* String(o), no usable toString/valueOf *)
| CannotDestructure.                 (* destructuring undefined or null *)

Inductive Result (A : Type) : Type :=
| Ok (a : A)
| Throw (e : EngineError).
Arguments Ok {A} a.
Arguments Throw {A} e.

Definition bind {A B : Type} (r : Result A) (k : A -> Result B) : Result B :=
  match r with
  | Ok a => k a
  | Throw e => Throw e
  end.

Notation "'let*' x ':=' r 'in' k" := (bind r (fun x => k))
  (at level 10, x name, r at level 100, k at level 200).

(** ToBoolean *)
Definition truthy (v : JVal) : bool :=
  match v with
  | JUndefined | JNull => false
  | JBool b => b
  | JNum x => Number_truthy x
  | JStr s => negb (is_empty s)
  | JArr _ | JObj _ | JNative _ => true
  end.

(** [a || b] and [a && b], both operands already evaluated *)
Definition or_else (a b : JVal) : JVal := if truthy a then a else b.
Definition and_then (a b : JVal) : JVal := if truthy a then b else a.

Fixpoint own_property (props : list (string * JVal)) (k : string) : option JVal :=
  match props with
  | [] => None
  | (k', v) :: r =>
      match own_property r k with
      | Some w => Some w
      | None => if String.eqb k' k then Some v else None
      end
  end.

(** The members of [Object.prototype] (ECMAScript 20.1.3 and B.2.2). *)
Definition Object_prototype_members : list string :=
  [ "constructor"; "hasOwnProperty"; "isPrototypeOf"; "propertyIsEnumerable";
    "toLocaleString"; "toString"; "valueOf"; "__proto__";
    "__defineGetter__"; "__defineSetter__"; "__lookupGetter__"; "__lookupSetter__" ].

Definition mem_string (k : string) (l : list string) : bool :=
  existsb (String.eqb k) l.

(** [o[k]] for an object literal [o] with the own properties [props]: an own
    property, else a member inherited from [Object.prototype], else
    [undefined]. *)
Definition lookup_literal (props : list (string * JVal)) (k : string) : JVal :=
  match own_property props k with
  | Some v => v
  | None => if mem_string k Object_prototype_members then JNative k else JUndefined
  end.

(** The property names the server reads from request bodies and from the
    elements of the model's answer.  None of them is a member of
    [Object.prototype], [Array.prototype], [String.prototype],
    [Number.prototype], [Boolean.prototype] or [Function.prototype]. *)
Inductive Field : Type :=
| F_topic | F_count | F_difficulty | F_text
| F_id | F_question | F_options | F_correctOption | F_explanation.

Definition field_name (f : Field) : string :=
  match f with
  | F_topic => "topic"
  | F_count => "count"
  | F_difficulty => "difficulty"
  | F_text => "text"
  | F_id => "id"
  | F_question => "question"
  | F_options => "options"
  | F_correctOption => "correctOption"
  | F_explanation => "explanation"
  end.

(** [v.f] for a value [v] other than [undefined] and [null]: an own property
    of an object, absent on everything else. *)
Definition get (v : JVal) (f : Field) : JVal :=
  match v with
  | JObj props =>
      match own_property props (field_name f) with
      | Some w => w
      | None => JUndefined
      end
  | _ => JUndefined
  end.

(** [String(v)], that is ToString.  An array joins the strings of its
    elements ([undefined] and [null] give the empty string).  An object is
    converted by its [toString]: the inherited one gives [[object Object]];
    an own property of that name is JSON data, not a function, and then the
    inherited [valueOf] returns the object itself, so the conversion throws. *)
Fixpoint ToString (v : JVal) : Result string :=
  match v with
  | JUndefined => Ok "undefined"
  | JNull => Ok "null"
  | JBool true => Ok "true"
  | JBool false => Ok "false"
  | JNum x => Ok (Number_toString x)
  | JStr s => Ok s
  | JArr items =>
      let* parts :=
        (fix each (l : list JVal) : Result (list string) :=
           match l with
           | [] => Ok []
           | x :: r =>
               let* s := match x with
                         | JUndefined | JNull => Ok ""
                         | _ => ToString x
                         end in
               let* ss := each r in
               Ok (s :: ss)
           end) items in
      Ok (join "," parts)
  | JObj props =>
      match own_property props "toString" with
      | Some _ => Throw CannotConvertToPrimitive
      | None => Ok "[object Object]"
      end
  | JNative name =>
      if String.eqb name "__proto__" then Ok "[object Object]"
      else Ok ("function " ++ (if String.eqb name "constructor" then "Object" else name)
               ++ "() { [native code] }")
  end.

(** [parseInt(v)]: the argument is converted with ToString first. *)
Definition parseInt (v : JVal) : Result float :=
  let* s := ToString v in Ok (parseInt_string s).

(** [Array.isArray(v)] *)
Definition isArray (v : JVal) : bool :=
  match v with JArr _ => true | _ => false end.

(** [v.length] of an array, as a Number *)
Definition Array_length (items : list JVal) : float := Z2F (Z.of_nat (List.length items)).

(** [[s1, ..., sn].includes(v)] for an array of strings (SameValueZero) *)
Definition includes (l : list string) (v : JVal) : bool :=
  match v with
  | JStr s => mem_string s l
  | _ => false
  end.

(** [l.map(f)] with the index, for a callback that may throw *)
Fixpoint map_indexed {A B : Type} (f : A -> nat -> Result B) (l : list A) (idx : nat)
  : Result (list B) :=
  match l with
  | [] => Ok []
  | x :: r =>
      let* y := f x idx in
      let* ys := map_indexed f r (S idx) in
      Ok (y :: ys)
  end.

(** [v.slice(0, n)]: strings and arrays have the method. *)
Definition slice0 (n : nat) (v : JVal) : Result JVal :=
  match v with
  | JStr s => Ok (JStr (String_slice0 n s))
  | JArr items => Ok (JArr (firstn n items))
  | _ => Throw (NotAFunction "slice")
  end.

(** [v.m()] for a method [m] of strings only *)
Definition string_method (m : string) (f : string -> string) (v : JVal) : Result string :=
  match v with
  | JStr s => Ok (f s)
  | _ => Throw (NotAFunction m)
  end.

(** ** A reference reading of JSON text

    [JSON.parse] is the engine's; the handlers below take it as a parameter.
    This reader follows the JSON grammar (ECMA-404) and serves to run the
    handlers on concrete texts.  It returns [None] where [JSON.parse] throws
    a SyntaxError.  An escape [\uXXXX] of a code unit above 255 has no
    counterpart in the string model and is refused as well. *)

Definition dquote : ascii := ascii_of_nat 34.
Definition backslash : ascii := ascii_of_nat 92.

Definition is_json_space (c : ascii) : bool :=
  let n := nat_of_ascii c in
  (n =? 32)%nat || (n =? 9)%nat || (n =? 10)%nat || (n =? 13)%nat.

Fixpoint skip_space (s : string) : string :=
  match s with
  | String c r => if is_json_space c then skip_space r else s
  | EmptyString => EmptyString
  end.

Fixpoint strip_prefix (p s : string) : option string :=
  match p, s with
  | EmptyString, _ => Some s
  | String a p', String b s' => if Ascii.eqb a b then strip_prefix p' s' else None
  | String _ _, EmptyString => None
  end.

Definition hex4 (a b c d : ascii) : option Z :=
  match digit_in_radix 16 a, digit_in_radix 16 b, digit_in_radix 16 c, digit_in_radix 16 d with
  | Some x, Some y, Some z, Some w => Some (((x * 16 + y) * 16 + z) * 16 + w)
  | _, _, _, _ => None
  end.

Definition simple_escape (c : ascii) : option ascii :=
  let n := nat_of_ascii c in
  if (n =? 34)%nat || (n =? 92)%nat || (n =? 47)%nat then Some c
  else if (n =? 98)%nat then Some (ascii_of_nat 8)
  else if (n =? 102)%nat then Some (ascii_of_nat 12)
  else if (n =? 110)%nat then Some (ascii_of_nat 10)
  else if (n =? 114)%nat then Some (ascii_of_nat 13)
  else if (n =? 116)%nat then Some (ascii_of_nat 9)
  else None.

(** The characters of a string literal after its opening quote, up to the
    closing one. *)
Fixpoint read_string (s : string) : option (string * string) :=
  match s with
  | EmptyString => None
  | String c r =>
      if Ascii.eqb c dquote then Some (EmptyString, r)
      else if Ascii.eqb c backslash then
        match r with
        | String "u" (String h1 (String h2 (String h3 (String h4 r')))) =>
            match hex4 h1 h2 h3 h4 with
            | Some n =>
                if n <? 256 then
                  match read_string r' with
                  | Some (t, rest) => Some (String (ascii_of_nat (Z.to_nat n)) t, rest)
                  | None => None
                  end
                else None
            | None => None
            end
        | String e r' =>
            match simple_escape e with
            | Some x =>
                match read_string r' with
                | Some (t, rest) => Some (String x t, rest)
                | None => None
                end
            | None => None
            end
        | EmptyString => None
        end
      else if (nat_of_ascii c <? 32)%nat then None
      else
        match read_string r with
        | Some (t, rest) => Some (String c t, rest)
        | None => None
        end
  end.

Definition read_number (s : string) : option (JVal * string) :=
  let '(neg, u) := match s with String "-" r => (true, r) | _ => (false, s) end in
  match scan_decimal true u with
  | Some (m, e, rest) => Some (JNum (dec2F neg m e), rest)
  | None => None
  end.

Fixpoint read_value (fuel : nat) (s : string) : option (JVal * string) :=
  match fuel with
  | O => None
  | S f =>
      match skip_space s with
      | EmptyString => None
      | String c r as t =>
          if Ascii.eqb c dquote then
            match read_string r with
            | Some (x, rest) => Some (JStr x, rest)
            | None => None
            end
          else if Ascii.eqb c "[" then
            match skip_space r with
            | String "]" rest => Some (JArr [], rest)
            | r' => read_items f r' []
            end
          else if Ascii.eqb c "{" then
            match skip_space r with
            | String "}" rest => Some (JObj [], rest)
            | r' => read_members f r' []
            end
          else
            match strip_prefix "null" t, strip_prefix "true" t, strip_prefix "false" t with
            | Some rest, _, _ => Some (JNull, rest)
            | _, Some rest, _ => Some (JBool true, rest)
            | _, _, Some rest => Some (JBool false, rest)
            | None, None, None => read_number t
            end
      end
  end
with read_items (fuel : nat) (s : string) (acc : list JVal) : option (JVal * string) :=
  match fuel with
  | O => None
  | S f =>
      match read_value f s with
      | Some (v, r) =>
          match skip_space r with
          | String "," r' => read_items f r' (v :: acc)
          | String "]" rest => Some (JArr (rev (v :: acc)), rest)
          | _ => None
          end
      | None => None
      end
  end
with read_members (fuel : nat) (s : string) (acc : list (string * JVal)) : option (JVal * string) :=
  match fuel with
  | O => None
  | S f =>
      match skip_space s with
      | String c r =>
          if Ascii.eqb c dquote then
            match read_string r with
            | Some (k, r1) =>
                match skip_space r1 with
                | String ":" r2 =>
                    match read_value f r2 with
                    | Some (v, r3) =>
                        match skip_space r3 with
                        | String "," r4 => read_members f r4 ((k, v) :: acc)
                        | String "}" rest => Some (JObj (rev ((k, v) :: acc)), rest)
                        | _ => None
                        end
                    | None => None
                    end
                | _ => None
                end
            | None => None
            end
          else None
      | EmptyString => None
      end
  end.

Definition JSON_parse_reference (text : string) : option JVal :=
  match read_value (2 * String.length text + 2) text with
  | Some (v, rest) => if is_empty (skip_space rest) then Some v else None
  | None => None
  end.

End JS.

(* ================================================================== *)
(** * server.js *)
(* ================================================================== *)

Module Server.
Import JS.

(** [process.env]: the one variable the server reads. *)
Record ProcessEnv := { OPENAI_API_KEY : option string }.

(** A failure object, as the invocation layer throws it: an optional
    HTTP-like [status], an optional network [code], an optional [message]. *)
Record Failure := {
  status : option float;
  code : option string;
  message : option string
}.

(** What [openai.chat.completions.create] resolves to. *)
Record Message := { content : option string }.
Record Choice := { choice_message : option Message }.
Record Usage := {
  prompt_tokens : option float;
  input_tokens : option float;
  completion_tokens : option float;
  output_tokens : option float
}.
Record Completion := { choices : list Choice; usage : option Usage }.

(** The outcome of the awaited call; a rejection may carry any value, also
    [undefined] ([None]). *)
Inductive ModelOutcome : Type :=
| Fulfilled (completion : Completion)
| Rejected (err : option Failure).

(** The user message of a request: the prompt template with the texts that
    fill its holes. *)
Inductive Prompt : Type :=
| QuizPrompt (requestCount safeTopic DIFFICULTY difficultyDescription : string)
| ExplainPrompt (safeTopic level safeText : string).

Record ChatRequest := { model : string; system : string; user : Prompt }.

(** [console.error] lines and the HTTP response. *)
Inductive LogArg : Type :=
| LText (s : string)
| LError (err : option Failure)
| LValue (v : JVal).

Record Response := { http_status : Z; json : JVal }.
Record Reply := { console : list (list LogArg); response : Response }.

(** A handler answers at once, or awaits one call of the model and answers
    from its outcome. *)
Inductive Handler : Type :=
| Respond (r : Reply)
| Await (req : ChatRequest) (k : ModelOutcome -> Reply).

Definition model_calls (h : Handler) : nat :=
  match h with
  | Respond _ => 0
  | Await _ _ => 1
  end.

Definition run (openai : ChatRequest -> ModelOutcome) (h : Handler) : Reply :=
  match h with
  | Respond r => r
  | Await req k => k (openai req)
  end.

(** An optional text or number that is truthy, with its value. *)
Definition truthy_string (o : option string) : option string :=
  match o with
  | Some s => if is_empty s then None else Some s
  | None => None
  end.

Definition truthy_number (o : option float) : option float :=
  match o with
  | Some x => if Number_truthy x then Some x else None
  | None => None
  end.

(** [err && err.f] *)
Definition err_field {A : Type} (f : Failure -> option A) (err : option Failure) : option A :=
  match err with Some e => f e | None => None end.

Definition network_codes : list string :=
  ["ENOTFOUND"; "ECONNREFUSED"; "ECONNRESET"; "ETIMEDOUT"].

(** server.js, [buildErrorDebugInfo(err)] *)
Definition buildErrorDebugInfo (env : ProcessEnv) (err : option Failure) : string :=
  let fallback :=
    match truthy_string (err_field message err) with
    | Some m => "Unexpected error: " ++ m
    | None => "Unknown error occurred while calling OpenAI."
    end in
  match truthy_string (OPENAI_API_KEY env) with
  | None => "Missing OPENAI_API_KEY in .env. Set it and restart the server."
  | Some _ =>
      match truthy_number (err_field status err) with
      | Some st =>
          let base := "OpenAI API error (status " ++ Number_toString st ++ ")." in
          if (st =? 401)%float then base ++ " Authentication failed. Check your API key."
          else if (st =? 429)%float then base ++ " Rate limit or quota exceeded."
          else if (500 <=? st)%float then base ++ " OpenAI server side error, try again."
          else base ++ " Check server logs for more details."
      | None =>
          match truthy_string (err_field code err) with
          | Some c =>
              if mem_string c network_codes
              then "Network error (" ++ c
                   ++ ") while contacting OpenAI. Check your internet connection or firewall."
              else fallback
          | None => fallback
          end
      end
  end.

(** *** Input sanitization (both handlers) *)

Definition default_topic : string := "AZ-900 (Microsoft Azure Fundamentals)".

(** [const { ... } = req.body] *)
Definition destructure (body : JVal) : Result JVal :=
  match body with
  | JUndefined | JNull => Throw CannotDestructure
  | _ => Ok body
  end.

(** [Math.min(Math.max(parseInt(count) || 5, 1), 15)] *)
Definition numQuestions (count : JVal) : Result float :=
  let* n := parseInt count in
  Ok (Math_min (Math_max (if Number_truthy n then n else 5%float) 1) 15).

(** [(topic || "AZ-900 (Microsoft Azure Fundamentals)").slice(0, 80)] *)
Definition safeTopic (topic : JVal) : Result JVal :=
  slice0 80 (or_else topic (JStr default_topic)).

Definition difficultyMap : list (string * JVal) :=
  [ ("beginner", JStr "beginner");
    ("intermediate", JStr "intermediate");
    ("expert", JStr "expert") ].

(** [difficultyMap[(difficulty || "").toLowerCase()] || "beginner"] *)
Definition safeDifficulty (difficulty : JVal) : Result JVal :=
  let* key := string_method "toLowerCase" toLowerCase (or_else difficulty (JStr "")) in
  Ok (or_else (lookup_literal difficultyMap key) (JStr "beginner")).

(** [v === "s"] *)
Definition is_string (v : JVal) (s : string) : bool :=
  match v with
  | JStr t => String.eqb t s
  | _ => false
  end.

Definition difficultyDescription (safeDifficulty : JVal) : string :=
  if is_string safeDifficulty "beginner" then
    "Focus on fundamentals, clear definitions, and simple scenarios."
  else if is_string safeDifficulty "intermediate" then
    "Focus on applied scenarios, comparisons between services, and realistic use-cases."
  else
    "Focus on deeper scenarios, trade-offs, and multi-step reasoning similar to harder exam questions. Avoid obscure trivia.".

(** [Math.min(numQuestions + 3, 20)] *)
Definition requestCount (numQuestions : float) : float :=
  Math_min (numQuestions + 3)%float 20.

(** *** The quiz response validator *)

(** The filter: [q && q.question && Array.isArray(q.options) && q.options.length === 4] *)
Definition wellformed (q : JVal) : bool :=
  truthy q && truthy (get q F_question) &&
  match get q F_options with
  | JArr items => (List.length items =? 4)%nat
  | _ => false
  end.

(** The template [q${idx + 1}] *)
Definition fallback_id (idx : nat) : string :=
  "q" ++ Number_toString (Z2F (Z.of_nat idx) + 1)%float.

Definition option_letters : list string := ["A"; "B"; "C"; "D"].

(** The map callback: the object literal, its properties evaluated in order. *)
Definition cleanQuestion (q : JVal) (idx : nat) : Result JVal :=
  let id := or_else (get q F_id) (JStr (fallback_id idx)) in
  let* question := ToString (get q F_question) in
  let* options :=
    match get q F_options with
    | JArr items => map_indexed (fun o _ => let* s := ToString o in Ok (JStr s)) items 0
    | _ => Throw (NotAFunction "map")
    end in
  let correctOption :=
    if includes option_letters (get q F_correctOption)
    then get q F_correctOption else JStr "A" in
  let* explanation :=
    if truthy (get q F_explanation) then ToString (get q F_explanation) else Ok "" in
  Ok (JObj [ ("id", id);
             ("question", JStr question);
             ("options", JArr options);
             ("correctOption", correctOption);
             ("explanation", JStr explanation) ]).

(** [(questions || []).filter(...).map(...)] *)
Definition cleaned (questions : JVal) : Result (list JVal) :=
  match or_else questions (JArr []) with
  | JArr items => map_indexed cleanQuestion (filter wellformed items) 0
  | _ => Throw (NotAFunction "filter")
  end.

(** *** Cost estimation *)

(** [a ?? b] *)
Definition nullish {A : Type} (a : option A) (b : option A) : option A :=
  match a with Some _ => a | None => b end.

Definition or_zero (a : option float) : float :=
  match a with Some x => x | None => 0%float end.

(** [completion.usage || {}], then the two token counts *)
Definition promptTokens (c : Completion) : float :=
  match usage c with
  | Some u => or_zero (nullish (prompt_tokens u) (input_tokens u))
  | None => 0%float
  end.

Definition completionTokens (c : Completion) : float :=
  match usage c with
  | Some u => or_zero (nullish (completion_tokens u) (output_tokens u))
  | None => 0%float
  end.

Definition INPUT_PRICE_PER_M : float := 0.25.
Definition OUTPUT_PRICE_PER_M : float := 2.0.

Definition costUsd (promptTokens completionTokens : float) : float :=
  ((promptTokens * INPUT_PRICE_PER_M + completionTokens * OUTPUT_PRICE_PER_M) / 1000000)%float.

(** [Number(costUsd.toFixed(6))] *)
Definition estimatedCostUsd (promptTokens completionTokens : float) : float :=
  StringToNumber (toFixed 6 (costUsd promptTokens completionTokens)).

(** [completion.choices[0]?.message?.content]: [None] when the choice, its
    message or the content is missing ([undefined] or [null]) *)
Definition first_content (c : Completion) : option string :=
  match choices c with
  | ch :: _ =>
      match choice_message ch with
      | Some m => content m
      | None => None
      end
  | [] => None
  end.

(** [completion.choices[0]?.message?.content?.trim() || dflt] *)
Definition content_or (c : Completion) (dflt : string) : string :=
  match truthy_string (option_map trim (first_content c)) with
  | Some t => t
  | None => dflt
  end.

(** *** The request handlers

    Two things are the engine's and stay parameters: [JSON.parse] ([None]
    where it throws a SyntaxError) and the wording of the messages of the
    TypeErrors it raises. *)

Section Handlers.

Variable JSON_parse : string -> option JVal.
Variable error_message : EngineError -> string.
Variable env : ProcessEnv.

(** The TypeError object thrown for an engine error: it has a message and
    neither status nor code. *)
Definition TypeError (e : EngineError) : Failure :=
  {| status := None; code := None; message := Some (error_message e) |}.

(** [res.status(n).json(...)] *)
Definition reply (logs : list (list LogArg)) (st : Z) (body : JVal) : Reply :=
  {| console := logs; response := {| http_status := st; json := body |} |}.

Definition error_body (error debug : string) : JVal :=
  JObj [("error", JStr error); ("debug", JStr debug)].

(** The [catch (err)] clause that closes each handler. *)
Definition unhandled (route : string) (e : EngineError) : Reply :=
  let err := Some (TypeError e) in
  reply [[LText ("[UNHANDLED ERROR in " ++ route ++ "]"); LError err]]
        500 (error_body "Internal server error." (buildErrorDebugInfo env err)).

Definition newline : string := String (ascii_of_nat 10) EmptyString.

(** **** [POST /api/generate-quiz] *)

(** The sanitized request: [safeTopic], [numQuestions], [safeDifficulty]. *)
Record QuizRequest := {
  quiz_topic : JVal;
  quiz_count : float;
  quiz_difficulty : JVal
}.

Definition sanitize (body : JVal) : Result QuizRequest :=
  let* b := destructure body in
  let* n := numQuestions (get b F_count) in
  let* t := safeTopic (get b F_topic) in
  let* d := safeDifficulty (get b F_difficulty) in
  Ok {| quiz_topic := t; quiz_count := n; quiz_difficulty := d |}.

(** The template literal: its holes are converted from left to right. *)
Definition quiz_prompt (s : QuizRequest) : Result Prompt :=
  let description := difficultyDescription (quiz_difficulty s) in
  let count_text := Number_toString (requestCount (quiz_count s)) in
  let* topic_text := ToString (quiz_topic s) in
  let* upper := string_method "toUpperCase" toUpperCase (quiz_difficulty s) in
  Ok (QuizPrompt count_text topic_text upper description).

Definition quiz_request (p : Prompt) : ChatRequest :=
  {| model := "gpt-5-mini";
     system := "You generate exam-style multiple-choice questions in clean JSON.";
     user := p |}.

Definition originalLength (questions : JVal) : JVal :=
  match questions with
  | JArr items => JNum (Array_length items)
  | _ => JNull
  end.

Definition usage_body (c : Completion) : JVal :=
  let p := promptTokens c in
  let k := completionTokens c in
  JObj [ ("promptTokens", JNum p);
         ("completionTokens", JNum k);
         ("totalTokens", JNum (p + k)%float);
         ("estimatedCostUsd", JNum (estimatedCostUsd p k)) ].

(** The handler from the awaited call on. *)
Definition quiz_reply (s : QuizRequest) (outcome : ModelOutcome) : Result Reply :=
  match outcome with
  | Rejected openAiErr =>
      Ok (reply [[LText "[OpenAI ERROR]"; LError openAiErr]]
                500 (error_body "Failed to call OpenAI API."
                                (buildErrorDebugInfo env openAiErr)))
  | Fulfilled completion =>
      let raw := content_or completion "[]" in
      match JSON_parse raw with
      | None =>
          Ok (reply [ [LText "[JSON PARSE ERROR] Could not parse AI output as JSON."];
                      [LText ("Raw content from OpenAI:" ++ newline); LText raw] ]
                    500
                    (error_body "Failed to parse questions from AI (invalid JSON)."
                       "The model did not return valid JSON. Check the prompt or inspect server logs to see the raw output."))
      | Some questions =>
          let* cl := cleaned questions in
          match cl with
          | [] =>
              Ok (reply [ [LText "[VALIDATION ERROR] No valid questions after cleaning.";
                           LValue (JObj [("originalLength", originalLength questions)])] ]
                        500
                        (error_body "No valid questions generated from AI."
                           "The AI response did not contain properly formatted questions. Try again or adjust the prompt."))
          | _ :: _ =>
              Ok (reply [] 200
                        (JObj [ ("topic", quiz_topic s);
                                ("difficulty", quiz_difficulty s);
                                ("questions", JArr cl);
                                ("usage", usage_body completion) ]))
          end
      end
  end.

Definition quiz_route : string := "/api/generate-quiz".

Definition generate_quiz (body : JVal) : Handler :=
  match (let* s := sanitize body in let* p := quiz_prompt s in Ok (s, p)) with
  | Throw e => Respond (unhandled quiz_route e)
  | Ok (s, p) =>
      Await (quiz_request p)
            (fun outcome =>
               match quiz_reply s outcome with
               | Ok r => r
               | Throw e => unhandled quiz_route e
               end)
  end.

(** **** [POST /api/explain] *)

(** The guard [!text || !text.trim()] *)
Definition no_text (text : JVal) : Result bool :=
  if truthy text
  then let* t := string_method "trim" trim text in Ok (is_empty t)
  else Ok true.

Definition level (difficultyLabel : string) : string :=
  if String.eqb difficultyLabel "expert" then
    "advanced (assume some prior Azure knowledge, focus on depth)"
  else if String.eqb difficultyLabel "intermediate" then
    "intermediate (mix of plain language and technical detail)"
  else "beginner (plain language, minimal jargon)".

(** From [safeTopic] to the prompt; the sanitized topic goes into the
    answer as well. *)
Definition explain_prompt (topic text difficulty : JVal) : Result (JVal * Prompt) :=
  let* topic' := safeTopic topic in
  let* safeText := slice0 500 text in
  let* difficultyLabel :=
    string_method "toLowerCase" toLowerCase (or_else difficulty (JStr "beginner")) in
  let* topic_text := ToString topic' in
  let* snippet := ToString safeText in
  Ok (topic', ExplainPrompt topic_text (level difficultyLabel) snippet).

Definition explain_request (p : Prompt) : ChatRequest :=
  {| model := "gpt-5-mini";
     system := "You explain cloud/IT concepts clearly for exam students.";
     user := p |}.

Definition explain_reply (topic' : JVal) (outcome : ModelOutcome) : Reply :=
  match outcome with
  | Rejected openAiErr =>
      reply [[LText "[OpenAI ERROR /api/explain]"; LError openAiErr]]
            500 (error_body "Failed to call OpenAI API for explanation."
                            (buildErrorDebugInfo env openAiErr))
  | Fulfilled completion =>
      let explanation := content_or completion "Sorry, I could not generate an explanation." in
      reply [] 200 (JObj [("topic", topic'); ("explanation", JStr explanation)])
  end.

Definition explain_route : string := "/api/explain".

Definition explain (req_body : JVal) : Handler :=
  let body := or_else req_body (JObj []) in
  let topic := get body F_topic in
  let text := get body F_text in
  let difficulty := get body F_difficulty in
  match no_text text with
  | Throw e => Respond (unhandled explain_route e)
  | Ok true =>
      Respond (reply [] 400 (JObj [("error", JStr "No text provided to explain.")]))
  | Ok false =>
      match explain_prompt topic text difficulty with
      | Throw e => Respond (unhandled explain_route e)
      | Ok (topic', p) => Await (explain_request p) (explain_reply topic')
      end
  end.

End Handlers.

(** One engine's wording of the TypeError messages, to run the handlers on
    concrete requests. *)
Definition sample_message (e : EngineError) : string :=
  match e with
  | NotAFunction m => m ++ " is not a function"
  | CannotConvertToPrimitive => "Cannot convert object to primitive value"
  | CannotDestructure => "Cannot destructure property of undefined"
  end.

End Server.

(* ================================================================== *)
(** * The vocabulary of the specification *)
(* ================================================================== *)

Module Spec.
Import JS Server.

(** ** Error classification (specification 4.6) *)

Definition credential_configured (env : ProcessEnv) : Prop :=
  exists key, OPENAI_API_KEY env = Some key /\ key <> "".

(** The failure carries an HTTP-like status: a Number other than 0 and NaN. *)
Definition has_status (err : option Failure) (st : float) : Prop :=
  exists e, err = Some e /\ status e = Some st /\ Number_truthy st = true.

(** The network codes the classifier is to know: host not found, connection
    refused, connection reset, timed out. *)
Definition known_network_codes : list string :=
  ["ENOTFOUND"; "ECONNREFUSED"; "ECONNRESET"; "ETIMEDOUT"].

(** The failure carries one of the four network codes. *)
Definition has_network_code (err : option Failure) (c : string) : Prop :=
  exists e, err = Some e /\ code e = Some c /\ In c known_network_codes.

Definition has_message (err : option Failure) (m : string) : Prop :=
  exists e, err = Some e /\ message e = Some m /\ m <> "".

Definition status_text (st : float) : string :=
  "OpenAI API error (status " ++ Number_toString st ++ ").".

(** ** Requests and completions *)

(** Only white space, or nothing at all. *)
Definition blank (s : string) : Prop :=
  forall c, In c (list_ascii_of_string s) -> is_white_space c = true.

(** The completion has no text: the content is missing or blank. *)
Definition no_text_content (c : Completion) : Prop :=
  match first_content c with
  | Some s => blank s
  | None => True
  end.

(** The [text] field of an explain request, as the handler reads it. *)
Definition request_text (body : JVal) : JVal :=
  get (or_else body (JObj [])) F_text.

(** ** The quiz response validator (specification 4.4) *)

(** The elements to keep in the words of the specification: those with a
    non-empty question text and an options array of exactly four elements. *)
Definition claimed_survivor (q : JVal) : bool :=
  match get q F_question, get q F_options with
  | JStr s, JArr [_; _; _; _] => negb (is_empty s)
  | _, _ => false
  end.

(** The values that count as false in a condition. *)
Inductive Falsy : JVal -> Prop :=
| Falsy_undefined : Falsy JUndefined
| Falsy_null : Falsy JNull
| Falsy_false : Falsy (JBool false)
| Falsy_zero (x : float) : is_zero x = true -> Falsy (JNum x)
| Falsy_nan (x : float) : is_nan x = true -> Falsy (JNum x)
| Falsy_empty : Falsy (JStr "").

(** The elements the filter keeps: the question is any value that does not
    count as false, the options are an array of four. *)
Definition Survives (q : JVal) : Prop :=
  ~ Falsy (get q F_question)
  /\ exists a b c d, get q F_options = JArr [a; b; c; d].

(** [kept] holds the surviving elements of [items], in their order. *)
Inductive Kept : list JVal -> list JVal -> Prop :=
| Kept_nil : Kept [] []
| Kept_keep (q : JVal) (items kept : list JVal) :
    Survives q -> Kept items kept -> Kept (q :: items) (q :: kept)
| Kept_drop (q : JVal) (items kept : list JVal) :
    ~ Survives q -> Kept items kept -> Kept (q :: items) kept.

Definition letter_values : list JVal := [JStr "A"; JStr "B"; JStr "C"; JStr "D"].

(** [c] is the cleaned form of the element [q] at position [idx] (from 0)
    of the surviving list. *)
Definition Normalized (idx : nat) (q c : JVal) : Prop :=
  exists (id : JVal) (question : string) (options : list string)
         (correctOption : JVal) (explanation : string),
    c = JObj [ ("id", id);
               ("question", JStr question);
               ("options", JArr (map JStr options));
               ("correctOption", correctOption);
               ("explanation", JStr explanation) ]
    /\ (Falsy (get q F_id) -> id = JStr (fallback_id idx))
    /\ (~ Falsy (get q F_id) -> id = get q F_id)
    /\ ToString (get q F_question) = Ok question
    /\ (exists items,
          get q F_options = JArr items
          /\ Forall2 (fun o s => ToString o = Ok s) items options)
    /\ (In (get q F_correctOption) letter_values -> correctOption = get q F_correctOption)
    /\ (~ In (get q F_correctOption) letter_values -> correctOption = JStr "A")
    /\ (Falsy (get q F_explanation) -> explanation = "")
    /\ (~ Falsy (get q F_explanation) -> ToString (get q F_explanation) = Ok explanation).

(** [String(...)] throws on the question, on an option or on the
    explanation of [q]. *)
Definition Unconvertible (q : JVal) : Prop :=
  (exists e, ToString (get q F_question) = Throw e)
  \/ (exists items o e,
        get q F_options = JArr items /\ In o items /\ ToString o = Throw e)
  \/ (~ Falsy (get q F_explanation)
      /\ exists e, ToString (get q F_explanation) = Throw e).

(** [R] relates the elements of two lists position by position, the
    positions counted from [i]. *)
Inductive Forall2_from {A B : Type} (R : nat -> A -> B -> Prop)
  : nat -> list A -> list B -> Prop :=
| Forall2_from_nil (i : nat) : Forall2_from R i [] []
| Forall2_from_cons (i : nat) (a : A) (b : B) (l : list A) (l' : list B) :
    R i a b -> Forall2_from R (S i) l l' -> Forall2_from R i (a :: l) (b :: l').

(** Two answers of a model: an element whose question is an empty array,
    and an element whose id is the number 0. *)
Definition four_options : JVal := JArr [JStr "a"; JStr "b"; JStr "c"; JStr "d"].

Definition element_without_question_text : JVal :=
  JObj [("question", JArr []); ("options", four_options)].

Definition element_with_id_zero : JVal :=
  JObj [("id", JNum 0); ("question", JStr "What is a VNet?"); ("options", four_options);
        ("correctOption", JStr "B")].

(** ** Cost estimation (specification 4.5) *)

(** Decimal numerals: whether every character is a digit, and the value
    appended to [acc]. *)
Fixpoint all_digits (s : string) : bool :=
  match s with
  | EmptyString => true
  | String c r =>
      match digit_of_ascii c with
      | Some _ => all_digits r
      | None => false
      end
  end.

Fixpoint digits_value (s : string) (acc : Z) : Z :=
  match s with
  | EmptyString => acc
  | String c r =>
      match digit_of_ascii c with
      | Some d => digits_value r (acc * 10 + d)
      | None => acc
      end
  end.

(** A numeral with a decimal point, as [toFixed] prints it. *)
Definition point_numeral (neg : bool) (a b : string) : string :=
  (if neg then "-" else "") ++ a ++ "." ++ b.

(** The integer nearest to [num/den], a tie going up, or to the even one. *)
Definition round_half_up (num den : Z) : Z := (2 * num + den) / (2 * den).

Definition round_half_even (num den : Z) : Z :=
  let q := num / den in
  let r := num mod den in
  match 2 * r ?= den with
  | Lt => q
  | Gt => q + 1
  | Eq => if Z.even q then q else q + 1
  end.

(** The cost in millionths of a dollar in the words of the specification,
    for whole token counts: [(p * 0.25 + c * 2.0) / 1000000] is
    [(p + 8 c) / 4] millionths, rounded to a whole number of them. *)
Definition claimed_cost_micro (promptTokens completionTokens : Z) : Z :=
  round_half_up (promptTokens + 8 * completionTokens) 4.

(** ** The question count (specification 4.1) *)

(** The clamp of the handler, applied to the result [n] of [parseInt]. *)
Definition clamp_count (n : float) : float :=
  Math_min (Math_max (if Number_truthy n then n else 5%float) 1) 15.

(** ** Topic sanitization (specification 4.1) *)

(** A topic field that holds text, or is absent. *)
Definition topic_value (topic : option string) : JVal :=
  match topic with
  | Some s => JStr s
  | None => JUndefined
  end.

(** The sanitized topic in the words of the specification: the input
    trimmed, the fallback when that is empty or the input is absent, cut to 80
    characters. *)
Definition claimed_safeTopic (topic : option string) : string :=
  let trimmed := match topic with Some s => trim s | None => "" end in
  String_slice0 80 (if is_empty trimmed then default_topic else trimmed).

(** ** Idempotence of sanitization (specification 8) *)

(** A sanitized quiz request, submitted as a request body again. *)
Definition resubmit (s : QuizRequest) : JVal :=
  JObj [ ("topic", quiz_topic s);
         ("count", JNum (quiz_count s));
         ("difficulty", quiz_difficulty s) ].

(** ** The failure responses *)

Definition invalid_json_response : Response :=
  {| http_status := 500;
     json := error_body "Failed to parse questions from AI (invalid JSON)."
               "The model did not return valid JSON. Check the prompt or inspect server logs to see the raw output." |}.

Definition no_questions_response : Response :=
  {| http_status := 500;
     json := error_body "No valid questions generated from AI."
               "The AI response did not contain properly formatted questions. Try again or adjust the prompt." |}.

Definition no_text_response : Response :=
  {| http_status := 400;
     json := JObj [("error", JStr "No text provided to explain.")] |}.

Definition internal_error_response (debug : string) : Response :=
  {| http_status := 500; json := error_body "Internal server error." debug |}.

(** The [error] text of a response body. *)
Definition error_text (r : Response) : option JVal :=
  match json r with
  | JObj props => own_property props "error"
  | _ => None
  end.

(** A completion with one choice of the given text, and a usage report. *)
Definition completion_with_text (text : string) : Completion :=
  {| choices := [{| choice_message := Some {| content := Some text |} |}];
     usage := Some {| prompt_tokens := Some 1000%float; input_tokens := None;
                      completion_tokens := Some 500%float; output_tokens := None |} |}.

(** The model answers every request with the completion [c]. *)
Definition answers (c : Completion) : ChatRequest -> ModelOutcome :=
  fun _ => Fulfilled c.

End Spec.

(* ================================================================== *)
(** * public/script.js *)
(* ================================================================== *)

(** The page's script, as far as it computes: the request bodies it builds
    from the form and from the selected text, the letters it gives to the
    options of a question, the line it writes for a failed request and the
    position of the dragged chat window.  (Grading looks the checked radio
    button up in the document by the id of the question; the document is not
    modelled.) *)

Module Client.
Import JS Server.

(** [topicInput.value.trim() || "AZ-900 (Microsoft Azure Fundamentals)"] *)
Definition topic_field (value : string) : string :=
  let t := trim value in
  if is_empty t then "AZ-900 (Microsoft Azure Fundamentals)" else t.

(** [parseInt(countInput.value) || 5] *)
Definition count_field (value : string) : float :=
  let n := parseInt_string value in
  if Number_truthy n then n else 5%float.

(** [difficultySelect.value || "beginner"] *)
Definition difficulty_field (value : string) : string :=
  if is_empty value then "beginner" else value.

(** A Number as the server reads it back from the JSON text of the body:
    [JSON.stringify] prints [null] for an infinity or NaN and [0] for [-0],
    and the shortest numeral of any other Number, which reads back as that
    Number. *)
Definition wire_number (x : float) : JVal :=
  if is_nan x || is_infinity x then JNull
  else if is_zero x then JNum 0
  else JNum x.

(** The body of the quiz request: [JSON.stringify({ topic, count, difficulty })]
    for the values of the three inputs of the form. *)
Definition quiz_body (topic count difficulty : string) : JVal :=
  JObj [ ("topic", JStr (topic_field topic));
         ("count", wire_number (count_field count));
         ("difficulty", JStr (difficulty_field difficulty)) ].

(** The [mouseup] listener: the new value of [lastSelectionText], for the
    text of the selection ([None] when there is no selection object). *)
Definition mouseup_selection (selection : option string) : string :=
  let text := match selection with Some s => trim s | None => "" end in
  if is_empty text || (String.length text <? 2)%nat || (200 <? String.length text)%nat
  then ""
  else text.

(** [(topicInput && topicInput.value.trim()) || "AZ-900 ..."] and
    [difficultySelect && difficultySelect.value ? difficultySelect.value : "beginner"],
    for the values of the two inputs ([None] when the element is missing). *)
Definition explain_topic (topicInput : option string) : string :=
  match topicInput with
  | Some value => topic_field value
  | None => "AZ-900 (Microsoft Azure Fundamentals)"
  end.

Definition explain_difficulty (difficultySelect : option string) : string :=
  match difficultySelect with
  | Some value => difficulty_field value
  | None => "beginner"
  end.

(** The click on [Explain this]: nothing is sent when the trimmed
    [lastSelectionText] is empty, else the body
    [JSON.stringify({ topic, text, difficulty })]. *)
Definition explain_body (lastSelectionText : string)
  (topicInput difficultySelect : option string) : option JVal :=
  let text := trim lastSelectionText in
  if is_empty text then None
  else Some (JObj [ ("topic", JStr (explain_topic topicInput));
                    ("text", JStr text);
                    ("difficulty", JStr (explain_difficulty difficultySelect)) ]).

(** [["A", "B", "C", "D"][optIndex] || "A"] *)
Definition letter (optIndex : nat) : string :=
  match nth_error ["A"; "B"; "C"; "D"] optIndex with
  | Some l => l
  | None => "A"
  end.

(** [renderQuestions]: the values of the radio buttons of a question, one
    for each of its options, in their order. *)
Definition radio_values (q : JVal) : Result (list string) :=
  match get q F_options with
  | JArr options => Ok (map letter (seq 0 (List.length options)))
  | _ => Throw (NotAFunction "forEach")
  end.

(** [res.ok]: the status is in the range 200-299. *)
Definition ok (status : Z) : bool := (200 <=? status) && (status <=? 299).

(** What the page writes when the answer is not [ok]:
    [throw new Error(errorData.error || fallback)], caught by the handler's own
    [catch (err)], which writes ["Error: " + err.message]; for [errorData] an
    object with the own properties given.  [Throw] where [String(...)] throws
    on the value. *)
Definition failure_line (fallback : string) (errorData : list (string * JVal))
  : Result string :=
  let error := match own_property errorData "error" with
               | Some v => v
               | None => JUndefined
               end in
  let* message := ToString (or_else error (JStr fallback)) in
  Ok ("Error: " ++ message).

(** The [mousemove] listener while the chat window is dragged: its new
    [left] (or [top]) from the pointer's coordinate, the drag offset, the
    inner width (height) of the window and the width (height) of the chat.
    [newLeft > maxLeft] is [maxLeft < newLeft]. *)
Definition dragged_position (client dragOffset inner size : float) : float :=
  let padding := 8%float in
  let newPos := (client - dragOffset)%float in
  let maxPos := (inner - size - padding)%float in
  let newPos := if (newPos <? padding)%float then padding else newPos in
  if (maxPos <? newPos)%float then maxPos else newPos.

End Client.

(* ================================================================== *)
(** * The vocabulary of the further properties *)
(* ================================================================== *)

Module Props.
Import JS Server.

(** The numbers of questions a prompt can ask for. *)
Definition request_counts : list string :=
  ["4"; "5"; "6"; "7"; "8"; "9"; "10"; "11"; "12"; "13"; "14"; "15"; "16"; "17"; "18"].

(** The three levels as the quiz prompt words them, each with its
    description. *)
Definition quiz_levels : list (string * string) :=
  [ ("BEGINNER", "Focus on fundamentals, clear definitions, and simple scenarios.");
    ("INTERMEDIATE",
     "Focus on applied scenarios, comparisons between services, and realistic use-cases.");
    ("EXPERT",
     "Focus on deeper scenarios, trade-offs, and multi-step reasoning similar to harder exam questions. Avoid obscure trivia.") ].

(** The three levels as the explain prompt words them. *)
Definition explain_levels : list string :=
  [ "beginner (plain language, minimal jargon)";
    "intermediate (mix of plain language and technical detail)";
    "advanced (assume some prior Azure knowledge, focus on depth)" ].

(** The values a sanitized difficulty can have: a level. *)
Definition level_values : list JVal :=
  [JStr "beginner"; JStr "intermediate"; JStr "expert"].

(** A question as the quiz answer carries it: an id that is not falsy, the
    question as text, four options as text, the letter of the correct
    option, the explanation as text. *)
Definition CleanQuestion (c : JVal) : Prop :=
  exists (id : JVal) (question o1 o2 o3 o4 correct explanation : string),
    c = JObj [ ("id", id);
               ("question", JStr question);
               ("options", JArr [JStr o1; JStr o2; JStr o3; JStr o4]);
               ("correctOption", JStr correct);
               ("explanation", JStr explanation) ]
    /\ truthy id = true
    /\ In correct option_letters.

(** The [error] texts of the two handlers. *)
Definition quiz_error_texts : list string :=
  [ "Internal server error.";
    "Failed to call OpenAI API.";
    "Failed to parse questions from AI (invalid JSON).";
    "No valid questions generated from AI." ].

Definition explain_error_texts : list string :=
  [ "Internal server error.";
    "Failed to call OpenAI API for explanation.";
    "No text provided to explain." ].

(** The answers to a failed call of the model. *)
Definition quiz_call_failed (debug : string) : Response :=
  {| http_status := 500; json := error_body "Failed to call OpenAI API." debug |}.


(** The model rejects every request with [err]. *)
Definition rejects (err : option Failure) : ChatRequest -> ModelOutcome :=
  fun _ => Rejected err.

(** A reading of the model's text that yields [v]. *)
Definition reads_as (v : JVal) : string -> option JVal :=
  fun _ => Some v.

(** A request body without any of the fields [topic], [count], [difficulty]. *)
Definition no_quiz_fields (body : JVal) : Prop :=
  get body F_topic = JUndefined
  /\ get body F_count = JUndefined
  /\ get body F_difficulty = JUndefined.

End Props.

(* ================================================================== *)
(** * Properties *)
(* ================================================================== *)

Import JS Server Spec.

(** ** Strings and lists *)

Lemma is_empty_true (s : string) : is_empty s = true <-> s = "".
Proof. destruct s; simpl; split; congruence. Qed.

Lemma is_empty_false (s : string) : is_empty s = false <-> s <> "".
Proof. destruct s; simpl; split; congruence. Qed.

Lemma mem_string_In (k : string) (l : list string) :
  mem_string k l = true <-> In k l.
Proof.
  unfold mem_string. rewrite existsb_exists. split.
  - intros [x [Hin Heq]]. apply String.eqb_eq in Heq. now subst.
  - intros Hin. exists k. split; [assumption | apply String.eqb_refl].
Qed.

Lemma mem_string_not_In (k : string) (l : list string) :
  mem_string k l = false <-> ~ In k l.
Proof.
  rewrite <- mem_string_In. destruct (mem_string k l); split; congruence.
Qed.

Lemma truthy_string_Some (o : option string) (s : string) :
  truthy_string o = Some s <-> o = Some s /\ s <> "".
Proof.
  destruct o as [t|]; simpl.
  - destruct (is_empty t) eqn:E; split.
    + discriminate.
    + intros [H Hn]. inversion H. subst. apply is_empty_true in E. contradiction.
    + intros H. inversion H. subst. split; [reflexivity | now apply is_empty_false].
    + intros [H _]. exact H.
  - split; [discriminate | intros [H _]; discriminate].
Qed.

Lemma truthy_number_Some (o : option float) (x : float) :
  truthy_number o = Some x <-> o = Some x /\ Number_truthy x = true.
Proof.
  destruct o as [y|]; simpl.
  - destruct (Number_truthy y) eqn:E; split.
    + intros H. inversion H. subst. now split.
    + intros [H _]. exact H.
    + discriminate.
    + intros [H T]. inversion H. subst. congruence.
  - split; [discriminate | intros [H _]; discriminate].
Qed.

(** ** The error classifier *)

Lemma credential_configured_iff (env : ProcessEnv) :
  credential_configured env <-> exists key, truthy_string (OPENAI_API_KEY env) = Some key.
Proof.
  unfold credential_configured. split; intros [k H]; exists k; now apply truthy_string_Some.
Qed.

Lemma has_status_iff (err : option Failure) (st : float) :
  has_status err st <-> truthy_number (err_field status err) = Some st.
Proof.
  rewrite truthy_number_Some. unfold has_status, err_field. split.
  - intros [e [-> [Hs Ht]]]. now split.
  - destruct err as [e|]; intros [Hs Ht]; [exists e; now repeat split | discriminate].
Qed.

Lemma has_message_iff (err : option Failure) (m : string) :
  has_message err m <-> truthy_string (err_field message err) = Some m.
Proof.
  rewrite truthy_string_Some. unfold has_message, err_field. split.
  - intros [e [-> [Hs Ht]]]. now split.
  - destruct err as [e|]; intros [Hs Ht]; [exists e; now repeat split | discriminate].
Qed.

(** The codes the classifier tests for are the four known ones. *)
Lemma network_codes_known : network_codes = known_network_codes.
Proof. reflexivity. Qed.

Lemma has_network_code_iff (err : option Failure) (c : string) :
  has_network_code err c <->
  truthy_string (err_field code err) = Some c /\ mem_string c network_codes = true.
Proof.
  rewrite truthy_string_Some, mem_string_In, network_codes_known.
  unfold has_network_code, err_field. split.
  - intros [e [-> [Hc Hin]]]. repeat split; try assumption.
    intros ->. simpl in Hin. intuition discriminate.
  - destruct err as [e|]; intros [[Hc _] Hin]; [exists e; now repeat split | discriminate].
Qed.

(** The classifier once the credential is known to be configured and no
    status decides: the network code, then the message. *)
Lemma buildErrorDebugInfo_no_status (env : ProcessEnv) (err : option Failure) :
  credential_configured env ->
  (forall st, ~ has_status err st) ->
  buildErrorDebugInfo env err =
    match truthy_string (err_field code err) with
    | Some c =>
        if mem_string c network_codes
        then "Network error (" ++ c
             ++ ") while contacting OpenAI. Check your internet connection or firewall."
        else match truthy_string (err_field message err) with
             | Some m => "Unexpected error: " ++ m
             | None => "Unknown error occurred while calling OpenAI."
             end
    | None =>
        match truthy_string (err_field message err) with
        | Some m => "Unexpected error: " ++ m
        | None => "Unknown error occurred while calling OpenAI."
        end
    end.
Proof.
  intros Hk Hs. apply credential_configured_iff in Hk. destruct Hk as [k Hk].
  unfold buildErrorDebugInfo. rewrite Hk.
  destruct (truthy_number (err_field status err)) as [st|] eqn:E.
  - exfalso. apply (Hs st). now apply has_status_iff.
  - reflexivity.
Qed.

(** C4. The error classifier decides in a fixed order.  Without a configured
    API credential the answer is the configuration message, whatever the
    failure.  Otherwise a failure with a status gets the message of 401, of
    429, of a status of 500 or more, or the check-logs message, each naming
    the status; otherwise a failure with one of the four network codes gets
    the connectivity message naming the code; otherwise a failure with a
    message gets "Unexpected error: " and the message; otherwise the answer
    is the unknown-error message.  The four network codes are ENOTFOUND,
    ECONNREFUSED, ECONNRESET and ETIMEDOUT, and no others. *)
Theorem C4_error_classifier_precedence (env : ProcessEnv) (err : option Failure) :
  (~ credential_configured env ->
   buildErrorDebugInfo env err
   = "Missing OPENAI_API_KEY in .env. Set it and restart the server.")
  /\
  (credential_configured env ->
   (forall st, has_status err st ->
      ((st =? 401)%float = true ->
       buildErrorDebugInfo env err
       = status_text st ++ " Authentication failed. Check your API key.") /\
      ((st =? 401)%float = false -> (st =? 429)%float = true ->
       buildErrorDebugInfo env err
       = status_text st ++ " Rate limit or quota exceeded.") /\
      ((st =? 401)%float = false -> (st =? 429)%float = false ->
       (500 <=? st)%float = true ->
       buildErrorDebugInfo env err
       = status_text st ++ " OpenAI server side error, try again.") /\
      ((st =? 401)%float = false -> (st =? 429)%float = false ->
       (500 <=? st)%float = false ->
       buildErrorDebugInfo env err
       = status_text st ++ " Check server logs for more details."))
   /\
   ((forall st, ~ has_status err st) ->
    (forall c, has_network_code err c ->
       buildErrorDebugInfo env err
       = "Network error (" ++ c
         ++ ") while contacting OpenAI. Check your internet connection or firewall.")
    /\
    ((forall c, ~ has_network_code err c) ->
     (forall m, has_message err m ->
        buildErrorDebugInfo env err = "Unexpected error: " ++ m)
     /\
     ((forall m, ~ has_message err m) ->
      buildErrorDebugInfo env err = "Unknown error occurred while calling OpenAI."))))
  /\
  (forall c e,
     has_network_code (Some e) c
     <-> code e = Some c /\ In c ["ENOTFOUND"; "ECONNREFUSED"; "ECONNRESET"; "ETIMEDOUT"]).
Proof.
  split; [|split];
    [| | intros c e; split;
         [ intros [e' [He [Hc Hin]]]; injection He as <-; split; [exact Hc | exact Hin]
         | intros [Hc Hin]; exists e; split; [reflexivity | split; [exact Hc | exact Hin]] ]].
  - intros Hno. unfold buildErrorDebugInfo.
    destruct (truthy_string (OPENAI_API_KEY env)) as [k|] eqn:Hk; [|reflexivity].
    exfalso. apply Hno. apply credential_configured_iff. now exists k.
  - intros Hk. split.
    + intros st Hst. apply has_status_iff in Hst.
      apply credential_configured_iff in Hk. destruct Hk as [k Hk].
      unfold buildErrorDebugInfo, status_text. rewrite Hk, Hst.
      repeat split; intros; repeat match goal with H : _ = _ |- _ => rewrite H end; reflexivity.
    + intros Hs. rewrite (buildErrorDebugInfo_no_status env err Hk Hs). split.
      * intros c Hc. apply has_network_code_iff in Hc. destruct Hc as [Hc Hin].
        now rewrite Hc, Hin.
      * intros Hn.
        assert (Hfall :
          match truthy_string (err_field code err) with
          | Some c =>
              if mem_string c network_codes
              then "Network error (" ++ c
                   ++ ") while contacting OpenAI. Check your internet connection or firewall."
              else match truthy_string (err_field message err) with
                   | Some m => "Unexpected error: " ++ m
                   | None => "Unknown error occurred while calling OpenAI."
                   end
          | None =>
              match truthy_string (err_field message err) with
              | Some m => "Unexpected error: " ++ m
              | None => "Unknown error occurred while calling OpenAI."
              end
          end
          = match truthy_string (err_field message err) with
            | Some m => "Unexpected error: " ++ m
            | None => "Unknown error occurred while calling OpenAI."
            end).
        { destruct (truthy_string (err_field code err)) as [c|] eqn:Hc; [|reflexivity].
          destruct (mem_string c network_codes) eqn:Hin; [|reflexivity].
          exfalso. apply (Hn c). apply has_network_code_iff. now split. }
        rewrite Hfall. split.
        -- intros m Hm. apply has_message_iff in Hm. now rewrite Hm.
        -- intros Hm. destruct (truthy_string (err_field message err)) as [m|] eqn:E; [|reflexivity].
           exfalso. apply (Hm m). now apply has_message_iff.
Qed.

(** A witness of C4, with a credential configured: a failure with status
    429 gets the rate-limit message although it also has a network code and
    a message; a failure without a status whose code is ETIMEDOUT gets the
    connectivity message naming it; and a failure whose code is none of the
    four (EPIPE) gets its message. *)
Lemma C4_witness :
  buildErrorDebugInfo {| OPENAI_API_KEY := Some "sk-test" |}
    (Some {| status := Some 429%float; code := Some "ECONNRESET"; message := Some "boom" |})
  = "OpenAI API error (status 429). Rate limit or quota exceeded."
  /\ buildErrorDebugInfo {| OPENAI_API_KEY := Some "sk-test" |}
       (Some {| status := None; code := Some "ETIMEDOUT"; message := Some "boom" |})
     = "Network error (ETIMEDOUT) while contacting OpenAI. Check your internet connection or firewall."
  /\ buildErrorDebugInfo {| OPENAI_API_KEY := Some "sk-test" |}
       (Some {| status := None; code := Some "EPIPE"; message := Some "boom" |})
     = "Unexpected error: boom".
Proof.
  assert (Hk : credential_configured {| OPENAI_API_KEY := Some "sk-test" |}).
  { exists "sk-test". split; [reflexivity | discriminate]. }
  split; [|split].
  - pose proof (C4_error_classifier_precedence
                  {| OPENAI_API_KEY := Some "sk-test" |}
                  (Some {| status := Some 429%float; code := Some "ECONNRESET";
                           message := Some "boom" |})) as [_ [H _]].
    destruct (H Hk) as [Hst _].
    assert (Hs : has_status
                   (Some {| status := Some 429%float; code := Some "ECONNRESET";
                            message := Some "boom" |}) 429%float).
    { eexists. repeat split. }
    destruct (Hst 429%float Hs) as [_ [Hrate _]].
    rewrite Hrate by reflexivity. reflexivity.
  - pose proof (C4_error_classifier_precedence
                  {| OPENAI_API_KEY := Some "sk-test" |}
                  (Some {| status := None; code := Some "ETIMEDOUT";
                           message := Some "boom" |})) as [_ [H _]].
    destruct (H Hk) as [_ Hno].
    assert (Hs : forall st,
               ~ has_status (Some {| status := None; code := Some "ETIMEDOUT";
                                     message := Some "boom" |}) st).
    { intros st [e [He [Hst _]]]. injection He as <-. discriminate Hst. }
    destruct (Hno Hs) as [Hnet _].
    apply (Hnet "ETIMEDOUT").
    eexists. split; [reflexivity|]. split; [reflexivity|].
    right. right. right. left. reflexivity.
  - pose proof (C4_error_classifier_precedence
                  {| OPENAI_API_KEY := Some "sk-test" |}
                  (Some {| status := None; code := Some "EPIPE";
                           message := Some "boom" |})) as [_ [H _]].
    destruct (H Hk) as [_ Hno].
    assert (Hs : forall st,
               ~ has_status (Some {| status := None; code := Some "EPIPE";
                                     message := Some "boom" |}) st).
    { intros st [e [He [Hst _]]]. injection He as <-. discriminate Hst. }
    destruct (Hno Hs) as [_ Hfall].
    assert (Hn : forall c,
               ~ has_network_code (Some {| status := None; code := Some "EPIPE";
                                           message := Some "boom" |}) c).
    { intros c [e [He [Hc Hin]]]. injection He as <-. injection Hc as <-.
      destruct Hin as [E | [E | [E | [E | []]]]]; discriminate E. }
    destruct (Hfall Hn) as [Hmsg _].
    apply (Hmsg "boom").
    eexists. split; [reflexivity|]. split; [reflexivity | discriminate].
Defined.

(** ** The explain handler *)

Lemma blank_cons (c : ascii) (s : string) :
  blank (String c s) <-> is_white_space c = true /\ blank s.
Proof.
  unfold blank. simpl. split.
  - intros H. split; [apply H; now left | intros d Hd; apply H; now right].
  - intros [Hc Hs] d [<- | Hd]; [assumption | now apply Hs].
Qed.

Lemma trimStart_blank (s : string) : blank s -> trimStart s = "".
Proof.
  induction s as [|c s IH]; intros H; [reflexivity|].
  apply blank_cons in H. destruct H as [Hc Hs]. simpl. rewrite Hc. now apply IH.
Qed.

Lemma trim_blank (s : string) : blank s -> trim s = "".
Proof. intros H. unfold trim. now rewrite trimStart_blank. Qed.

(** C7. An explain request whose text is empty or only white space is
    answered with HTTP 400 and an error, at once: no model is invoked and
    nothing is logged. *)
Theorem C7_blank_text_rejected_without_model_call
  (error_message : EngineError -> string) (env : ProcessEnv) (body : JVal) (s : string) :
  request_text body = JStr s ->
  blank s ->
  explain error_message env body = Respond {| console := []; response := no_text_response |}
  /\ model_calls (explain error_message env body) = 0%nat
  /\ forall openai, response (run openai (explain error_message env body)) = no_text_response.
Proof.
  intros Ht Hb.
  assert (E : explain error_message env body
              = Respond {| console := []; response := no_text_response |}).
  { unfold explain. unfold request_text in Ht. rewrite Ht.
    unfold no_text, string_method, bind. simpl truthy.
    rewrite (trim_blank s Hb). destruct (negb (is_empty s)); reflexivity. }
  rewrite E. repeat split.
Qed.

Lemma C7_witness :
  explain sample_message {| OPENAI_API_KEY := Some "sk-test" |}
          (JObj [("topic", JStr "AZ-104"); ("text", JStr "   ")])
  = Respond {| console := []; response := no_text_response |}.
Proof.
  apply (C7_blank_text_rejected_without_model_call sample_message
           {| OPENAI_API_KEY := Some "sk-test" |}
           (JObj [("topic", JStr "AZ-104"); ("text", JStr "   ")]) "   ").
  - reflexivity.
  - intros c Hc. simpl in Hc. intuition (subst; reflexivity).
Defined.

(** C10. An explain request whose text is present and truthy but is not a
    string passes the first half of the guard, and [text.trim] is no
    function: the TypeError reaches the catch-all clause, which answers
    HTTP 500 "Internal server error." and not the 400 of a missing text.
    No model is invoked. *)
Theorem C10_non_string_text_is_internal_error
  (error_message : EngineError -> string) (env : ProcessEnv) (body : JVal) :
  truthy (request_text body) = true ->
  (forall s, request_text body <> JStr s) ->
  let err := Some (TypeError error_message (NotAFunction "trim")) in
  explain error_message env body
  = Respond {| console := [[LText "[UNHANDLED ERROR in /api/explain]"; LError err]];
               response := internal_error_response (buildErrorDebugInfo env err) |}
  /\ http_status (internal_error_response (buildErrorDebugInfo env err)) = 500
  /\ error_text (internal_error_response (buildErrorDebugInfo env err))
     = Some (JStr "Internal server error.")
  /\ internal_error_response (buildErrorDebugInfo env err) <> no_text_response.
Proof.
  intros Ht Hs err. split; [|repeat split; discriminate].
  unfold explain. unfold request_text in Ht, Hs.
  destruct (get (or_else body (JObj [])) F_text) as [| |b|x|s|l|o|n] eqn:E;
    try discriminate Ht;
    try (now exfalso; apply (Hs s));
    unfold no_text; rewrite Ht; reflexivity.
Qed.

Lemma C10_witness :
  http_status
    (response
       (run (answers {| choices := []; usage := None |})
            (explain sample_message {| OPENAI_API_KEY := Some "sk-test" |}
                     (JObj [("text", JNum 5)]))))
  = 500.
Proof.
  destruct (C10_non_string_text_is_internal_error sample_message
              {| OPENAI_API_KEY := Some "sk-test" |} (JObj [("text", JNum 5)]))
    as [E _].
  - reflexivity.
  - intros s. discriminate.
  - rewrite E. reflexivity.
Defined.

(** ** The quiz handler after the model call *)

(** A quiz request that reaches the model: the handler awaits one call and
    then continues with [quiz_reply] under the catch-all clause. *)
Lemma generate_quiz_awaits
  (JSON_parse : string -> option JVal) (error_message : EngineError -> string)
  (env : ProcessEnv) (body : JVal) :
  model_calls (generate_quiz JSON_parse error_message env body) = 1%nat ->
  exists s,
    forall outcome,
      run (fun _ => outcome) (generate_quiz JSON_parse error_message env body)
      = match quiz_reply JSON_parse env s outcome with
        | Ok r => r
        | Throw e => unhandled error_message env quiz_route e
        end.
Proof.
  unfold generate_quiz.
  match goal with
  | |- context [match ?x with Ok _ => _ | Throw _ => _ end] => destruct x as [[s p]|e]
  end.
  - intros _. exists s. intros outcome. reflexivity.
  - discriminate.
Qed.

(** C3. When the model call of a quiz request succeeds but the text it
    returns is not JSON, or is JSON from which no valid question survives,
    the request fails with HTTP 500.  The two cases have their own error
    texts.  Both responses are fixed: the raw text of the model is not in
    them (it goes to the server's log in the first case). *)
Theorem C3_malformed_output_is_terminal
  (JSON_parse : string -> option JVal) (error_message : EngineError -> string)
  (env : ProcessEnv) (body : JVal) (completion : Completion) :
  let h := generate_quiz JSON_parse error_message env body in
  let answer := run (answers completion) h in
  let raw := content_or completion "[]" in
  model_calls h = 1%nat ->
  (JSON_parse raw = None ->
   response answer = invalid_json_response
   /\ In [LText ("Raw content from OpenAI:" ++ newline); LText raw] (console answer))
  /\
  (forall questions,
     JSON_parse raw = Some questions -> cleaned questions = Ok [] ->
     response answer = no_questions_response)
  /\
  http_status invalid_json_response = 500 /\ http_status no_questions_response = 500
  /\ error_text invalid_json_response <> error_text no_questions_response.
Proof.
  intros h answer raw Hcalls.
  destruct (generate_quiz_awaits JSON_parse error_message env body Hcalls) as [s Hrun].
  unfold answer, h, answers. rewrite Hrun. unfold quiz_reply. fold raw.
  split; [|split; [|repeat split; discriminate]].
  - intros Hparse. rewrite Hparse. split; [reflexivity|]. simpl. right. now left.
  - intros questions Hparse Hclean. rewrite Hparse. unfold bind. rewrite Hclean. reflexivity.
Qed.

Lemma C3_witness :
  response
    (run (answers (completion_with_text "Sorry, here are your questions: not json"))
         (generate_quiz JSON_parse_reference sample_message
            {| OPENAI_API_KEY := Some "sk-test" |}
            (JObj [("topic", JStr "AZ-900"); ("count", JNum 3)])))
  = invalid_json_response
  /\
  response
    (run (answers (completion_with_text "[5, {}]"))
         (generate_quiz JSON_parse_reference sample_message
            {| OPENAI_API_KEY := Some "sk-test" |}
            (JObj [("topic", JStr "AZ-900"); ("count", JNum 3)])))
  = no_questions_response.
Proof.
  assert (Hcalls :
    model_calls (generate_quiz JSON_parse_reference sample_message
                   {| OPENAI_API_KEY := Some "sk-test" |}
                   (JObj [("topic", JStr "AZ-900"); ("count", JNum 3)])) = 1%nat).
  { vm_compute. reflexivity. }
  split.
  - destruct (C3_malformed_output_is_terminal JSON_parse_reference sample_message
                {| OPENAI_API_KEY := Some "sk-test" |}
                (JObj [("topic", JStr "AZ-900"); ("count", JNum 3)])
                (completion_with_text "Sorry, here are your questions: not json")
                Hcalls) as [Hbad _].
    assert (Hparse :
      JSON_parse_reference
        (content_or (completion_with_text "Sorry, here are your questions: not json") "[]")
      = None).
    { vm_compute. reflexivity. }
    exact (proj1 (Hbad Hparse)).
  - destruct (C3_malformed_output_is_terminal JSON_parse_reference sample_message
                {| OPENAI_API_KEY := Some "sk-test" |}
                (JObj [("topic", JStr "AZ-900"); ("count", JNum 3)])
                (completion_with_text "[5, {}]")
                Hcalls) as [_ [Hnone _]].
    assert (Hparse :
      JSON_parse_reference (content_or (completion_with_text "[5, {}]") "[]")
      = Some (JArr [JNum 5; JObj []])).
    { vm_compute. reflexivity. }
    assert (Hclean : cleaned (JArr [JNum 5; JObj []]) = Ok []).
    { vm_compute. reflexivity. }
    exact (Hnone _ Hparse Hclean).
Defined.

Lemma content_or_no_text (c : Completion) (dflt : string) :
  no_text_content c -> content_or c dflt = dflt.
Proof.
  unfold no_text_content, content_or.
  destruct (first_content c) as [s|]; [|reflexivity].
  intros Hb. simpl. now rewrite (trim_blank s Hb).
Qed.

(** C9. When the model call of a quiz request succeeds but the completion
    has no text (the content is missing, empty or blank), the handler parses
    the literal [[]] instead; as that is the empty array, the request fails
    with HTTP 500 "No valid questions generated from AI." and not with the
    invalid-JSON error. *)
Theorem C9_empty_content_is_no_questions
  (JSON_parse : string -> option JVal) (error_message : EngineError -> string)
  (env : ProcessEnv) (body : JVal) (completion : Completion) :
  let h := generate_quiz JSON_parse error_message env body in
  let answer := run (answers completion) h in
  model_calls h = 1%nat ->
  no_text_content completion ->
  JSON_parse "[]" = Some (JArr []) ->
  content_or completion "[]" = "[]"
  /\ response answer = no_questions_response
  /\ error_text (response answer) = Some (JStr "No valid questions generated from AI.")
  /\ response answer <> invalid_json_response
  /\ console answer
     = [[LText "[VALIDATION ERROR] No valid questions after cleaning.";
         LValue (JObj [("originalLength", JNum 0)])]].
Proof.
  intros h answer Hcalls Hno Hparse.
  pose proof (content_or_no_text completion "[]" Hno) as Hraw.
  destruct (generate_quiz_awaits JSON_parse error_message env body Hcalls) as [s Hrun].
  assert (E : answer
              = reply [[LText "[VALIDATION ERROR] No valid questions after cleaning.";
                        LValue (JObj [("originalLength", JNum 0)])]]
                      500 (json no_questions_response)).
  { unfold answer, h, answers. rewrite Hrun. unfold quiz_reply.
    rewrite Hraw, Hparse. reflexivity. }
  rewrite E. repeat split; try reflexivity; try assumption. discriminate.
Qed.

Lemma C9_witness :
  response
    (run (answers {| choices := [{| choice_message := Some {| content := None |} |}];
                     usage := None |})
         (generate_quiz JSON_parse_reference sample_message
            {| OPENAI_API_KEY := Some "sk-test" |} (JObj [("count", JStr "4")])))
  = no_questions_response.
Proof.
  assert (Hcalls :
    model_calls (generate_quiz JSON_parse_reference sample_message
                   {| OPENAI_API_KEY := Some "sk-test" |} (JObj [("count", JStr "4")]))
    = 1%nat).
  { vm_compute. reflexivity. }
  assert (Hparse : JSON_parse_reference "[]" = Some (JArr [])).
  { vm_compute. reflexivity. }
  exact (proj1 (proj2
    (C9_empty_content_is_no_questions JSON_parse_reference sample_message
       {| OPENAI_API_KEY := Some "sk-test" |} (JObj [("count", JStr "4")])
       {| choices := [{| choice_message := Some {| content := None |} |}];
          usage := None |}
       Hcalls I Hparse))).
Defined.

(** ** Topic sanitization *)

Lemma slice0_prefix (n : nat) (s : string) : prefix (String_slice0 n s) s = true.
Proof.
  unfold String_slice0. revert s. induction n as [|n IH]; intros [|c s]; simpl; try reflexivity.
  rewrite IH. destruct (ascii_dec c c); [reflexivity | congruence].
Qed.

Lemma slice0_length (n : nat) (s : string) :
  String.length (String_slice0 n s) = Nat.min n (String.length s).
Proof.
  unfold String_slice0. revert s. induction n as [|n IH]; intros [|c s]; simpl; try reflexivity.
  now rewrite IH.
Qed.

(** C6, as the code has it.  A topic that is text and not empty is kept as
    it is written (it is not trimmed) and cut to its first 80 code units; an
    empty or absent topic is replaced by the fallback text. *)
Theorem C6_topic_is_defaulted_and_truncated (topic : option string) :
  exists t,
    safeTopic (topic_value topic) = Ok (JStr t)
    /\ (topic = None \/ topic = Some "" -> t = default_topic)
    /\ (forall s, topic = Some s -> s <> "" ->
          prefix t s = true /\ String.length t = Nat.min 80 (String.length s)).
Proof.
  destruct topic as [s|].
  - destruct s as [|c s].
    + exists default_topic. split; [reflexivity|]. split; [reflexivity|].
      intros s' Hs Hne. inversion Hs. subst. now contradict Hne.
    + exists (String_slice0 80 (String c s)). split; [reflexivity|]. split.
      * intros [H|H]; discriminate.
      * intros s' Hs _. inversion Hs. subst.
        split; [apply slice0_prefix | apply slice0_length].
  - exists default_topic. split; [reflexivity|]. split; [reflexivity|].
    intros s Hs. discriminate.
Qed.

(** C6 as stated fails: the server does not trim.  A topic with a leading
    blank keeps it, and a topic of blanks only is not replaced by the
    fallback. *)
Lemma C6_counterexample :
  safeTopic (topic_value (Some " Azure")) = Ok (JStr " Azure")
  /\ claimed_safeTopic (Some " Azure") = "Azure"
  /\ safeTopic (topic_value (Some " Azure")) <> Ok (JStr (claimed_safeTopic (Some " Azure")))
  /\ safeTopic (topic_value (Some "   ")) = Ok (JStr "   ")
  /\ claimed_safeTopic (Some "   ") = default_topic.
Proof. repeat split. discriminate. Qed.

(** ** Comparison of Numbers *)

Lemma SFcompare_antisym (a b : spec_float) :
  SFcompare b a = option_map CompOpp (SFcompare a b).
Proof.
  destruct a as [sa|sa| |sa ma ea], b as [sb|sb| |sb mb eb]; simpl;
    try reflexivity;
    try (destruct sa; reflexivity); try (destruct sb; reflexivity);
    try (destruct sa, sb; reflexivity).
  destruct sa, sb; try reflexivity; rewrite (Z.compare_antisym ea eb);
    destruct (ea ?= eb); simpl; try reflexivity;
    change (Pos.compare_cont Eq mb ma) with (mb ?= ma)%positive;
    rewrite (Pos.compare_antisym ma mb);
    change (ma ?= mb)%positive with (Pos.compare_cont Eq ma mb);
    destruct (Pos.compare_cont Eq ma mb); reflexivity.
Qed.

Lemma SFcompare_None (a b : spec_float) :
  SFcompare a b = None -> a = S754_nan \/ b = S754_nan.
Proof.
  destruct a as [sa|sa| |sa ma ea], b as [sb|sb| |sb mb eb]; simpl;
    try discriminate; auto.
Qed.

Lemma SFcompare_Eq_finite (a : spec_float) (s : bool) (m : positive) (e : Z) :
  SFcompare a (S754_finite s m e) = Some Eq -> a = S754_finite s m e.
Proof.
  destruct a as [sa|sa| |sa ma ea]; simpl; try discriminate;
    try (destruct s; discriminate); try (destruct sa; discriminate).
  destruct sa, s; try discriminate;
    destruct (ea ?= e) eqn:Ee; try discriminate;
    apply Z.compare_eq in Ee; subst;
    destruct (Pos.compare_cont Eq ma m) eqn:Em; try discriminate;
    apply Pos.compare_eq in Em; subst; reflexivity.
Qed.

Lemma not_nan_Prim2SF (x : float) : is_nan x = false -> Prim2SF x <> S754_nan.
Proof.
  unfold is_nan. rewrite eqb_spec. unfold SFeqb. intros H E. rewrite E in H. discriminate.
Qed.

Lemma compare_defined (a b : float) :
  is_nan a = false -> is_nan b = false ->
  exists c, SFcompare (Prim2SF a) (Prim2SF b) = Some c.
Proof.
  intros Ha Hb. destruct (SFcompare (Prim2SF a) (Prim2SF b)) as [c|] eqn:E; [now exists c|].
  apply SFcompare_None in E. destruct E as [E|E];
    [now apply not_nan_Prim2SF in Ha | now apply not_nan_Prim2SF in Hb].
Qed.

Lemma ltb_leb (a b : float) : (a <? b)%float = true -> (a <=? b)%float = true.
Proof.
  rewrite ltb_spec, leb_spec. unfold SFltb, SFleb.
  destruct (SFcompare (Prim2SF a) (Prim2SF b)) as [[]|]; congruence.
Qed.

Lemma not_ltb_leb (a b : float) :
  is_nan a = false -> is_nan b = false ->
  (a <? b)%float = false -> (b <=? a)%float = true.
Proof.
  intros Ha Hb. rewrite ltb_spec, leb_spec. unfold SFltb, SFleb.
  rewrite (SFcompare_antisym (Prim2SF a) (Prim2SF b)).
  destruct (compare_defined a b Ha Hb) as [c ->]. destruct c; simpl; congruence.
Qed.

Lemma ltb_asym (a b : float) : (a <? b)%float = true -> (b <? a)%float = false.
Proof.
  rewrite !ltb_spec. unfold SFltb.
  rewrite (SFcompare_antisym (Prim2SF a) (Prim2SF b)).
  destruct (SFcompare (Prim2SF a) (Prim2SF b)) as [[]|]; simpl; congruence.
Qed.

Lemma leb_refl (a : float) : is_nan a = false -> (a <=? a)%float = true.
Proof.
  unfold is_nan. rewrite eqb_spec, leb_spec. unfold SFeqb, SFleb.
  destruct (SFcompare (Prim2SF a) (Prim2SF a)) as [[]|]; simpl; congruence.
Qed.

(** Two Numbers that compare equal, one of them finite and not zero, are the
    same Number. *)
Lemma not_ltb_eq (a b : float) (s : bool) (m : positive) (e : Z) :
  Prim2SF b = S754_finite s m e ->
  is_nan a = false ->
  (a <? b)%float = false -> (b <? a)%float = false -> a = b.
Proof.
  intros Hb Ha. rewrite !ltb_spec. unfold SFltb.
  rewrite (SFcompare_antisym (Prim2SF a) (Prim2SF b)).
  assert (Hnb : is_nan b = false).
  { unfold is_nan. rewrite eqb_spec, Hb. unfold SFeqb. simpl.
    destruct s; rewrite Z.compare_refl, Pos.compare_cont_refl; reflexivity. }
  destruct (compare_defined a b Ha Hnb) as [c Hc]. rewrite Hc.
  destruct c; simpl; try discriminate. intros _ _.
  rewrite Hb in Hc. apply SFcompare_Eq_finite in Hc.
  apply Prim2SF_inj. congruence.
Qed.

Lemma Math_max_cases (a b : float) :
  is_nan a = false -> is_nan b = false ->
  (Math_max a b = a \/ Math_max a b = b)
  /\ (a <=? Math_max a b)%float = true /\ (b <=? Math_max a b)%float = true.
Proof.
  intros Ha Hb. unfold Math_max. rewrite Ha, Hb. simpl.
  destruct (a <? b)%float eqn:Hab.
  - repeat split; auto using ltb_leb, leb_refl.
  - destruct (b <? a)%float eqn:Hba.
    + repeat split; auto using ltb_leb, leb_refl.
    + destruct (get_sign a); repeat split; auto using not_ltb_leb, leb_refl.
Qed.

Lemma Math_min_cases (a b : float) :
  is_nan a = false -> is_nan b = false ->
  (Math_min a b = a \/ Math_min a b = b)
  /\ (Math_min a b <=? a)%float = true /\ (Math_min a b <=? b)%float = true.
Proof.
  intros Ha Hb. unfold Math_min. rewrite Ha, Hb. simpl.
  destruct (a <? b)%float eqn:Hab.
  - repeat split; auto using ltb_leb, leb_refl.
  - destruct (b <? a)%float eqn:Hba.
    + repeat split; auto using ltb_leb, leb_refl.
    + destruct (get_sign a); repeat split; auto using not_ltb_leb, leb_refl.
Qed.

Lemma Number_truthy_not_nan (x : float) : Number_truthy x = true -> is_nan x = false.
Proof.
  unfold Number_truthy. destruct (is_nan x); [discriminate | reflexivity].
Qed.

Lemma lt_15_lt_1 (n : float) : (15 <? n)%float = true -> (1 <? n)%float = true.
Proof.
  rewrite !ltb_spec. unfold SFltb.
  let v := eval vm_compute in (Prim2SF 15%float) in change (Prim2SF 15%float) with v.
  let v := eval vm_compute in (Prim2SF 1%float) in change (Prim2SF 1%float) with v.
  destruct (Prim2SF n) as [s|s| |s m e]; cbv beta iota delta [SFcompare]; try discriminate.
  - destruct s; [discriminate | reflexivity].
  - destruct s; [discriminate|].
    destruct (Z.compare_spec (-49) e) as [He|He|He]; try discriminate.
    + subst e. intros _. reflexivity.
    + intros _. destruct (Z.compare_spec (-52) e) as [H|H|H]; try reflexivity; lia.
Qed.

(** ** The effective question count *)

Lemma numQuestions_clamp (count : JVal) :
  numQuestions count = let* n := parseInt count in Ok (clamp_count n).
Proof. reflexivity. Qed.

Lemma clamp_count_bounds (n : float) :
  (1 <=? clamp_count n)%float = true /\ (clamp_count n <=? 15)%float = true.
Proof.
  unfold clamp_count.
  set (y := if Number_truthy n then n else 5%float).
  assert (Hy : is_nan y = false).
  { unfold y. destruct (Number_truthy n) eqn:E; [now apply Number_truthy_not_nan | reflexivity]. }
  assert (H1 : is_nan 1%float = false) by reflexivity.
  assert (H15 : is_nan 15%float = false) by reflexivity.
  destruct (Math_max_cases y 1 Hy H1) as [Hm [_ Hle]].
  assert (Hmn : is_nan (Math_max y 1) = false) by (destruct Hm as [-> | ->]; assumption).
  destruct (Math_min_cases (Math_max y 1) 15 Hmn H15) as [Hr [_ Hr15]].
  split; [|exact Hr15].
  destruct Hr as [-> | ->]; [exact Hle | reflexivity].
Qed.

Lemma clamp_count_default (n : float) :
  Number_truthy n = false -> clamp_count n = 5%float.
Proof. intros H. unfold clamp_count. rewrite H. reflexivity. Qed.

Lemma clamp_count_low (n : float) :
  Number_truthy n = true -> (n <? 1)%float = true -> clamp_count n = 1%float.
Proof.
  intros Ht Hlt. unfold clamp_count. rewrite Ht.
  assert (E : Math_max n 1 = 1%float).
  { unfold Math_max. rewrite (Number_truthy_not_nan n Ht), Hlt. reflexivity. }
  rewrite E. reflexivity.
Qed.

Lemma clamp_count_high (n : float) :
  Number_truthy n = true -> (15 <? n)%float = true -> clamp_count n = 15%float.
Proof.
  intros Ht Hgt. unfold clamp_count. rewrite Ht.
  pose proof (lt_15_lt_1 n Hgt) as H1.
  assert (E : Math_max n 1 = n).
  { unfold Math_max. rewrite (Number_truthy_not_nan n Ht), (ltb_asym 1 n H1), H1. reflexivity. }
  rewrite E. unfold Math_min.
  rewrite (Number_truthy_not_nan n Ht), (ltb_asym 15 n Hgt), Hgt. reflexivity.
Qed.

Lemma clamp_count_inside (n : float) :
  Number_truthy n = true -> (n <? 1)%float = false -> (15 <? n)%float = false ->
  clamp_count n = n.
Proof.
  intros Ht Hlo Hhi. unfold clamp_count. rewrite Ht.
  pose proof (Number_truthy_not_nan n Ht) as Hn.
  assert (E : Math_max n 1 = n).
  { unfold Math_max. rewrite Hn, Hlo. simpl.
    destruct (1 <? n)%float eqn:H1; [reflexivity|].
    assert (n = 1%float) as ->.
    { eapply not_ltb_eq; [vm_compute; reflexivity | assumption..]. }
    reflexivity. }
  rewrite E. unfold Math_min. rewrite Hn, Hhi. simpl.
  destruct (n <? 15)%float eqn:H15; [reflexivity|].
  assert (n = 15%float) as ->.
  { eapply not_ltb_eq; [vm_compute; reflexivity | assumption..]. }
  reflexivity.
Qed.

(** C2, as the code has it.  Whatever the [count] of the request, the
    effective count lies in [1, 15] (unless converting [count] to a string
    throws).  With [n = parseInt(count)]: it is the default 5 when [n] is NaN
    or 0, it is 1 when [n < 1], 15 when [n > 15], and [n] otherwise.  The
    count asked of the model is [Math.min(effective + 3, 20)].  A count of 0
    gives 5 and asks for 8; a count of 999 gives 15 and asks for 18. *)
Theorem C2_effective_count_is_clamped (count : JVal) :
  match numQuestions count with
  | Ok eff =>
      (1 <=? eff)%float = true /\ (eff <=? 15)%float = true
      /\ (exists n,
            parseInt count = Ok n
            /\ (Number_truthy n = false -> eff = 5%float)
            /\ (Number_truthy n = true -> (n <? 1)%float = true -> eff = 1%float)
            /\ (Number_truthy n = true -> (15 <? n)%float = true -> eff = 15%float)
            /\ (Number_truthy n = true -> (n <? 1)%float = false ->
                (15 <? n)%float = false -> eff = n))
      /\ requestCount eff = Math_min (eff + 3)%float 20
  | Throw e => ToString count = Throw e
  end
  /\ numQuestions (JNum 0) = Ok 5%float /\ requestCount 5 = 8%float
  /\ numQuestions (JNum 999) = Ok 15%float /\ requestCount 15 = 18%float.
Proof.
  split; [|repeat split; vm_compute; reflexivity].
  rewrite numQuestions_clamp. unfold parseInt.
  destruct (ToString count) as [s|e]; simpl; [|reflexivity].
  destruct (clamp_count_bounds (parseInt_string s)) as [Hlo Hhi].
  repeat split; try assumption.
  exists (parseInt_string s).
  repeat split; auto using clamp_count_default, clamp_count_low,
                           clamp_count_high, clamp_count_inside.
Qed.

(** C2 as stated fails at its own example: a count of 0 does not give the
    effective count 1 and the request count 4, but 5 and 8; so does the
    text "0". *)
Lemma C2_counterexample :
  numQuestions (JNum 0) = Ok 5%float
  /\ numQuestions (JStr "0") = Ok 5%float
  /\ numQuestions (JNum 0) <> Ok 1%float
  /\ requestCount 5 = 8%float
  /\ requestCount 5 <> 4%float.
Proof.
  repeat split; try (vm_compute; reflexivity).
  - intros H.
    apply (f_equal (fun r => match r with Ok x => (x =? 1)%float | Throw _ => true end)) in H.
    vm_compute in H. discriminate.
  - intros H. apply (f_equal (fun x => (x =? 4)%float)) in H. vm_compute in H. discriminate.
Qed.

(** ** The quiz response validator *)

Lemma truthy_false_Falsy (v : JVal) : truthy v = false <-> Falsy v.
Proof.
  split.
  - destruct v as [| |b|x|s|l|o|n]; simpl; intros H; try discriminate H.
    + constructor.
    + constructor.
    + subst b. constructor.
    + unfold Number_truthy in H. destruct (is_nan x) eqn:En.
      * now apply Falsy_nan.
      * destruct (is_zero x) eqn:Ez; [now apply Falsy_zero | discriminate].
    + destruct s; [constructor | discriminate].
  - intros H. destruct H; simpl; try reflexivity.
    + unfold Number_truthy. rewrite H. now rewrite orb_true_r.
    + unfold Number_truthy. now rewrite H.
Qed.

Lemma truthy_true_not_Falsy (v : JVal) : truthy v = true <-> ~ Falsy v.
Proof.
  rewrite <- truthy_false_Falsy. destruct (truthy v); split; congruence.
Qed.

Lemma get_not_object (q : JVal) (f : Field) :
  (forall props, q <> JObj props) -> get q f = JUndefined.
Proof.
  destruct q; intros H; try reflexivity. exfalso. now apply (H props).
Qed.

Lemma wellformed_Survives (q : JVal) : wellformed q = true <-> Survives q.
Proof.
  unfold wellformed, Survives. split.
  - intros H. apply andb_prop in H. destruct H as [H Ho].
    apply andb_prop in H. destruct H as [_ Hq].
    split; [now apply truthy_true_not_Falsy|].
    destruct (get q F_options) as [| | | | |items| |]; try discriminate.
    destruct items as [|a [|b [|c [|d [|x r]]]]]; try discriminate.
    now exists a, b, c, d.
  - intros [Hq [a [b [c [d Ho]]]]]. rewrite Ho. simpl.
    apply truthy_true_not_Falsy in Hq. rewrite Hq.
    destruct q; try (simpl in Hq; discriminate). reflexivity.
Qed.

Lemma Kept_filter (items : list JVal) : Kept items (filter wellformed items).
Proof.
  induction items as [|q items IH]; simpl; [constructor|].
  destruct (wellformed q) eqn:E.
  - apply Kept_keep; [now apply wellformed_Survives | assumption].
  - apply Kept_drop; [|assumption]. rewrite <- wellformed_Survives. congruence.
Qed.

(** The surviving list is determined by the elements. *)
Lemma Kept_unique (items kept : list JVal) :
  Kept items kept -> kept = filter wellformed items.
Proof.
  induction 1 as [|q items kept Hq _ IH|q items kept Hq _ IH]; simpl.
  - reflexivity.
  - apply wellformed_Survives in Hq. rewrite Hq. now f_equal.
  - destruct (wellformed q) eqn:E; [|assumption].
    apply wellformed_Survives in E. contradiction.
Qed.

Lemma map_indexed_spec {A B : Type} (f : A -> nat -> Result B)
  (R : nat -> A -> B -> Prop) (Q : A -> Prop) :
  (forall x i, match f x i with Ok y => R i x y | Throw _ => Q x end) ->
  forall l i,
    match map_indexed f l i with
    | Ok out => Forall2_from R i l out
    | Throw _ => Exists Q l
    end.
Proof.
  intros Hf. induction l as [|x l IH]; intros i; simpl; [constructor|].
  specialize (Hf x i). destruct (f x i) as [y|e]; simpl.
  - specialize (IH (S i)). destruct (map_indexed f l (S i)) as [ys|e]; simpl.
    + now constructor.
    + now apply Exists_cons_tl.
  - now apply Exists_cons_hd.
Qed.

Lemma options_to_strings (items : list JVal) (i : nat) :
  match map_indexed (fun o _ => let* s := ToString o in Ok (JStr s)) items i with
  | Ok out =>
      exists strs, out = map JStr strs /\ Forall2 (fun o s => ToString o = Ok s) items strs
  | Throw _ => exists o e, In o items /\ ToString o = Throw e
  end.
Proof.
  revert i. induction items as [|o items IH]; intros i; simpl.
  - exists []. split; [reflexivity | constructor].
  - destruct (ToString o) as [s|e] eqn:Eo; simpl.
    + specialize (IH (S i)).
      destruct (map_indexed _ items (S i)) as [out|e]; simpl.
      * destruct IH as [strs [-> HF]]. exists (s :: strs). split; [reflexivity|].
        now constructor.
      * destruct IH as [o' [e' [Hin He]]]. exists o', e'. split; [now right | assumption].
    + exists o, e. split; [now left | assumption].
Qed.

Lemma includes_letters (v : JVal) :
  includes option_letters v = true <-> In v letter_values.
Proof.
  unfold includes, letter_values, option_letters. split.
  - destruct v; try discriminate. rewrite mem_string_In. simpl.
    intuition (subst; auto).
  - simpl. intros [<-|[<-|[<-|[<-|[]]]]]; reflexivity.
Qed.

Lemma cleanQuestion_spec (q : JVal) (idx : nat) :
  (exists items, get q F_options = JArr items) ->
  match cleanQuestion q idx with
  | Ok c => Normalized idx q c
  | Throw _ => Unconvertible q
  end.
Proof.
  intros [items Ho]. unfold cleanQuestion. rewrite Ho.
  destruct (ToString (get q F_question)) as [question|e] eqn:Eq; simpl;
    [|left; now exists e].
  pose proof (options_to_strings items 0) as Hopt.
  destruct (map_indexed _ items 0%nat) as [out|e]; simpl.
  - destruct Hopt as [strs [-> HF]].
    destruct (truthy (get q F_explanation)) eqn:Ex.
    + destruct (ToString (get q F_explanation)) as [explanation|e] eqn:Ee; simpl.
      * exists (or_else (get q F_id) (JStr (fallback_id idx))), question, strs,
          (if includes option_letters (get q F_correctOption)
           then get q F_correctOption else JStr "A"), explanation.
        split; [reflexivity|]. unfold or_else.
        split; [intros H; apply truthy_false_Falsy in H; now rewrite H|].
        split; [intros H; apply truthy_true_not_Falsy in H; now rewrite H|].
        split; [exact Eq|]. split; [now exists items|].
        split; [intros H; apply includes_letters in H; now rewrite H|].
        split; [intros H; destruct (includes option_letters (get q F_correctOption)) eqn:E;
                [apply includes_letters in E; contradiction | reflexivity]|].
        split; [intros H; apply truthy_false_Falsy in H; congruence | intros _; exact Ee].
      * right. right. split; [now apply truthy_true_not_Falsy | now exists e].
    + simpl.
      exists (or_else (get q F_id) (JStr (fallback_id idx))), question, strs,
        (if includes option_letters (get q F_correctOption)
         then get q F_correctOption else JStr "A"), "".
      split; [reflexivity|]. unfold or_else.
      split; [intros H; apply truthy_false_Falsy in H; now rewrite H|].
      split; [intros H; apply truthy_true_not_Falsy in H; now rewrite H|].
      split; [exact Eq|]. split; [now exists items|].
      split; [intros H; apply includes_letters in H; now rewrite H|].
      split; [intros H; destruct (includes option_letters (get q F_correctOption)) eqn:E;
              [apply includes_letters in E; contradiction | reflexivity]|].
      split; [intros _; reflexivity|].
      intros H. apply truthy_true_not_Falsy in H. congruence.
  - destruct Hopt as [o [e' [Hin He]]]. right. left. now exists items, o, e'.
Qed.

Lemma cleaned_spec (kept : list JVal) (i : nat) :
  Forall Survives kept ->
  match map_indexed cleanQuestion kept i with
  | Ok out => Forall2_from Normalized i kept out
  | Throw _ => Exists Unconvertible kept
  end.
Proof.
  revert i. induction kept as [|q kept IH]; intros i HS; simpl; [constructor|].
  inversion HS as [|q' k' Hq Hk]; subst.
  assert (Ho : exists items, get q F_options = JArr items).
  { destruct Hq as [_ [a [b [c [d H]]]]]. now exists [a; b; c; d]. }
  pose proof (cleanQuestion_spec q i Ho) as Hc.
  destruct (cleanQuestion q i) as [c|e]; simpl.
  - specialize (IH (S i) Hk). destruct (map_indexed cleanQuestion kept (S i)) as [out|e]; simpl.
    + now constructor.
    + now apply Exists_cons_tl.
  - now apply Exists_cons_hd.
Qed.

Lemma Kept_Forall (items kept : list JVal) : Kept items kept -> Forall Survives kept.
Proof. induction 1; auto. Qed.

(** C1, as the code has it.  Of a parsed array the validator keeps, in
    their order, exactly the elements whose question is a value that does
    not count as false (text or not) and whose options are an array of four.
    The element at position [idx] of the kept list becomes an object with:
    its id, unchanged, unless that counts as false (absent, null, false, 0,
    NaN or empty), when it is the fallback "q" followed by [idx + 1]; its
    question and each option converted with [String]; its correctOption when
    that is one of the texts A, B, C, D, else "A"; its explanation converted
    with [String], or the empty text when it counts as false.  When a
    conversion throws the validator has no result. *)
Theorem C1_validator_keeps_and_normalizes (items : list JVal) :
  exists kept,
    Kept items kept
    /\ match cleaned (JArr items) with
       | Ok out => Forall2_from Normalized 0 kept out
       | Throw _ => Exists Unconvertible kept
       end
    /\ fallback_id 0 = "q1" /\ fallback_id 1 = "q2" /\ fallback_id 9 = "q10".
Proof.
  exists (filter wellformed items). split; [apply Kept_filter|]. split.
  - change (cleaned (JArr items))
      with (map_indexed cleanQuestion (filter wellformed items) 0).
    apply cleaned_spec. apply (Kept_Forall items). apply Kept_filter.
  - repeat split; vm_compute; reflexivity.
Qed.

(** C1 as stated fails.  An element whose question is the empty array has
    no question text (and as text it is empty), yet the validator keeps it,
    with the empty question; and an element whose id is the number 0, which
    is neither absent nor empty, gets the fallback id. *)
Lemma C1_counterexample :
  claimed_survivor element_without_question_text = false
  /\ cleaned (JArr [element_without_question_text])
     = Ok [JObj [ ("id", JStr "q1"); ("question", JStr ""); ("options", four_options);
                  ("correctOption", JStr "A"); ("explanation", JStr "") ]]
  /\ cleaned (JArr [element_with_id_zero])
     = Ok [JObj [ ("id", JStr "q1"); ("question", JStr "What is a VNet?");
                  ("options", four_options);
                  ("correctOption", JStr "B"); ("explanation", JStr "") ]].
Proof. repeat split; vm_compute; reflexivity. Qed.

(** ** Decimal numerals *)

Lemma digit_of_ascii_cases (c : ascii) (d : Z) :
  digit_of_ascii c = Some d ->
  In (c, d) [ ("0"%char, 0); ("1"%char, 1); ("2"%char, 2); ("3"%char, 3); ("4"%char, 4);
              ("5"%char, 5); ("6"%char, 6); ("7"%char, 7); ("8"%char, 8); ("9"%char, 9) ].
Proof.
  destruct c as [[] [] [] [] [] [] [] []]; vm_compute; intros H;
    try discriminate H; inversion H; subst; tauto.
Qed.

Lemma digit_of_ascii_of_digit (d : Z) :
  0 <= d < 10 -> digit_of_ascii (ascii_of_digit d) = Some d.
Proof.
  intros H.
  assert (E : d = 0 \/ d = 1 \/ d = 2 \/ d = 3 \/ d = 4 \/ d = 5 \/ d = 6 \/ d = 7
              \/ d = 8 \/ d = 9) by lia.
  repeat (destruct E as [-> | E]; [reflexivity|]). subst. reflexivity.
Qed.

Lemma digit_not_space (c : ascii) (d : Z) :
  digit_of_ascii c = Some d -> is_white_space c = false.
Proof.
  intros H. apply digit_of_ascii_cases in H. simpl in H.
  repeat (destruct H as [H | H]; [inversion H; reflexivity|]). contradiction.
Qed.

Lemma digit_not_sign (c : ascii) (d : Z) (r : string) :
  digit_of_ascii c = Some d -> strip_sign (String c r) = (false, String c r).
Proof.
  intros H. apply digit_of_ascii_cases in H. simpl in H.
  repeat (destruct H as [H | H]; [inversion H; reflexivity|]). contradiction.
Qed.

Lemma digit_not_radix_letter (c : ascii) (d : Z) :
  digit_of_ascii c = Some d -> radix_letter c = None.
Proof.
  intros H. apply digit_of_ascii_cases in H. simpl in H.
  repeat (destruct H as [H | H]; [inversion H; reflexivity|]). contradiction.
Qed.

Lemma digit_not_I (c : ascii) (d : Z) :
  digit_of_ascii c = Some d -> Ascii.eqb c "I" = false.
Proof.
  intros H. apply digit_of_ascii_cases in H. simpl in H.
  repeat (destruct H as [H | H]; [inversion H; reflexivity|]). contradiction.
Qed.

Lemma append_assoc (a b c : string) : (a ++ b) ++ c = a ++ (b ++ c).
Proof. induction a as [|x a IH]; simpl; congruence. Qed.

Lemma append_nil_r (a : string) : a ++ "" = a.
Proof. induction a as [|x a IH]; simpl; congruence. Qed.

Lemma length_append (a b : string) :
  String.length (a ++ b) = (String.length a + String.length b)%nat.
Proof. induction a as [|x a IH]; simpl; congruence. Qed.

Lemma length_repeat_char (c : ascii) (k : nat) : String.length (repeat_char c k) = k.
Proof. induction k; simpl; congruence. Qed.

(** A string is its first [i] characters followed by the others. *)
Lemma substring_split (s : string) (i : nat) :
  (i <= String.length s)%nat ->
  substring 0 i s ++ substring i (String.length s - i) s = s.
Proof.
  revert i. induction s as [|c s IH]; intros i Hi.
  - destruct i; simpl in *; [reflexivity | lia].
  - destruct i as [|i]; cbn [substring String.length Nat.sub].
    + cbn [append]. f_equal.
      specialize (IH 0%nat). rewrite Nat.sub_0_r in IH.
      assert (E : substring 0 0 s = "") by (destruct s; reflexivity).
      rewrite E in IH. apply IH. lia.
    + cbn [append]. f_equal. apply IH. simpl in Hi. lia.
Qed.

Lemma substring_length (s : string) (i k : nat) :
  (i + k <= String.length s)%nat -> String.length (substring i k s) = k.
Proof.
  revert i k. induction s as [|c s IH]; intros i k H.
  - simpl in H. assert (i = 0 /\ k = 0)%nat as [-> ->] by lia. reflexivity.
  - destruct i as [|i]; cbn [substring].
    + destruct k as [|k]; [reflexivity|]. cbn [String.length]. f_equal.
      apply IH. simpl in H. lia.
    + apply IH. simpl in H. lia.
Qed.

Lemma all_digits_app (a b : string) :
  all_digits (a ++ b) = all_digits a && all_digits b.
Proof.
  induction a as [|c a IH]; simpl; [reflexivity|].
  destruct (digit_of_ascii c); [assumption | reflexivity].
Qed.

Lemma digits_value_app (a b : string) (acc : Z) :
  all_digits a = true -> digits_value (a ++ b) acc = digits_value b (digits_value a acc).
Proof.
  revert acc. induction a as [|c a IH]; intros acc; simpl; [reflexivity|].
  destruct (digit_of_ascii c); [apply IH | discriminate].
Qed.

(** Scanning a numeral that is followed by something else than a digit. *)
Lemma scan_digits_app (a rest : string) (acc cnt : Z) :
  all_digits a = true ->
  scan_digits (a ++ rest) acc cnt
  = scan_digits rest (digits_value a acc) (cnt + Z.of_nat (String.length a)).
Proof.
  revert acc cnt. induction a as [|c a IH]; intros acc cnt; simpl String.length.
  - intros _. simpl. now rewrite Z.add_0_r.
  - simpl. destruct (digit_of_ascii c) as [d|]; [|discriminate].
    intros H. rewrite (IH _ _ H). f_equal. lia.
Qed.

Lemma all_digits_zeros (k : nat) : all_digits (repeat_char "0" k) = true.
Proof. induction k; simpl; auto. Qed.

Lemma digits_value_zeros (k : nat) (acc : Z) :
  digits_value (repeat_char "0" k) acc = acc * 10 ^ Z.of_nat k.
Proof.
  revert acc. induction k as [|k IH]; intros acc.
  - simpl. lia.
  - cbn [repeat_char digits_value]. change (digit_of_ascii "0") with (Some 0).
    cbv iota beta. rewrite IH, Nat2Z.inj_succ, Z.pow_succ_r by lia. lia.
Qed.

(** The digits that [digits_before] puts before [acc], for enough fuel. *)
Lemma digits_before_spec (f : nat) :
  forall (n : Z) (acc : string),
    0 <= n < 10 ^ Z.of_nat (S f) ->
    exists ds,
      digits_before (S f) n acc = ds ++ acc
      /\ all_digits ds = true
      /\ ds <> ""
      /\ forall a, digits_value ds a = a * 10 ^ Z.of_nat (String.length ds) + n.
Proof.
  assert (Hone : forall n acc,
    0 <= n < 10 ->
    let ds := String (ascii_of_digit (n mod 10)) "" in
    String (ascii_of_digit (n mod 10)) acc = ds ++ acc
    /\ all_digits ds = true
    /\ ds <> ""
    /\ forall a, digits_value ds a = a * 10 ^ Z.of_nat (String.length ds) + n).
  { intros n acc Hn ds.
    assert (Hd : digit_of_ascii (ascii_of_digit (n mod 10)) = Some (n mod 10)).
    { apply digit_of_ascii_of_digit. apply Z.mod_pos_bound. lia. }
    split; [reflexivity|]. unfold ds.
    split; [cbn [all_digits]; now rewrite Hd|]. split; [discriminate|].
    intros a. cbn [digits_value String.length]. rewrite Hd.
    change (Z.of_nat 1) with 1. rewrite Z.pow_1_r, Z.mod_small by lia. reflexivity. }
  assert (Hstep : forall f n acc,
    digits_before (S f) n acc
    = if n <? 10 then String (ascii_of_digit (n mod 10)) acc
      else digits_before f (n / 10) (String (ascii_of_digit (n mod 10)) acc))
    by reflexivity.
  induction f as [|f IH]; intros n acc Hn.
  - change (10 ^ Z.of_nat 1) with 10 in Hn.
    assert (Hlt : (n <? 10) = true) by (apply Z.ltb_lt; lia).
    exists (String (ascii_of_digit (n mod 10)) ""). rewrite Hstep, Hlt.
    apply (Hone n acc Hn).
  - rewrite Hstep.
    destruct (n <? 10) eqn:Hlt.
    + apply Z.ltb_lt in Hlt.
      exists (String (ascii_of_digit (n mod 10)) "").
      apply (Hone n acc). lia.
    + apply Z.ltb_ge in Hlt.
      assert (Hd : digit_of_ascii (ascii_of_digit (n mod 10)) = Some (n mod 10)).
      { apply digit_of_ascii_of_digit. apply Z.mod_pos_bound. lia. }
      assert (Hq : 0 <= n / 10 < 10 ^ Z.of_nat (S f)).
      { split; [apply Z.div_pos; lia|].
        apply Z.div_lt_upper_bound; [lia|].
        rewrite (Nat2Z.inj_succ (S f)), Z.pow_succ_r in Hn by lia. lia. }
      destruct (IH (n / 10) (String (ascii_of_digit (n mod 10)) acc) Hq)
        as [ds [E [Hall [Hne Hval]]]].
      exists (ds ++ String (ascii_of_digit (n mod 10)) "").
      split; [rewrite E, append_assoc; reflexivity|].
      split; [rewrite all_digits_app, Hall; cbn [all_digits andb]; now rewrite Hd|].
      split; [destruct ds; [contradiction | discriminate]|].
      intros a. rewrite digits_value_app by assumption. rewrite Hval.
      cbn [digits_value]. rewrite Hd.
      rewrite length_append. cbn [String.length].
      rewrite Nat2Z.inj_add, Z.pow_add_r by lia. change (Z.of_nat 1) with 1.
      rewrite Z.pow_1_r. pose proof (Z.div_mod n 10). lia.
Qed.

Lemma decimal_spec (n : Z) :
  0 <= n ->
  all_digits (decimal n) = true
  /\ decimal n <> ""
  /\ forall a, digits_value (decimal n) a = a * 10 ^ Z.of_nat (String.length (decimal n)) + n.
Proof.
  intros Hn. unfold decimal.
  assert (Hb : 0 <= n < 10 ^ Z.of_nat (S (Z.to_nat (Z.log2 n)))).
  { split; [assumption|].
    rewrite Nat2Z.inj_succ, Z2Nat.id by apply Z.log2_nonneg.
    destruct (Z.eq_dec n 0) as [->|Hz]; [simpl; lia|].
    assert (n < 2 ^ Z.succ (Z.log2 n)) by (apply Z.log2_spec; lia).
    assert (2 ^ Z.succ (Z.log2 n) <= 10 ^ Z.succ (Z.log2 n)).
    { apply Z.pow_le_mono_l. lia. }
    lia. }
  destruct (digits_before_spec _ n "" Hb) as [ds [E [Hall [Hne Hval]]]].
  rewrite E.
  rewrite append_nil_r. auto.
Qed.

(** ** Printing with [toFixed] and reading back *)

Lemma trimStart_id (c : ascii) (s : string) :
  is_white_space c = false -> trimStart (String c s) = String c s.
Proof. intros H. simpl. now rewrite H. Qed.

Lemma trimEnd_id (s : string) :
  (forall c, In c (list_ascii_of_string s) -> is_white_space c = false) ->
  trimEnd s = s.
Proof.
  induction s as [|c s IH]; intros H; [reflexivity|].
  cbn [trimEnd]. rewrite IH by (intros d Hd; apply H; now right).
  destruct s; [|reflexivity].
  rewrite (H c) by now left. reflexivity.
Qed.

Lemma trim_id (s : string) :
  (forall c, In c (list_ascii_of_string s) -> is_white_space c = false) ->
  trim s = s.
Proof.
  intros H. unfold trim.
  destruct s as [|c s]; [reflexivity|].
  rewrite trimStart_id by (apply H; now left). now apply trimEnd_id.
Qed.

Lemma list_ascii_app (a b : string) :
  list_ascii_of_string (a ++ b) = (list_ascii_of_string a ++ list_ascii_of_string b)%list.
Proof. induction a as [|c a IH]; simpl; congruence. Qed.

Lemma all_digits_no_space (a : string) :
  all_digits a = true ->
  forall c, In c (list_ascii_of_string a) -> is_white_space c = false.
Proof.
  induction a as [|x a IH]; simpl; [intros _ c []|].
  destruct (digit_of_ascii x) as [d|] eqn:E; [|discriminate].
  intros H c [<- | Hc]; [now apply (digit_not_space _ d) | now apply IH].
Qed.

Lemma point_numeral_no_space (neg : bool) (a b : string) :
  all_digits a = true -> all_digits b = true ->
  forall c, In c (list_ascii_of_string (point_numeral neg a b)) -> is_white_space c = false.
Proof.
  intros Ha Hb c. unfold point_numeral.
  rewrite !list_ascii_app. rewrite !in_app_iff.
  intros [H | [H | [H | H]]].
  - destruct neg; simpl in H.
    + destruct H as [<- | []]. reflexivity.
    + contradiction.
  - now apply (all_digits_no_space a).
  - simpl in H. destruct H as [<- | []]. reflexivity.
  - now apply (all_digits_no_space b).
Qed.

Lemma scan_decimal_point (a b : string) :
  all_digits a = true -> a <> "" -> all_digits b = true -> b <> "" ->
  scan_decimal false (a ++ "." ++ b)
  = Some (digits_value (a ++ b) 0, - Z.of_nat (String.length b), "").
Proof.
  intros Ha Hna Hb Hnb. unfold scan_decimal.
  rewrite (scan_digits_app a ("." ++ b) 0 0 Ha).
  change (scan_digits ("." ++ b) (digits_value a 0) (0 + Z.of_nat (String.length a)))
    with (digits_value a 0, 0 + Z.of_nat (String.length a), String "." b).
  cbv beta iota. cbn [andb].
  rewrite <- (append_nil_r b) at 1.
  rewrite (scan_digits_app b "" (digits_value a 0) 0 Hb).
  cbn [scan_digits]. cbv beta iota.
  assert (Hlen : (0 + Z.of_nat (String.length a) + (0 + Z.of_nat (String.length b)) =? 0)
                 = false).
  { apply Z.eqb_neq. destruct b; [contradiction | cbn [String.length]; lia]. }
  rewrite Hlen. cbn [scan_exponent].
  rewrite (digits_value_app a b 0 Ha). repeat (f_equal; try lia).
Qed.

(** Reading a printed numeral with a decimal point gives the Number nearest
    to the integer of its digits, scaled by the number of decimals. *)
Lemma StringToNumber_point_numeral (neg : bool) (a b : string) :
  all_digits a = true -> a <> "" -> all_digits b = true -> b <> "" ->
  StringToNumber (point_numeral neg a b)
  = dec2F neg (digits_value (a ++ b) 0) (- Z.of_nat (String.length b)).
Proof.
  intros Ha Hna Hb Hnb. unfold StringToNumber.
  rewrite (trim_id _ (point_numeral_no_space neg a b Ha Hb)).
  destruct a as [|c1 a']; [contradiction|].
  assert (Hc1 : exists d, digit_of_ascii c1 = Some d).
  { cbn [all_digits] in Ha. destruct (digit_of_ascii c1) as [d|]; [now exists d | discriminate]. }
  destruct Hc1 as [d1 Hc1].
  assert (Hprefix : radix_prefix (point_numeral neg (String c1 a') b) = None).
  { unfold point_numeral. destruct neg.
    - reflexivity.
    - cbn [append]. destruct a' as [|c2 a'']; cbn [append radix_prefix].
      + destruct (Ascii.eqb c1 "0"); reflexivity.
      + cbn [all_digits] in Ha. rewrite Hc1 in Ha.
        destruct (digit_of_ascii c2) as [d2|] eqn:Hc2; [|discriminate].
        rewrite (digit_not_radix_letter c2 d2 Hc2). destruct (Ascii.eqb c1 "0"); reflexivity. }
  rewrite Hprefix.
  assert (Hsign : strip_sign (point_numeral neg (String c1 a') b)
                  = (neg, String c1 a' ++ "." ++ b)).
  { unfold point_numeral. destruct neg; [reflexivity|].
    cbn [append]. apply (digit_not_sign c1 d1 _ Hc1). }
  rewrite Hsign.
  assert (Hempty : is_empty (point_numeral neg (String c1 a') b) = false).
  { unfold point_numeral. destruct neg; reflexivity. }
  rewrite Hempty.
  assert (Hinf : String.eqb (String c1 a' ++ "." ++ b) "Infinity" = false).
  { cbn [append String.eqb]. now rewrite (digit_not_I c1 d1 Hc1). }
  rewrite Hinf.
  rewrite (scan_decimal_point (String c1 a') b Ha Hna Hb Hnb).
  reflexivity.
Qed.

Lemma fixed_string_parts (f : nat) (n : Z) :
  0 <= n ->
  exists a b,
    fixed_string (S f) n = a ++ "." ++ b
    /\ all_digits a = true /\ a <> ""
    /\ all_digits b = true /\ String.length b = S f
    /\ digits_value (a ++ b) 0 = n.
Proof.
  intros Hn. destruct (decimal_spec n Hn) as [Hall [Hne Hval]].
  unfold fixed_string.
  set (m := decimal n) in *.
  set (m' := repeat_char "0" (S (S f) - String.length m) ++ m).
  set (k := String.length m').
  assert (Hk : (S (S f) <= k)%nat).
  { unfold k, m'. rewrite length_append, length_repeat_char. lia. }
  assert (Hsplit : substring 0 (k - S f) m' ++ substring (k - S f) (S f) m' = m').
  { pose proof (substring_split m' (k - S f)) as H.
    replace (String.length m' - (k - S f))%nat with (S f) in H by (unfold k in *; lia).
    apply H. unfold k. lia. }
  assert (Hla : String.length (substring 0 (k - S f) m') = (k - S f)%nat).
  { apply substring_length. unfold k in *. lia. }
  assert (Hlb : String.length (substring (k - S f) (S f) m') = S f).
  { apply substring_length. unfold k in *. lia. }
  assert (Hall' : all_digits m' = true).
  { unfold m'. now rewrite all_digits_app, all_digits_zeros, Hall. }
  exists (substring 0 (k - S f) m'), (substring (k - S f) (S f) m').
  rewrite <- Hsplit in Hall'. rewrite all_digits_app in Hall'.
  apply andb_prop in Hall'. destruct Hall' as [Ha Hb].
  split; [reflexivity|]. split; [assumption|]. split.
  - intros E. rewrite E in Hla. cbn [String.length] in Hla. lia.
  - split; [assumption|]. split; [assumption|].
    rewrite Hsplit. unfold m'.
    rewrite digits_value_app by apply all_digits_zeros.
    rewrite digits_value_zeros, Hval. lia.
Qed.

Lemma nearest_scaled_nonneg (f : nat) (m : positive) (e : Z) : 0 <= nearest_scaled f m e.
Proof.
  unfold nearest_scaled. destruct (0 <=? e) eqn:E.
  - apply Z.leb_le in E. apply Z.mul_nonneg_nonneg; [apply Z.mul_nonneg_nonneg|]; try lia;
      apply Z.pow_nonneg; lia.
  - apply Z.div_pos.
    + assert (0 <= 10 ^ Z.of_nat f) by (apply Z.pow_nonneg; lia).
      assert (0 <= 2 ^ (- e)) by (apply Z.pow_nonneg; lia). nia.
    + apply Z.pow_pos_nonneg; lia.
Qed.

(** [nearest_scaled f m e] is the integer nearest to [m * 2^e * 10^f], and
    the larger of the two on a tie. *)
Lemma nearest_scaled_nearest (f : nat) (m : positive) (e : Z) :
  (0 <= e -> nearest_scaled f m e = Zpos m * 2 ^ e * 10 ^ Z.of_nat f)
  /\ (e < 0 ->
      - 2 ^ (- e)
      <= 2 * (Zpos m * 10 ^ Z.of_nat f - nearest_scaled f m e * 2 ^ (- e))
      < 2 ^ (- e)).
Proof.
  unfold nearest_scaled. split; intros He.
  - apply Z.leb_le in He. now rewrite He.
  - assert (E : (0 <=? e) = false) by (apply Z.leb_gt; lia). rewrite E.
    assert (Hd : 0 < 2 ^ (- e)) by (apply Z.pow_pos_nonneg; lia).
    replace (2 ^ (1 - e)) with (2 * 2 ^ (- e))
      by (replace (1 - e) with (Z.succ (- e)) by lia; rewrite Z.pow_succ_r by lia; reflexivity).
    set (d := 2 ^ (- e)) in *. set (P := 10 ^ Z.of_nat f).
    pose proof (Z.div_mod (2 * Zpos m * P + d) (2 * d) ltac:(lia)) as Hdm.
    pose proof (Z.mod_pos_bound (2 * Zpos m * P + d) (2 * d) ltac:(lia)) as Hmod.
    set (n := (2 * Zpos m * P + d) / (2 * d)) in *.
    nia.
Qed.

Lemma estimate_of_finite (x : float) (s : bool) (m : positive) (e : Z) :
  Prim2SF x = S754_finite s m e ->
  (1e21 <=? abs x)%float = false ->
  StringToNumber (toFixed 6 x) = dec2F s (nearest_scaled 6 m e) (-6).
Proof.
  intros Hx Hsmall. unfold toFixed. rewrite Hx, Hsmall.
  destruct (fixed_string_parts 5 (nearest_scaled 6 m e) (nearest_scaled_nonneg 6 m e))
    as [a [b [E [Ha [Hna [Hb [Hlb Hv]]]]]]].
  rewrite E. change ((if s then "-" else "") ++ a ++ "." ++ b) with (point_numeral s a b).
  rewrite StringToNumber_point_numeral; try assumption.
  - rewrite Hv, Hlb. reflexivity.
  - intros ->. discriminate.
Qed.

Lemma estimate_of_zero (x : float) (s : bool) :
  Prim2SF x = S754_zero s -> StringToNumber (toFixed 6 x) = zero.
Proof. intros Hx. unfold toFixed. rewrite Hx. vm_compute. reflexivity. Qed.

Lemma estimate_of_nan (x : float) :
  Prim2SF x = S754_nan -> StringToNumber (toFixed 6 x) = nan.
Proof. intros Hx. unfold toFixed. rewrite Hx. vm_compute. reflexivity. Qed.

Lemma estimate_of_infinity (x : float) (s : bool) :
  Prim2SF x = S754_infinity s ->
  StringToNumber (toFixed 6 x) = if s then neg_infinity else infinity.
Proof.
  intros Hx. unfold toFixed, Number_toString. rewrite Hx.
  destruct s; vm_compute; reflexivity.
Qed.

(** C5, as the code has it.  The token counts are read from the usage of
    the completion, [prompt_tokens] before [input_tokens] and
    [completion_tokens] before [output_tokens], 0 when both are missing or
    there is no usage.  The cost is the binary64 value [x] of
    [(promptTokens * 0.25 + completionTokens * 2.0) / 1000000], and the
    estimate is the Number of the decimal [n / 10^6], where [n] is the
    integer nearest to the exact value of [x] times [10^6] (the larger one on
    a tie); a cost of zero, NaN or an infinity is returned as it is
    (zero as [+0]).  Nothing in this computation throws.  With 1000 prompt
    tokens and 500 completion tokens the estimate is 0.00125, printed
    0.001250. *)
Theorem C5_cost_is_rounded_to_six_decimals (c : Completion) :
  let p := promptTokens c in
  let k := completionTokens c in
  let x := costUsd p k in
  (forall u, usage c = Some u ->
     p = match prompt_tokens u, input_tokens u with
         | Some v, _ => v
         | None, Some v => v
         | None, None => 0%float
         end
     /\ k = match completion_tokens u, output_tokens u with
            | Some v, _ => v
            | None, Some v => v
            | None, None => 0%float
            end)
  /\ (usage c = None -> p = 0%float /\ k = 0%float)
  /\ x = ((p * 0.25 + k * 2.0) / 1000000)%float
  /\ (forall s m e,
        Prim2SF x = S754_finite s m e -> (1e21 <=? abs x)%float = false ->
        exists n,
          estimatedCostUsd p k = dec2F s n (-6)
          /\ 0 <= n
          /\ (0 <= e -> n = Zpos m * 2 ^ e * 10 ^ 6)
          /\ (e < 0 ->
              - 2 ^ (- e) <= 2 * (Zpos m * 10 ^ 6 - n * 2 ^ (- e)) < 2 ^ (- e)))
  /\ (forall s, Prim2SF x = S754_zero s -> estimatedCostUsd p k = zero)
  /\ (Prim2SF x = S754_nan -> estimatedCostUsd p k = nan)
  /\ (forall s, Prim2SF x = S754_infinity s ->
        estimatedCostUsd p k = if s then neg_infinity else infinity)
  /\ toFixed 6 (costUsd 1000 500) = "0.001250"
  /\ estimatedCostUsd 1000 500 = 0.00125%float.
Proof.
  intros p k x.
  split.
  { intros u Hu. unfold p, k, promptTokens, completionTokens. rewrite Hu.
    destruct (prompt_tokens u), (input_tokens u), (completion_tokens u), (output_tokens u);
      split; reflexivity. }
  split.
  { intros Hu. unfold p, k, promptTokens, completionTokens. rewrite Hu. split; reflexivity. }
  split; [reflexivity|].
  split.
  { intros s m e Hx Hsmall. exists (nearest_scaled 6 m e).
    split; [exact (estimate_of_finite x s m e Hx Hsmall)|].
    split; [apply nearest_scaled_nonneg|].
    exact (nearest_scaled_nearest 6 m e). }
  split; [intros s Hx; exact (estimate_of_zero x s Hx)|].
  split; [intros Hx; exact (estimate_of_nan x Hx)|].
  split; [intros s Hx; exact (estimate_of_infinity x s Hx)|].
  split; vm_compute; reflexivity.
Qed.

(** C5 as stated fails where the exact cost lies halfway between two
    millionths.  With 14 prompt tokens and no completion tokens the cost is
    exactly 3.5 millionths of a dollar, which rounds to 4 millionths (a tie
    going up, or to the even neighbour); the binary64 quotient is a little
    less than 3.5 millionths, and the estimate is 0.000003. *)
Lemma C5_counterexample :
  claimed_cost_micro 14 0 = 4
  /\ round_half_even (14 + 8 * 0) 4 = 4
  /\ toFixed 6 (costUsd 14 0) = "0.000003"
  /\ estimatedCostUsd 14 0 = dec2F false 3 (-6)
  /\ estimatedCostUsd 14 0 <> dec2F false 4 (-6).
Proof.
  repeat split; try (vm_compute; reflexivity).
  intros H. apply (f_equal (fun v => (v =? dec2F false 4 (-6))%float)) in H.
  vm_compute in H. discriminate.
Qed.

(** ** Sanitizing twice *)

(** On a request in the shape of the data model sanitizing twice changes
    nothing. *)
Example sanitize_twice_expert :
  sanitize (JObj [("topic", JStr "AWS"); ("count", JStr "7"); ("difficulty", JStr "Expert")])
  = Ok {| quiz_topic := JStr "AWS"; quiz_count := 7; quiz_difficulty := JStr "expert" |}
  /\ sanitize (resubmit {| quiz_topic := JStr "AWS"; quiz_count := 7;
                           quiz_difficulty := JStr "expert" |})
     = Ok {| quiz_topic := JStr "AWS"; quiz_count := 7; quiz_difficulty := JStr "expert" |}.
Proof. split; vm_compute; reflexivity. Qed.

(** C8 fails on the code.  The difficulty is looked up in an object literal,
    and a name that the literal inherits from [Object.prototype] is found
    there: for the difficulty "constructor" the sanitized difficulty is the
    function [Object], not one of the three levels.  Sanitizing the
    sanitized request again throws, so sanitization is not idempotent on
    this request; the request itself is answered by the catch-all clause with
    HTTP 500, before any model call. *)
Theorem C8_inherited_difficulty_breaks_idempotence
  (JSON_parse : string -> option JVal) (error_message : EngineError -> string)
  (env : ProcessEnv) :
  let body := JObj [("difficulty", JStr "constructor")] in
  let once := {| quiz_topic := JStr default_topic; quiz_count := 5;
                 quiz_difficulty := JNative "constructor" |} in
  sanitize body = Ok once
  /\ sanitize (resubmit once) = Throw (NotAFunction "toLowerCase")
  /\ sanitize (resubmit once) <> Ok once
  /\ generate_quiz JSON_parse error_message env body
     = Respond (unhandled error_message env quiz_route (NotAFunction "toUpperCase")).
Proof.
  intros body once. split; [vm_compute; reflexivity|].
  split; [vm_compute; reflexivity|].
  split; [intros H; vm_compute in H; discriminate|].
  unfold generate_quiz.
  assert (E : (let* s := sanitize body in let* p := quiz_prompt s in Ok (s, p))
              = Throw (NotAFunction "toUpperCase")) by (vm_compute; reflexivity).
  rewrite E. reflexivity.
Qed.

(* ================================================================== *)
(** * Further properties of the code *)
(* ================================================================== *)

Import Client Props.

(** ** Integers as Numbers *)

Lemma digits2_pos_bounds (p : positive) :
  2 ^ (Zpos (digits2_pos p) - 1) <= Zpos p < 2 ^ Zpos (digits2_pos p).
Proof.
  induction p as [p IH|p IH|]; cbn [digits2_pos].
  - rewrite Pos2Z.inj_succ.
    replace (Z.succ (Zpos (digits2_pos p)) - 1) with (Z.succ (Zpos (digits2_pos p) - 1)) by lia.
    rewrite !Z.pow_succ_r by lia. lia.
  - rewrite Pos2Z.inj_succ.
    replace (Z.succ (Zpos (digits2_pos p)) - 1) with (Z.succ (Zpos (digits2_pos p) - 1)) by lia.
    rewrite !Z.pow_succ_r by lia. lia.
  - simpl. lia.
Qed.

Lemma digits2_pos_unique (p : positive) (k : Z) :
  2 ^ (k - 1) <= Zpos p < 2 ^ k -> Zpos (digits2_pos p) = k.
Proof.
  intros [Hlo Hhi]. pose proof (digits2_pos_bounds p) as [Blo Bhi].
  set (d := Zpos (digits2_pos p)) in *.
  assert (0 < d) by (unfold d; lia).
  destruct (Z.lt_trichotomy d k) as [Hlt | [Heq | Hgt]]; [|assumption|].
  - exfalso. assert (2 ^ d <= 2 ^ (k - 1)) by (apply Z.pow_le_mono_r; lia). lia.
  - exfalso.
    assert (0 <= k).
    { destruct (Z.le_gt_cases 0 k); [assumption|].
      rewrite (Z.pow_neg_r 2 k) in Hhi by lia. lia. }
    assert (2 ^ k <= 2 ^ (d - 1)) by (apply Z.pow_le_mono_r; lia). lia.
Qed.

Lemma iter_xO_value (m k : positive) : Zpos (Pos.iter xO m k) = Zpos m * 2 ^ Zpos k.
Proof.
  induction k as [|k IH] using Pos.peano_ind.
  - simpl. lia.
  - rewrite Pos.iter_succ, Pos2Z.inj_succ, Z.pow_succ_r by lia.
    rewrite Pos2Z.inj_xO, IH. lia.
Qed.

Lemma iter_xO_digits (m k : positive) :
  digits2_pos (Pos.iter xO m k) = (digits2_pos m + k)%positive.
Proof.
  induction k as [|k IH] using Pos.peano_ind.
  - simpl. lia.
  - rewrite Pos.iter_succ. cbn [digits2_pos]. rewrite IH. lia.
Qed.

Lemma shr_1_half (mrs : shr_record) :
  0 <= shr_m mrs -> shr_m (shr_1 mrs) = shr_m mrs / 2.
Proof.
  destruct mrs as [m r s]. cbn [shr_m]. intros Hm.
  destruct m as [|p|p]; [reflexivity| |lia].
  destruct p as [p|p|]; cbn [shr_1 shr_m].
  - rewrite Pos2Z.inj_xI. apply Z.div_unique with 1; lia.
  - rewrite Pos2Z.inj_xO. apply Z.div_unique with 0; lia.
  - reflexivity.
Qed.

Lemma iter_shr_1 (p : positive) :
  forall mrs, 0 <= shr_m mrs ->
    shr_m (iter_pos shr_1 p mrs) = shr_m mrs / 2 ^ Zpos p.
Proof.
  assert (Hnn : forall mrs, 0 <= shr_m mrs -> 0 <= shr_m (shr_1 mrs)).
  { intros mrs H. rewrite shr_1_half by assumption. apply Z.div_pos; lia. }
  induction p as [p IH|p IH|]; intros mrs Hm; cbn [iter_pos].
  - assert (H1 := Hnn mrs Hm).
    assert (Hp : 0 < 2 ^ Zpos p) by (apply Z.pow_pos_nonneg; lia).
    assert (H2 : 0 <= shr_m (iter_pos shr_1 p (shr_1 mrs))).
    { rewrite IH by assumption. apply Z.div_pos; assumption. }
    assert (Hpow : 2 ^ Zpos p~1 = 2 * (2 ^ Zpos p * 2 ^ Zpos p)).
    { replace (Zpos p~1) with (1 + (Zpos p + Zpos p)) by lia.
      rewrite !Z.pow_add_r by lia. reflexivity. }
    rewrite IH by assumption. rewrite IH by assumption. rewrite shr_1_half by assumption.
    rewrite Hpow. rewrite !Z.div_div by lia. reflexivity.
  - assert (Hp : 0 < 2 ^ Zpos p) by (apply Z.pow_pos_nonneg; lia).
    assert (H2 : 0 <= shr_m (iter_pos shr_1 p mrs)).
    { rewrite IH by assumption. apply Z.div_pos; assumption. }
    assert (Hpow : 2 ^ Zpos p~0 = 2 ^ Zpos p * 2 ^ Zpos p).
    { replace (Zpos p~0) with (Zpos p + Zpos p) by lia.
      rewrite !Z.pow_add_r by lia. reflexivity. }
    rewrite IH by assumption. rewrite IH by assumption.
    rewrite Hpow. rewrite !Z.div_div by lia. reflexivity.
  - rewrite shr_1_half by assumption. reflexivity.
Qed.

Lemma fexp_normal (e : Z) : -1021 <= e -> fexp prec emax e = e - 53.
Proof. unfold fexp, emin, prec, emax. lia. Qed.

(** A mantissa of 53 bits is not shifted. *)
Lemma shr_fexp_53 (m : positive) (e : Z) :
  Zpos (digits2_pos m) = 53 -> -1074 <= e ->
  shr_fexp prec emax (Zpos m) e loc_Exact
  = ({| shr_m := Zpos m; shr_r := false; shr_s := false |}, e).
Proof.
  intros Hd He. unfold shr_fexp. cbn [Zdigits2 shr_record_of_loc].
  rewrite Hd, fexp_normal by lia.
  replace (53 + e - 53 - e) with 0 by lia. reflexivity.
Qed.

Lemma binary_round_aux_53 (s : bool) (m : positive) (e : Z) :
  Zpos (digits2_pos m) = 53 -> -1074 <= e ->
  binary_round_aux prec emax s (Zpos m) e loc_Exact
  = if e <=? 971 then S754_finite s m e else S754_infinity s.
Proof.
  intros Hd He. unfold binary_round_aux.
  rewrite (shr_fexp_53 m e Hd He). cbn [shr_m loc_of_shr_record round_nearest_even].
  rewrite (shr_fexp_53 m e Hd He). cbn [shr_m]. reflexivity.
Qed.

Lemma valid_53 (s : bool) (m : positive) (e : Z) :
  Zpos (digits2_pos m) = 53 -> -1074 <= e <= 971 ->
  valid_binary (S754_finite s m e) = true.
Proof.
  intros Hd He. unfold SpecFloat.valid_binary, bounded, canonical_mantissa.
  rewrite Hd, fexp_normal by lia.
  apply andb_true_intro. split; [apply Z.eqb_eq; lia | apply Z.leb_le; unfold emax, prec; lia].
Qed.

(** An integer below [2^53] is a Number: the mantissa is the integer
    shifted to 53 bits. *)
Lemma binary_round_small (s : bool) (m : positive) :
  Zpos (digits2_pos m) <= 53 ->
  exists m',
    binary_round prec emax s m 0 = S754_finite s m' (Zpos (digits2_pos m) - 53)
    /\ Zpos (digits2_pos m') = 53
    /\ Zpos m' = Zpos m * 2 ^ (53 - Zpos (digits2_pos m)).
Proof.
  intros Hd. unfold binary_round, shl_align.
  rewrite fexp_normal by lia.
  destruct (Z.eq_dec (Zpos (digits2_pos m)) 53) as [E|E].
  - replace (Zpos (digits2_pos m) + 0 - 53 - 0) with 0 by lia.
    exists m. cbv iota beta. rewrite binary_round_aux_53 by (assumption || lia).
    replace (Zpos (digits2_pos m) + 0 - 53) with 0 by lia.
    replace (Zpos (digits2_pos m) - 53) with 0 by lia.
    replace (53 - Zpos (digits2_pos m)) with 0 by lia.
    split; [reflexivity|]. split; [assumption|]. lia.
  - set (k := Z.to_pos (53 - Zpos (digits2_pos m))).
    assert (Hk : Zpos k = 53 - Zpos (digits2_pos m)) by (unfold k; rewrite Z2Pos.id; lia).
    replace (Zpos (digits2_pos m) + 0 - 53 - 0) with (Zneg k) by lia.
    cbv iota beta.
    assert (Hd' : Zpos (digits2_pos (Pos.iter xO m k)) = 53).
    { rewrite iter_xO_digits. lia. }
    exists (Pos.iter xO m k).
    rewrite binary_round_aux_53 by (assumption || lia).
    replace (Zpos (digits2_pos m) + 0 - 53) with (Zpos (digits2_pos m) - 53) by lia.
    assert (Hle : (Zpos (digits2_pos m) - 53 <=? 971) = true) by (apply Z.leb_le; lia).
    rewrite Hle. repeat split; [assumption|].
    rewrite iter_xO_value, Hk. reflexivity.
Qed.

Lemma round_nearest_even_bounds (m : Z) (l : location) :
  m <= round_nearest_even m l <= m + 1.
Proof.
  destruct l as [|[]]; cbn [round_nearest_even]; try lia.
  destruct (Z.even m); lia.
Qed.

(** An integer of 54 bits or more becomes a Number with a positive
    exponent, or an infinity. *)
Lemma binary_round_large (s : bool) (m : positive) :
  54 <= Zpos (digits2_pos m) ->
  binary_round prec emax s m 0 = S754_infinity s
  \/ exists m' e',
       binary_round prec emax s m 0 = S754_finite s m' e'
       /\ Zpos (digits2_pos m') = 53 /\ 1 <= e' <= 971.
Proof.
  intros Hd. set (d := Zpos (digits2_pos m)) in *.
  pose proof (digits2_pos_bounds m) as [Blo Bhi]. fold d in Blo, Bhi.
  unfold binary_round, shl_align. fold d.
  rewrite fexp_normal by lia.
  set (p := Z.to_pos (d - 53)).
  assert (Hp : Zpos p = d - 53) by (unfold p; rewrite Z2Pos.id; lia).
  replace (d + 0 - 53 - 0) with (Zpos p) by lia. cbv iota beta.
  unfold binary_round_aux.
  assert (Hshift : shr_fexp prec emax (Zpos m) 0 loc_Exact
                   = (iter_pos shr_1 p {| shr_m := Zpos m; shr_r := false; shr_s := false |},
                      d - 53)).
  { unfold shr_fexp. cbn [Zdigits2 shr_record_of_loc]. fold d.
    rewrite fexp_normal by lia.
    replace (d + 0 - 53 - 0) with (Zpos p) by lia. unfold shr. f_equal. lia. }
  rewrite Hshift.
  set (mrs1 := iter_pos shr_1 p {| shr_m := Zpos m; shr_r := false; shr_s := false |}).
  assert (Hm1 : shr_m mrs1 = Zpos m / 2 ^ (d - 53)).
  { unfold mrs1. rewrite iter_shr_1 by (cbn [shr_m]; lia). cbn [shr_m]. now rewrite Hp. }
  assert (Hpow : 0 < 2 ^ (d - 53)) by (apply Z.pow_pos_nonneg; lia).
  assert (Hsplit : 2 ^ (d - 1) = 2 ^ 52 * 2 ^ (d - 53)).
  { rewrite <- Z.pow_add_r by lia. f_equal. lia. }
  assert (Hsplit' : 2 ^ d = 2 ^ 53 * 2 ^ (d - 53)).
  { rewrite <- Z.pow_add_r by lia. f_equal. lia. }
  assert (Hb1 : 2 ^ 52 <= shr_m mrs1 < 2 ^ 53).
  { rewrite Hm1. split.
    - apply Z.div_le_lower_bound; [assumption|]. lia.
    - apply Z.div_lt_upper_bound; [assumption|]. lia. }
  pose proof (round_nearest_even_bounds (shr_m mrs1) (loc_of_shr_record mrs1)) as Hr.
  set (m2 := round_nearest_even (shr_m mrs1) (loc_of_shr_record mrs1)) in *.
  assert (Hb2 : 2 ^ 52 <= m2 <= 2 ^ 53) by lia.
  destruct m2 as [|q2|q2] eqn:Em2; [lia| |lia].
  destruct (Z.eq_dec (Zpos q2) (2 ^ 53)) as [Etop | Ntop].
  - (* the rounding carried into a 54th bit *)
    assert (Eq2 : q2 = 9007199254740992%positive) by (apply Pos2Z.inj; exact Etop).
    subst q2.
    assert (Hsh : shr_fexp prec emax (Zpos 9007199254740992) (d - 53) loc_Exact
                  = ({| shr_m := Zpos 4503599627370496; shr_r := false; shr_s := false |},
                     d - 53 + 1)).
    { unfold shr_fexp. cbn [Zdigits2 shr_record_of_loc].
      change (Zpos (digits2_pos 9007199254740992)) with 54.
      rewrite fexp_normal by lia.
      replace (54 + (d - 53) - 53 - (d - 53)) with 1 by lia. reflexivity. }
    rewrite Hsh. cbn [shr_m].
    destruct (d - 53 + 1 <=? emax - prec) eqn:Ele; [|now left].
    right. exists 4503599627370496%positive, (d - 53 + 1).
    split; [reflexivity|]. split; [reflexivity|].
    apply Z.leb_le in Ele. unfold emax, prec in Ele. lia.
  - assert (Hd2 : Zpos (digits2_pos q2) = 53).
    { apply digits2_pos_unique. change (53 - 1) with 52. lia. }
    rewrite (shr_fexp_53 q2 (d - 53) Hd2) by lia. cbn [shr_m].
    destruct (d - 53 <=? emax - prec) eqn:Ele; [|now left].
    right. exists q2, (d - 53).
    split; [reflexivity|]. split; [assumption|].
    apply Z.leb_le in Ele. unfold emax, prec in Ele. lia.
Qed.

Lemma binary_normalize_valid (v : Z) :
  valid_binary (binary_normalize prec emax v 0 false) = true.
Proof.
  assert (H : forall s m, valid_binary (binary_round prec emax s m 0) = true).
  { intros s m. destruct (Z.le_gt_cases (Zpos (digits2_pos m)) 53) as [Hd|Hd].
    - destruct (binary_round_small s m Hd) as [m' [-> [Hd' _]]].
      apply valid_53; [assumption|]. pose proof (Pos2Z.is_pos (digits2_pos m)). lia.
    - destruct (binary_round_large s m ltac:(lia)) as [-> | [m' [e' [-> [Hd' He']]]]];
        [reflexivity|]. apply valid_53; [assumption | lia]. }
  destruct v; [reflexivity | apply H | apply H].
Qed.

(** The Number of an integer, in the terms of the specification of floats. *)
Lemma Prim2SF_Z2F (v : Z) : Prim2SF (Z2F v) = binary_normalize prec emax v 0 false.
Proof. unfold Z2F. apply Prim2SF_SF2Prim. apply binary_normalize_valid. Qed.

Lemma Z2F_negative (v : Z) : v < 0 -> (Z2F v <? 1)%float = true.
Proof.
  intros Hv. rewrite ltb_spec, Prim2SF_Z2F. unfold SFltb.
  let w := eval vm_compute in (Prim2SF 1%float) in change (Prim2SF 1%float) with w.
  destruct v as [|m|m]; try lia. cbn [binary_normalize].
  destruct (Z.le_gt_cases (Zpos (digits2_pos m)) 53) as [Hd|Hd].
  - destruct (binary_round_small true m Hd) as [m' [-> _]]. reflexivity.
  - destruct (binary_round_large true m ltac:(lia)) as [-> | [m' [e' [-> _]]]]; reflexivity.
Qed.

Lemma Z2F_above_15 (v : Z) : 16 <= v -> (15 <? Z2F v)%float = true.
Proof.
  intros Hv. rewrite ltb_spec, Prim2SF_Z2F. unfold SFltb.
  let w := eval vm_compute in (Prim2SF 15%float) in change (Prim2SF 15%float) with w.
  destruct v as [|m|m]; try lia. cbn [binary_normalize].
  destruct (Z.le_gt_cases (Zpos (digits2_pos m)) 53) as [Hd|Hd].
  - destruct (binary_round_small false m Hd) as [m' [-> _]].
    cbv beta iota delta [SFcompare].
    assert (Hdig : 5 <= Zpos (digits2_pos m)).
    { pose proof (digits2_pos_bounds m) as [_ Bhi].
      destruct (Z.le_gt_cases 5 (Zpos (digits2_pos m))); [assumption|].
      assert (2 ^ Zpos (digits2_pos m) <= 2 ^ 4) by (apply Z.pow_le_mono_r; lia).
      change (2 ^ 4) with 16 in *. lia. }
    destruct (Z.compare_spec (-49) (Zpos (digits2_pos m) - 53)); try reflexivity; lia.
  - destruct (binary_round_large false m ltac:(lia)) as [-> | [m' [e' [-> [_ He']]]]];
      [reflexivity|].
    cbv beta iota delta [SFcompare].
    destruct (Z.compare_spec (-49) e'); try reflexivity; lia.
Qed.

Lemma parseInt_string_cases (s : string) :
  parseInt_string s = nan \/ parseInt_string s = zero \/ parseInt_string s = neg_zero
  \/ exists v, v <> 0 /\ parseInt_string s = Z2F v.
Proof.
  unfold parseInt_string.
  destruct (strip_sign (trimStart s)) as [neg u].
  destruct (match radix_prefix u with
            | Some (16, r) => (16, r)
            | _ => (10, u)
            end) as [radix digits].
  destruct (scan_radix radix digits 0 0) as [[v cnt] rest].
  destruct (cnt =? 0); [now left|].
  destruct (v =? 0) eqn:Ev.
  - destruct neg; auto.
  - apply Z.eqb_neq in Ev. right. right. right.
    exists (if neg then - v else v). split; [destruct neg; lia | reflexivity].
Qed.

(** The effective count is a whole number from 1 to 15. *)
Lemma clamp_count_integer (s : string) :
  exists k, 1 <= k <= 15 /\ clamp_count (parseInt_string s) = Z2F k.
Proof.
  destruct (parseInt_string_cases s) as [-> | [-> | [-> | [v [Hv ->]]]]].
  - exists 5. split; [lia | vm_compute; reflexivity].
  - exists 5. split; [lia | vm_compute; reflexivity].
  - exists 5. split; [lia | vm_compute; reflexivity].
  - destruct (Number_truthy (Z2F v)) eqn:Ht;
    [|exists 5; split; [lia | rewrite clamp_count_default by assumption; reflexivity]].
  destruct (Z2F v <? 1)%float eqn:Hlo;
    [exists 1; split; [lia | rewrite clamp_count_low by assumption; reflexivity]|].
  destruct (15 <? Z2F v)%float eqn:Hhi;
    [exists 15; split; [lia | rewrite clamp_count_high by assumption; reflexivity]|].
  exists v. split; [|now apply clamp_count_inside].
  destruct (Z.lt_trichotomy v 0) as [Hn | [Hz | Hp]]; [|contradiction|].
  + rewrite (Z2F_negative v Hn) in Hlo. discriminate.
  + destruct (Z.le_gt_cases 16 v) as [Hbig | Hsmall]; [|lia].
    rewrite (Z2F_above_15 v Hbig) in Hhi. discriminate.
Qed.

Lemma small_count_cases (k : Z) :
  1 <= k <= 15 ->
  In k [1; 2; 3; 4; 5; 6; 7; 8; 9; 10; 11; 12; 13; 14; 15].
Proof. intros H. simpl. lia. Qed.

(** For an effective count the padding is exact and stays below 20; and
    the count is read back as itself. *)
Lemma effective_count_facts (k : Z) :
  1 <= k <= 15 ->
  requestCount (Z2F k) = Z2F (k + 3)
  /\ (requestCount (Z2F k) <? 20)%float = true
  /\ numQuestions (JNum (Z2F k)) = Ok (Z2F k)
  /\ In (Number_toString (requestCount (Z2F k))) request_counts.
Proof.
  intros H. apply small_count_cases in H. simpl in H.
  repeat (destruct H as [<- | H];
          [split; [|split; [|split]]; vm_compute; try reflexivity; tauto|]).
  contradiction.
Qed.

Lemma numQuestions_whole (count : JVal) (n : float) :
  numQuestions count = Ok n -> exists k, 1 <= k <= 15 /\ n = Z2F k.
Proof.
  rewrite numQuestions_clamp. unfold parseInt.
  destruct (ToString count) as [s|e]; cbn [bind]; [|discriminate].
  intros H. injection H as <-.
  destruct (clamp_count_integer s) as [k [Hk E]]. now exists k.
Qed.

(** X1. Whatever the request gives as [count], the effective number of
    questions is a whole number from 1 to 15, the number asked of the model
    is exactly three more, and the cap of 20 in
    [Math.min(numQuestions + 3, 20)] is never reached. *)
Theorem effective_count_is_whole (count : JVal) (n : float) :
  numQuestions count = Ok n ->
  exists k,
    1 <= k <= 15
    /\ n = Z2F k
    /\ requestCount n = Z2F (k + 3)
    /\ (requestCount n <? 20)%float = true.
Proof.
  intros H. destruct (numQuestions_whole count n H) as [k [Hk ->]].
  destruct (effective_count_facts k Hk) as [E1 [E2 _]].
  exists k. repeat split; try assumption; lia.
Qed.

Lemma effective_count_is_whole_witness :
  exists k,
    1 <= k <= 15
    /\ 15%float = Z2F k
    /\ requestCount 15 = Z2F (k + 3)
    /\ (requestCount 15 <? 20)%float = true.
Proof.
  apply (effective_count_is_whole (JStr "  40 questions")).
  vm_compute. reflexivity.
Defined.

(** ** Sanitized requests *)

Lemma substring_0_idem (n : nat) (s : string) :
  substring 0 n (substring 0 n s) = substring 0 n s.
Proof.
  revert s. induction n as [|n IH]; intros [|c r]; cbn [substring]; try reflexivity.
  now rewrite IH.
Qed.

Lemma substring_0_short (n : nat) (s : string) :
  (String.length s <= n)%nat -> substring 0 n s = s.
Proof.
  revert s. induction n as [|n IH]; intros [|c r] H; cbn [substring]; try reflexivity.
  - cbn [String.length] in H. lia.
  - cbn [String.length] in H. rewrite IH by lia. reflexivity.
Qed.

Lemma slice0_nonempty (n : nat) (s : string) :
  is_empty s = false -> is_empty (String_slice0 (S n) s) = false.
Proof. destruct s; [discriminate | reflexivity]. Qed.

Lemma slice0_fixed (n : nat) (v t : JVal) :
  truthy v = true -> slice0 (S n) v = Ok t -> truthy t = true /\ slice0 (S n) t = Ok t.
Proof.
  intros Ht.
  destruct v; cbn [slice0]; try discriminate; intros H.
  - assert (E : t = JStr (String_slice0 (S n) s)) by congruence. subst t.
    cbn [truthy] in Ht. apply negb_true_iff in Ht.
    cbn [truthy]. rewrite (slice0_nonempty n s Ht). cbn [negb slice0]. split; [reflexivity|].
    unfold String_slice0. now rewrite substring_0_idem.
  - assert (E : t = JArr (firstn (S n) items)) by congruence. subst t.
    cbn [truthy slice0]. split; [reflexivity|].
    rewrite firstn_firstn. now rewrite Nat.min_id.
Qed.

(** A sanitized topic is not falsy, and sanitizing it again changes
    nothing. *)
Lemma safeTopic_fixed (topic t : JVal) :
  safeTopic topic = Ok t -> truthy t = true /\ safeTopic t = Ok t.
Proof.
  unfold safeTopic. intros H.
  assert (Hv : truthy (or_else topic (JStr default_topic)) = true)
    by (unfold or_else; destruct (truthy topic) eqn:E; [exact E | reflexivity]).
  change 80%nat with (S 79) in *.
  destruct (slice0_fixed 79 _ t Hv H) as [Ht E].
  split; [exact Ht|]. unfold or_else. rewrite Ht. exact E.
Qed.

(** A sanitized difficulty is a level, or a member inherited from
    [Object.prototype]. *)
Lemma safeDifficulty_cases (difficulty v : JVal) :
  safeDifficulty difficulty = Ok v ->
  In v level_values
  \/ exists name, In name Object_prototype_members /\ v = JNative name.
Proof.
  unfold safeDifficulty.
  destruct (or_else difficulty (JStr "")) as [| |b|x|s|items|props|name];
    cbn [string_method bind]; try discriminate.
  intros H. injection H as <-.
  set (key := toLowerCase s).
  unfold lookup_literal, difficultyMap. cbn [own_property].
  destruct (String.eqb "expert" key); [left; cbn; tauto|].
  destruct (String.eqb "intermediate" key); [left; cbn; tauto|].
  destruct (String.eqb "beginner" key); [left; cbn; tauto|].
  destruct (mem_string key Object_prototype_members) eqn:Hm.
  - right. exists key. split; [now apply mem_string_In | reflexivity].
  - left. cbn. tauto.
Qed.

Lemma safeDifficulty_level (v : JVal) :
  In v level_values -> safeDifficulty v = Ok v.
Proof.
  intros [<- | [<- | [<- | []]]]; vm_compute; reflexivity.
Qed.

Lemma level_is_text (v : JVal) (d : string) :
  In v level_values \/ (exists name, In name Object_prototype_members /\ v = JNative name) ->
  v = JStr d -> In v level_values.
Proof.
  intros [H | [name [_ ->]]] E; [assumption | discriminate].
Qed.

(** The parts of a successful sanitization. *)
Lemma sanitize_parts (body : JVal) (s : QuizRequest) :
  sanitize body = Ok s ->
  destructure body = Ok body
  /\ numQuestions (get body F_count) = Ok (quiz_count s)
  /\ safeTopic (get body F_topic) = Ok (quiz_topic s)
  /\ safeDifficulty (get body F_difficulty) = Ok (quiz_difficulty s).
Proof.
  unfold sanitize.
  assert (D : destructure body = Ok body \/ exists e, destructure body = Throw e)
    by (destruct body; cbn [destructure]; eauto).
  destruct D as [D | [e D]]; rewrite D; cbn [bind]; [|discriminate].
  destruct (numQuestions (get body F_count)) as [n|e]; cbn [bind]; [|discriminate].
  destruct (safeTopic (get body F_topic)) as [t|e]; cbn [bind]; [|discriminate].
  destruct (safeDifficulty (get body F_difficulty)) as [d|e]; cbn [bind]; [|discriminate].
  intros H. injection H as <-. repeat split.
Qed.

Lemma sanitize_resubmit (s : QuizRequest) :
  sanitize (resubmit s)
  = let* n := numQuestions (JNum (quiz_count s)) in
    let* t := safeTopic (quiz_topic s) in
    let* d := safeDifficulty (quiz_difficulty s) in
    Ok {| quiz_topic := t; quiz_count := n; quiz_difficulty := d |}.
Proof. reflexivity. Qed.

(** X2. Sanitizing a sanitized request again gives the same request
    exactly when the sanitized difficulty is a text, and then it is one of
    the three levels; otherwise (a member inherited from [Object.prototype])
    the second sanitization throws. *)
Theorem sanitize_idempotent_iff_difficulty_is_text (body : JVal) (s : QuizRequest) :
  sanitize body = Ok s ->
  (sanitize (resubmit s) = Ok s <-> exists d, quiz_difficulty s = JStr d)
  /\ ((exists d, quiz_difficulty s = JStr d) -> In (quiz_difficulty s) level_values)
  /\ ((forall d, quiz_difficulty s <> JStr d) ->
      sanitize (resubmit s) = Throw (NotAFunction "toLowerCase")).
Proof.
  intros H. destruct (sanitize_parts body s H) as [_ [Hn [Ht Hd]]].
  destruct (numQuestions_whole _ _ Hn) as [k [Hk Ek]].
  destruct (effective_count_facts k Hk) as [_ [_ [Eback _]]].
  destruct (safeTopic_fixed _ _ Ht) as [_ Etopic].
  pose proof (safeDifficulty_cases _ _ Hd) as Hcases.
  assert (Hcount : numQuestions (JNum (quiz_count s)) = Ok (quiz_count s))
    by (rewrite Ek; exact Eback).
  assert (Hthrow : (forall d, quiz_difficulty s <> JStr d) ->
                   sanitize (resubmit s) = Throw (NotAFunction "toLowerCase")).
  { intros Hno. rewrite sanitize_resubmit, Hcount, Etopic. cbn [bind].
    destruct Hcases as [Hl | [name [_ En]]].
    - exfalso. destruct Hl as [E | [E | [E | []]]]; symmetry in E; exact (Hno _ E).
    - rewrite En. reflexivity. }
  split; [split|split].
  - intros E. destruct Hcases as [Hl | [name [_ En]]].
    + destruct Hl as [E' | [E' | [E' | []]]]; rewrite <- E'; eauto.
    + rewrite Hthrow in E; [discriminate|]. intros d Ed. rewrite En in Ed. discriminate.
  - intros [d Ed]. rewrite sanitize_resubmit, Hcount, Etopic. cbn [bind].
    rewrite (safeDifficulty_level _ (level_is_text _ d Hcases Ed)). cbn [bind].
    destruct s; reflexivity.
  - intros [d Ed]. exact (level_is_text _ d Hcases Ed).
  - exact Hthrow.
Qed.

Lemma sanitize_idempotent_iff_difficulty_is_text_witness :
  sanitize (resubmit {| quiz_topic := JStr "Networking"; quiz_count := 15;
                        quiz_difficulty := JStr "intermediate" |})
  = Ok {| quiz_topic := JStr "Networking"; quiz_count := 15;
          quiz_difficulty := JStr "intermediate" |}
  <-> exists d, JStr "intermediate" = JStr d.
Proof.
  refine (proj1 (sanitize_idempotent_iff_difficulty_is_text
                   (JObj [("topic", JStr "Networking"); ("count", JNum 40);
                          ("difficulty", JStr "InterMediate")])
                   {| quiz_topic := JStr "Networking"; quiz_count := 15;
                      quiz_difficulty := JStr "intermediate" |} _)).
  vm_compute. reflexivity.
Defined.

(** ** The quiz handler, path by path *)

Section Paths.

Variable JSON_parse : string -> option JVal.
Variable error_message : EngineError -> string.
Variable env : ProcessEnv.

(** The handler answers from the catch-all clause without calling the
    model, or it sanitizes the request, builds the prompt and awaits. *)
Lemma generate_quiz_cases (body : JVal) :
  (exists e,
     generate_quiz JSON_parse error_message env body
     = Respond (unhandled error_message env quiz_route e))
  \/ (exists s p,
        sanitize body = Ok s /\ quiz_prompt s = Ok p
        /\ generate_quiz JSON_parse error_message env body
           = Await (quiz_request p)
               (fun outcome =>
                  match quiz_reply JSON_parse env s outcome with
                  | Ok r => r
                  | Throw e => unhandled error_message env quiz_route e
                  end)).
Proof.
  unfold generate_quiz.
  destruct (sanitize body) as [s|e]; cbn [bind]; [|left; now exists e].
  destruct (quiz_prompt s) as [p|e] eqn:Ep; cbn [bind]; [|left; now exists e].
  right. exists s, p. split; [reflexivity | split; [exact Ep | reflexivity]].
Qed.

(** What the awaited part of the handler answers. *)
Lemma quiz_reply_cases (s : QuizRequest) (outcome : ModelOutcome) :
  (exists err,
     outcome = Rejected err
     /\ quiz_reply JSON_parse env s outcome
        = Ok {| console := [[LText "[OpenAI ERROR]"; LError err]];
                response := quiz_call_failed (buildErrorDebugInfo env err) |})
  \/ (exists c r,
        outcome = Fulfilled c
        /\ quiz_reply JSON_parse env s outcome = Ok r
        /\ http_status (response r) = 500
        /\ exists t d, json (response r) = error_body t d /\ In t quiz_error_texts)
  \/ (exists c e,
        outcome = Fulfilled c /\ quiz_reply JSON_parse env s outcome = Throw e)
  \/ (exists c questions q cl,
        outcome = Fulfilled c
        /\ JSON_parse (content_or c "[]") = Some questions
        /\ cleaned questions = Ok (q :: cl)
        /\ quiz_reply JSON_parse env s outcome
           = Ok {| console := [];
                   response :=
                     {| http_status := 200;
                        json := JObj [ ("topic", quiz_topic s);
                                       ("difficulty", quiz_difficulty s);
                                       ("questions", JArr (q :: cl));
                                       ("usage", usage_body c) ] |} |}).
Proof.
  destruct outcome as [c|err]; [|left; exists err; split; reflexivity].
  right. unfold quiz_reply.
  destruct (JSON_parse (content_or c "[]")) as [questions|] eqn:Ep.
  - destruct (cleaned questions) as [[|q cl]|e] eqn:Ec; cbn [bind].
    + left. exists c. eexists. split; [reflexivity|]. split; [reflexivity|].
      split; [reflexivity|]. eexists _, _. split; [reflexivity | cbn; tauto].
    + right. right. exists c, questions, q, cl.
      split; [reflexivity|]. split; [exact Ep|]. split; [exact Ec | reflexivity].
    + right. left. exists c, e. split; reflexivity.
  - left. exists c. eexists. split; [reflexivity|]. split; [reflexivity|].
    split; [reflexivity|]. eexists _, _. split; [reflexivity | cbn; tauto].
Qed.


End Paths.

(** The prompt of a sanitized request. *)
Lemma quiz_prompt_parts (s : QuizRequest) (p : Prompt) :
  quiz_prompt s = Ok p ->
  exists t d,
    ToString (quiz_topic s) = Ok t
    /\ quiz_difficulty s = JStr d
    /\ p = QuizPrompt (Number_toString (requestCount (quiz_count s))) t
                      (toUpperCase d) (difficultyDescription (JStr d)).
Proof.
  unfold quiz_prompt.
  destruct (ToString (quiz_topic s)) as [t|e]; cbn [bind]; [|discriminate].
  destruct (quiz_difficulty s) as [| |b|x|d|items|props|name];
    cbn [string_method bind]; try discriminate.
  intros H. exists t, d. split; [reflexivity|]. split; [reflexivity|]. congruence.
Qed.

Lemma level_wording (d : string) :
  In (JStr d) level_values ->
  In (toUpperCase d, difficultyDescription (JStr d)) quiz_levels.
Proof.
  intros [E | [E | [E | []]]]; injection E as <-; vm_compute; tauto.
Qed.

Lemma topic_text_length (topic : string) (t : JVal) (text : string) :
  safeTopic (JStr topic) = Ok t -> ToString t = Ok text ->
  (1 <= String.length text <= 80)%nat.
Proof.
  unfold safeTopic, or_else. cbn [truthy].
  destruct (negb (is_empty topic)) eqn:Hn; cbn [slice0]; intros H Ht.
  - assert (E : t = JStr (String_slice0 80 topic)) by congruence. subst t.
    cbn [ToString] in Ht. assert (E : text = String_slice0 80 topic) by congruence. subst text.
    rewrite slice0_length. apply negb_true_iff in Hn.
    destruct topic; [discriminate|]. cbn [String.length]. lia.
  - vm_compute in H. injection H as <-. cbn [ToString] in Ht. injection Ht as <-.
    vm_compute. lia.
Qed.

(** X3. Whenever the quiz handler calls the model, it asks [gpt-5-mini]
    for a whole number of questions from 4 to 18, at one of the three
    levels, each with its own description; a topic given as text takes at
    most 80 code units of the prompt. *)
Theorem quiz_prompt_wording
  (JSON_parse : string -> option JVal) (error_message : EngineError -> string)
  (env : ProcessEnv) (body : JVal) :
  model_calls (generate_quiz JSON_parse error_message env body) = 1%nat ->
  exists k n topic D description,
    generate_quiz JSON_parse error_message env body
    = Await {| model := "gpt-5-mini";
               system := "You generate exam-style multiple-choice questions in clean JSON.";
               user := QuizPrompt n topic D description |} k
    /\ In n request_counts
    /\ In (D, description) quiz_levels
    /\ (forall t, get body F_topic = JStr t -> (1 <= String.length topic <= 80)%nat).
Proof.
  intros Hcalls.
  destruct (generate_quiz_cases JSON_parse error_message env body)
    as [[e E] | [s [p [Hs [Hp E]]]]]; rewrite E in *; [discriminate|].
  destruct (sanitize_parts body s Hs) as [_ [Hn [Ht Hd]]].
  destruct (quiz_prompt_parts s p Hp) as [t [d [Htt [Ed ->]]]].
  destruct (numQuestions_whole _ _ Hn) as [j [Hj Ej]].
  destruct (effective_count_facts j Hj) as [_ [_ [_ Hin]]].
  eexists _, _, t, _, _. split; [reflexivity|]. split; [|split].
  - rewrite Ej. exact Hin.
  - apply level_wording. rewrite <- Ed.
    exact (level_is_text _ d (safeDifficulty_cases _ _ Hd) Ed).
  - intros t0 E0. rewrite E0 in Ht. exact (topic_text_length t0 _ t Ht Htt).
Qed.

Lemma quiz_prompt_wording_witness :
  exists k n topic D description,
    generate_quiz JSON_parse_reference sample_message {| OPENAI_API_KEY := None |}
      (JObj [("topic", JStr "AZ-104"); ("count", JStr "12"); ("difficulty", JStr "EXPERT")])
    = Await {| model := "gpt-5-mini";
               system := "You generate exam-style multiple-choice questions in clean JSON.";
               user := QuizPrompt n topic D description |} k
    /\ In n request_counts
    /\ In (D, description) quiz_levels
    /\ (forall t,
          get (JObj [("topic", JStr "AZ-104"); ("count", JStr "12");
                     ("difficulty", JStr "EXPERT")]) F_topic = JStr t ->
          (1 <= String.length topic <= 80)%nat).
Proof.
  apply (quiz_prompt_wording JSON_parse_reference sample_message {| OPENAI_API_KEY := None |}
           (JObj [("topic", JStr "AZ-104"); ("count", JStr "12"); ("difficulty", JStr "EXPERT")])).
  vm_compute. reflexivity.
Defined.



(** ** The questions of a quiz answer *)

Lemma map_indexed_Forall {A B : Type} (f : A -> nat -> Result B)
  (P : A -> Prop) (Q : B -> Prop) :
  (forall x i y, P x -> f x i = Ok y -> Q y) ->
  forall l i out,
    Forall P l -> map_indexed f l i = Ok out ->
    Forall Q out /\ List.length out = List.length l.
Proof.
  intros Hf. induction l as [|a l IH]; intros i out HP H; cbn [map_indexed] in H.
  - assert (E : out = []) by congruence. subst out. split; [constructor | reflexivity].
  - inversion HP as [|a' l' Pa Pl]; subst.
    destruct (f a i) as [y|e] eqn:Ef; cbn [bind] in H; [|discriminate].
    destruct (map_indexed f l (S i)) as [ys|e] eqn:Em; cbn [bind] in H; [|discriminate].
    assert (E : out = y :: ys) by congruence. subst out.
    destruct (IH _ _ Pl Em) as [Q1 Q2].
    split; [constructor; eauto | cbn [List.length]; now rewrite Q2].
Qed.

Lemma wellformed_four (q : JVal) :
  wellformed q = true ->
  exists a b c d, get q F_options = JArr [a; b; c; d].
Proof.
  unfold wellformed. intros H. apply andb_true_iff in H as [_ H].
  destruct (get q F_options) as [| |b|x|s|items|props|name]; try discriminate.
  destruct items as [|a [|b [|c [|d [|e r]]]]]; cbn in H; try discriminate.
  now exists a, b, c, d.
Qed.

Lemma correctOption_letter (v : JVal) :
  exists l,
    (if includes option_letters v then v else JStr "A") = JStr l /\ In l option_letters.
Proof.
  destruct (includes option_letters v) eqn:Hi.
  - destruct v as [| |b|x|s|items|props|name]; cbn [includes] in Hi; try discriminate.
    exists s. split; [reflexivity | now apply mem_string_In].
  - exists "A". split; [reflexivity | now left].
Qed.

(** What the map callback makes of an element the filter keeps. *)
Lemma cleanQuestion_clean (q : JVal) (idx : nat) (c : JVal) :
  wellformed q = true -> cleanQuestion q idx = Ok c -> CleanQuestion c.
Proof.
  intros Hw. destruct (wellformed_four q Hw) as [o1 [o2 [o3 [o4 Eo]]]].
  unfold cleanQuestion. rewrite Eo.
  destruct (ToString (get q F_question)) as [question|e]; cbn [bind]; [|discriminate].
  cbn [map_indexed].
  destruct (ToString o1) as [s1|e]; cbn [bind]; [|discriminate].
  destruct (ToString o2) as [s2|e]; cbn [bind]; [|discriminate].
  destruct (ToString o3) as [s3|e]; cbn [bind]; [|discriminate].
  destruct (ToString o4) as [s4|e]; cbn [bind]; [|discriminate].
  destruct (if truthy (get q F_explanation) then ToString (get q F_explanation) else Ok "")
    as [explanation|e]; cbn [bind]; [|discriminate].
  destruct (correctOption_letter (get q F_correctOption)) as [l [El Hl]].
  rewrite El. intros H.
  exists (or_else (get q F_id) (JStr (fallback_id idx))), question, s1, s2, s3, s4, l,
         explanation.
  split; [congruence|]. split; [|exact Hl].
  unfold or_else. destruct (truthy (get q F_id)) eqn:Hid; [exact Hid | reflexivity].
Qed.

(** The validator's output: as many questions as the filter kept, each in
    the shape of the answer. *)
Lemma cleaned_clean (questions : JVal) (out : list JVal) :
  cleaned questions = Ok out ->
  Forall CleanQuestion out
  /\ (forall items, questions = JArr items ->
        List.length out = List.length (filter wellformed items)).
Proof.
  unfold cleaned. intros H.
  destruct (or_else questions (JArr [])) as [| |b|x|s|items|props|name] eqn:Eq;
    try discriminate.
  destruct (map_indexed_Forall cleanQuestion (fun q => wellformed q = true) CleanQuestion
              (fun x i y Hx => cleanQuestion_clean x i y Hx)
              (filter wellformed items) 0%nat out) as [Hall Hlen].
  - apply Forall_forall. intros q Hq. apply filter_In in Hq. tauto.
  - exact H.
  - split; [exact Hall|]. intros items' ->.
    unfold or_else in Eq. cbn [truthy] in Eq. injection Eq as ->. exact Hlen.
Qed.


(** X6. The answer is never cut down to the number of questions asked
    for: whatever [count] the request gave, a 200 answer carries every
    element of the model's array that the filter keeps. *)
Theorem quiz_answer_keeps_every_survivor
  (JSON_parse : string -> option JVal) (error_message : EngineError -> string)
  (env : ProcessEnv) (body : JVal) (completion : Completion)
  (items out : list JVal) :
  model_calls (generate_quiz JSON_parse error_message env body) = 1%nat ->
  JSON_parse (content_or completion "[]") = Some (JArr items) ->
  cleaned (JArr items) = Ok out ->
  out <> [] ->
  List.length out = List.length (filter wellformed items)
  /\ exists topic difficulty usage,
       response (run (answers completion) (generate_quiz JSON_parse error_message env body))
       = {| http_status := 200;
            json := JObj [ ("topic", topic); ("difficulty", difficulty);
                           ("questions", JArr out); ("usage", usage) ] |}.
Proof.
  intros Hcalls Hparse Hcl Hne.
  split; [exact (proj2 (cleaned_clean _ _ Hcl) items eq_refl)|].
  destruct (generate_quiz_cases JSON_parse error_message env body)
    as [[e E] | [s [p [_ [_ E]]]]]; rewrite E in *; [discriminate|].
  cbn [run]. unfold answers, quiz_reply. rewrite Hparse, Hcl. cbn [bind].
  destruct out as [|q cl]; [contradiction|].
  eexists _, _, _. reflexivity.
Qed.

Lemma quiz_answer_keeps_every_survivor_witness :
  List.length [JObj [ ("id", JStr "q1"); ("question", JStr "What is a VNet?");
                      ("options", four_options); ("correctOption", JStr "B");
                      ("explanation", JStr "") ];
               JObj [ ("id", JStr "q2"); ("question", JStr "What is a VNet?");
                      ("options", four_options); ("correctOption", JStr "B");
                      ("explanation", JStr "") ]]
  = List.length (filter wellformed [element_with_id_zero; element_with_id_zero])
  /\ exists topic difficulty usage,
       response
         (run (answers (completion_with_text "two questions"))
              (generate_quiz (reads_as (JArr [element_with_id_zero; element_with_id_zero]))
                 sample_message {| OPENAI_API_KEY := Some "sk-test" |}
                 (JObj [("count", JNum 1)])))
       = {| http_status := 200;
            json := JObj [ ("topic", topic); ("difficulty", difficulty);
                           ("questions",
                            JArr [JObj [ ("id", JStr "q1"); ("question", JStr "What is a VNet?");
                                         ("options", four_options); ("correctOption", JStr "B");
                                         ("explanation", JStr "") ];
                                  JObj [ ("id", JStr "q2"); ("question", JStr "What is a VNet?");
                                         ("options", four_options); ("correctOption", JStr "B");
                                         ("explanation", JStr "") ]]);
                           ("usage", usage) ] |}.
Proof.
  apply (quiz_answer_keeps_every_survivor
           (reads_as (JArr [element_with_id_zero; element_with_id_zero]))
           sample_message {| OPENAI_API_KEY := Some "sk-test" |} (JObj [("count", JNum 1)])
           (completion_with_text "two questions")
           [element_with_id_zero; element_with_id_zero]).
  - vm_compute. reflexivity.
  - reflexivity.
  - vm_compute. reflexivity.
  - discriminate.
Defined.

(** ** The explain handler, path by path *)

Lemma trimEnd_empty_blank (s : string) : trimEnd s = "" -> blank s.
Proof.
  induction s as [|c s IH]; intros H.
  - intros c [].
  - cbn [trimEnd] in H. destruct (trimEnd s) eqn:E; [|discriminate].
    destruct (is_white_space c) eqn:Hc; [|discriminate].
    apply blank_cons. split; [exact Hc | now apply IH].
Qed.

Lemma trimStart_blank_inv (s : string) : blank (trimStart s) -> blank s.
Proof.
  induction s as [|c s IH]; intros H; [exact H|].
  cbn [trimStart] in H. destruct (is_white_space c) eqn:Hc; [|exact H].
  apply blank_cons. split; [exact Hc | now apply IH].
Qed.

Lemma trim_empty_blank (s : string) : trim s = "" -> blank s.
Proof.
  unfold trim. intros H. apply trimStart_blank_inv. now apply trimEnd_empty_blank.
Qed.

Lemma level_wording_explain (difficultyLabel : string) :
  In (level difficultyLabel) explain_levels.
Proof.
  unfold level, explain_levels.
  destruct (String.eqb difficultyLabel "expert"); [cbn; tauto|].
  destruct (String.eqb difficultyLabel "intermediate"); cbn; tauto.
Qed.

Lemma explain_prompt_parts (topic difficulty topic' : JVal) (text : string) (p : Prompt) :
  explain_prompt topic (JStr text) difficulty = Ok (topic', p) ->
  safeTopic topic = Ok topic'
  /\ exists topic_text lvl,
       ToString topic' = Ok topic_text
       /\ In lvl explain_levels
       /\ p = ExplainPrompt topic_text lvl (String_slice0 500 text).
Proof.
  unfold explain_prompt.
  destruct (safeTopic topic) as [t|e]; cbn [bind slice0]; [|discriminate].
  destruct (string_method "toLowerCase" toLowerCase (or_else difficulty (JStr "beginner")))
    as [label|e]; cbn [bind]; [|discriminate].
  destruct (ToString t) as [tt|e] eqn:Et; cbn [bind ToString]; [|discriminate].
  intros H. assert (E1 : t = topic') by congruence. subst t.
  split; [reflexivity|]. exists tt, (level label).
  split; [exact Et|]. split; [apply level_wording_explain | congruence].
Qed.

Section ExplainPaths.

Variable error_message : EngineError -> string.
Variable env : ProcessEnv.

(** The handler answers from the catch-all clause, or refuses a text that
    is falsy or blank, or builds the prompt and awaits. *)
Lemma explain_cases (body : JVal) :
  (exists e,
     explain error_message env body = Respond (unhandled error_message env explain_route e))
  \/ (explain error_message env body = Respond {| console := []; response := no_text_response |}
      /\ (truthy (request_text body) = false
          \/ exists s, request_text body = JStr s /\ blank s))
  \/ (exists text topic' p,
        request_text body = JStr text
        /\ ~ blank text
        /\ explain_prompt (get (or_else body (JObj [])) F_topic) (JStr text)
                          (get (or_else body (JObj [])) F_difficulty) = Ok (topic', p)
        /\ explain error_message env body
           = Await (explain_request p) (explain_reply env topic')).
Proof.
  unfold explain, request_text.
  set (b := or_else body (JObj [])).
  unfold no_text.
  destruct (truthy (get b F_text)) eqn:Ht.
  - destruct (get b F_text) as [| |x|x|text|items|props|name] eqn:Etext;
      cbn [string_method bind];
      try (left; eexists; reflexivity).
    destruct (is_empty (trim text)) eqn:Hb.
    + right. left. split; [reflexivity|]. right. exists text. split; [reflexivity|].
      apply trim_empty_blank. now apply is_empty_true.
    + destruct (explain_prompt (get b F_topic) (JStr text) (get b F_difficulty))
        as [[topic' p]|e] eqn:Ep.
      * right. right. exists text, topic', p. split; [reflexivity|]. split.
        -- intros Hblank. rewrite (trim_blank text Hblank) in Hb. discriminate.
        -- split; [exact Ep | reflexivity].
      * left. exists e. reflexivity.
  - right. left. split; [reflexivity | now left].
Qed.

End ExplainPaths.


(** X7. Whenever the explain handler calls the model, the text of the
    request is a text that is not blank; the prompt carries its first 500
    code units and one of the three levels, whatever the request gave as
    [difficulty]. *)
Theorem explain_prompt_wording
  (error_message : EngineError -> string) (env : ProcessEnv) (body : JVal) :
  model_calls (explain error_message env body) = 1%nat ->
  exists k text topic lvl,
    request_text body = JStr text
    /\ ~ blank text
    /\ explain error_message env body
       = Await {| model := "gpt-5-mini";
                  system := "You explain cloud/IT concepts clearly for exam students.";
                  user := ExplainPrompt topic lvl (String_slice0 500 text) |} k
    /\ In lvl explain_levels
    /\ prefix (String_slice0 500 text) text = true
    /\ String.length (String_slice0 500 text) = Nat.min 500 (String.length text).
Proof.
  intros Hcalls.
  destruct (explain_cases error_message env body)
    as [[e E] | [[E _] | [text [topic' [p [Ht [Hnb [Hp E]]]]]]]];
    rewrite E in *; try discriminate.
  destruct (explain_prompt_parts _ _ _ _ _ Hp) as [_ [tt [lvl [_ [Hl ->]]]]].
  exists (explain_reply env topic'), text, tt, lvl.
  split; [exact Ht|]. split; [exact Hnb|]. split; [reflexivity|]. split; [exact Hl|].
  split; [apply slice0_prefix | apply slice0_length].
Qed.

Lemma explain_prompt_wording_witness :
  exists k text topic lvl,
    request_text (JObj [("text", JStr "  resource group "); ("difficulty", JStr "guru")])
    = JStr text
    /\ ~ blank text
    /\ explain sample_message {| OPENAI_API_KEY := None |}
         (JObj [("text", JStr "  resource group "); ("difficulty", JStr "guru")])
       = Await {| model := "gpt-5-mini";
                  system := "You explain cloud/IT concepts clearly for exam students.";
                  user := ExplainPrompt topic lvl (String_slice0 500 text) |} k
    /\ In lvl explain_levels
    /\ prefix (String_slice0 500 text) text = true
    /\ String.length (String_slice0 500 text) = Nat.min 500 (String.length text).
Proof.
  apply (explain_prompt_wording sample_message {| OPENAI_API_KEY := None |}
           (JObj [("text", JStr "  resource group "); ("difficulty", JStr "guru")])).
  vm_compute. reflexivity.
Defined.




(** X10. The explain handler refuses a request with the 400 answer exactly
    when its [text] is falsy (absent, [null], [false], 0, NaN, the empty
    text) or a blank text. *)
Theorem explain_refuses_exactly_missing_text
  (error_message : EngineError -> string) (env : ProcessEnv) (body : JVal) :
  explain error_message env body = Respond {| console := []; response := no_text_response |}
  <-> (truthy (request_text body) = false
       \/ exists s, request_text body = JStr s /\ blank s).
Proof.
  split.
  - intros H.
    destruct (explain_cases error_message env body)
      as [[e E] | [[_ Hwhy] | [text [topic' [p [_ [_ [_ E]]]]]]]].
    + rewrite E in H. unfold unhandled, reply in H. discriminate.
    + exact Hwhy.
    + rewrite E in H. discriminate.
  - intros [Hf | [s [Hs Hb]]].
    + unfold explain, no_text. unfold request_text in Hf. rewrite Hf. reflexivity.
    + unfold explain, no_text. unfold request_text in Hs. rewrite Hs.
      cbn [truthy string_method bind]. rewrite (trim_blank s Hb).
      destruct (negb (is_empty s)); reflexivity.
Qed.

(** ** Requests with missing parts *)

(** X11. A request body that has none of the fields [topic], [count] and
    [difficulty] (an empty object, a number, a text, ...) is served with the
    defaults: the model is asked for 8 questions (5 and 3 to spare) on the
    default topic at the level BEGINNER. *)
Theorem request_without_fields_gets_defaults
  (JSON_parse : string -> option JVal) (error_message : EngineError -> string)
  (env : ProcessEnv) (body : JVal) :
  body <> JUndefined -> body <> JNull ->
  no_quiz_fields body ->
  sanitize body
  = Ok {| quiz_topic := JStr "AZ-900 (Microsoft Azure Fundamentals)";
          quiz_count := 5;
          quiz_difficulty := JStr "beginner" |}
  /\ exists k,
       generate_quiz JSON_parse error_message env body
       = Await (quiz_request
                  (QuizPrompt "8" "AZ-900 (Microsoft Azure Fundamentals)" "BEGINNER"
                     "Focus on fundamentals, clear definitions, and simple scenarios."))
               k.
Proof.
  intros Hu Hn [Ht [Hc Hd]].
  assert (D : destructure body = Ok body)
    by (destruct body; try reflexivity; contradiction).
  assert (E : sanitize body
              = Ok {| quiz_topic := JStr "AZ-900 (Microsoft Azure Fundamentals)";
                      quiz_count := 5;
                      quiz_difficulty := JStr "beginner" |}).
  { unfold sanitize. rewrite D. cbn [bind]. rewrite Ht, Hc, Hd. vm_compute. reflexivity. }
  split; [exact E|].
  unfold generate_quiz. rewrite E. cbn [bind].
  assert (P : quiz_prompt {| quiz_topic := JStr "AZ-900 (Microsoft Azure Fundamentals)";
                             quiz_count := 5;
                             quiz_difficulty := JStr "beginner" |}
              = Ok (QuizPrompt "8" "AZ-900 (Microsoft Azure Fundamentals)" "BEGINNER"
                      "Focus on fundamentals, clear definitions, and simple scenarios."))
    by (vm_compute; reflexivity).
  rewrite P. cbn [bind]. eexists. reflexivity.
Qed.

Lemma request_without_fields_gets_defaults_witness :
  sanitize (JObj [("subject", JStr "AZ-104")])
  = Ok {| quiz_topic := JStr "AZ-900 (Microsoft Azure Fundamentals)";
          quiz_count := 5;
          quiz_difficulty := JStr "beginner" |}
  /\ exists k,
       generate_quiz JSON_parse_reference sample_message {| OPENAI_API_KEY := None |}
         (JObj [("subject", JStr "AZ-104")])
       = Await (quiz_request
                  (QuizPrompt "8" "AZ-900 (Microsoft Azure Fundamentals)" "BEGINNER"
                     "Focus on fundamentals, clear definitions, and simple scenarios."))
               k.
Proof.
  apply (request_without_fields_gets_defaults JSON_parse_reference sample_message
           {| OPENAI_API_KEY := None |} (JObj [("subject", JStr "AZ-104")])).
  - discriminate.
  - discriminate.
  - repeat split.
Defined.

(** X12. A request without a body ([undefined] or [null]): the quiz
    handler fails on destructuring it and answers 500 from its catch-all
    clause, the explain handler reads it as an empty object and answers 400;
    neither calls the model. *)
Theorem request_without_body
  (JSON_parse : string -> option JVal) (error_message : EngineError -> string)
  (env : ProcessEnv) (body : JVal) :
  body = JUndefined \/ body = JNull ->
  generate_quiz JSON_parse error_message env body
  = Respond (unhandled error_message env quiz_route CannotDestructure)
  /\ response (unhandled error_message env quiz_route CannotDestructure)
     = internal_error_response
         (buildErrorDebugInfo env (Some (TypeError error_message CannotDestructure)))
  /\ explain error_message env body
     = Respond {| console := []; response := no_text_response |}.
Proof.
  intros [-> | ->]; repeat split.
Qed.

Lemma request_without_body_witness :
  generate_quiz JSON_parse_reference sample_message {| OPENAI_API_KEY := Some "sk-test" |}
    JUndefined
  = Respond (unhandled sample_message {| OPENAI_API_KEY := Some "sk-test" |} quiz_route
               CannotDestructure)
  /\ response (unhandled sample_message {| OPENAI_API_KEY := Some "sk-test" |} quiz_route
                 CannotDestructure)
     = internal_error_response
         (buildErrorDebugInfo {| OPENAI_API_KEY := Some "sk-test" |}
            (Some (TypeError sample_message CannotDestructure)))
  /\ explain sample_message {| OPENAI_API_KEY := Some "sk-test" |} JUndefined
     = Respond {| console := []; response := no_text_response |}.
Proof.
  apply (request_without_body JSON_parse_reference sample_message
           {| OPENAI_API_KEY := Some "sk-test" |} JUndefined).
  left. reflexivity.
Defined.

(** ** The credential *)

Lemma debug_ignores_key_value (env1 env2 : ProcessEnv) (err : option Failure) :
  credential_configured env1 -> credential_configured env2 ->
  buildErrorDebugInfo env1 err = buildErrorDebugInfo env2 err.
Proof.
  intros H1 H2.
  apply credential_configured_iff in H1 as [k1 K1].
  apply credential_configured_iff in H2 as [k2 K2].
  unfold buildErrorDebugInfo. rewrite K1, K2. reflexivity.
Qed.

(** X13. The handlers themselves read the API key only to test that one
    is set: given the same outcome of the call of the model, two servers that
    both have a key configured, whatever the keys, write the same log lines
    and give the same response to every request.  (The client that makes the
    call is built from the key; what it puts into its outcome, which the
    handlers log and may quote as [debug], is a hypothesis here.) *)
Theorem handlers_read_key_only_as_set
  (JSON_parse : string -> option JVal) (error_message : EngineError -> string)
  (env1 env2 : ProcessEnv) (body : JVal) (openai1 openai2 : ChatRequest -> ModelOutcome) :
  credential_configured env1 -> credential_configured env2 ->
  (forall req, openai1 req = openai2 req) ->
  run openai1 (generate_quiz JSON_parse error_message env1 body)
  = run openai2 (generate_quiz JSON_parse error_message env2 body)
  /\ run openai1 (explain error_message env1 body)
     = run openai2 (explain error_message env2 body).
Proof.
  intros H1 H2 Hsame.
  assert (D : forall err, buildErrorDebugInfo env1 err = buildErrorDebugInfo env2 err)
    by (intros err; now apply debug_ignores_key_value).
  assert (U : forall route e,
             unhandled error_message env1 route e = unhandled error_message env2 route e)
    by (intros route e; unfold unhandled; now rewrite D).
  split.
  - unfold generate_quiz.
    destruct (sanitize body) as [s|e]; cbn [bind run]; [|apply U].
    destruct (quiz_prompt s) as [p|e]; cbn [bind run]; [|apply U].
    rewrite Hsame.
    destruct (openai2 (quiz_request p)) as [c|err].
    + unfold quiz_reply.
      destruct (JSON_parse (content_or c "[]")) as [questions|]; [|reflexivity].
      destruct (cleaned questions) as [[|q cl]|e]; cbn [bind]; try reflexivity. apply U.
    + cbn [quiz_reply]. now rewrite D.
  - unfold explain.
    destruct (no_text (get (or_else body (JObj [])) F_text)) as [[|]|e]; cbn [run];
      [reflexivity| |apply U].
    destruct (explain_prompt (get (or_else body (JObj [])) F_topic)
                (get (or_else body (JObj [])) F_text)
                (get (or_else body (JObj [])) F_difficulty)) as [[topic' p]|e];
      cbn [run]; [|apply U].
    rewrite Hsame.
    destruct (openai2 (explain_request p)) as [c|err]; cbn [explain_reply];
      [reflexivity | now rewrite D].
Qed.

Lemma handlers_read_key_only_as_set_witness :
  run (rejects (Some {| status := Some 401%float; code := None; message := None |}))
      (generate_quiz JSON_parse_reference sample_message
         {| OPENAI_API_KEY := Some "sk-one" |} (JObj [("count", JNum 3)]))
  = run (rejects (Some {| status := Some 401%float; code := None; message := None |}))
        (generate_quiz JSON_parse_reference sample_message
           {| OPENAI_API_KEY := Some "sk-two" |} (JObj [("count", JNum 3)]))
  /\ run (rejects (Some {| status := Some 401%float; code := None; message := None |}))
         (explain sample_message {| OPENAI_API_KEY := Some "sk-one" |}
            (JObj [("count", JNum 3)]))
     = run (rejects (Some {| status := Some 401%float; code := None; message := None |}))
           (explain sample_message {| OPENAI_API_KEY := Some "sk-two" |}
              (JObj [("count", JNum 3)])).
Proof.
  apply (handlers_read_key_only_as_set JSON_parse_reference sample_message
           {| OPENAI_API_KEY := Some "sk-one" |} {| OPENAI_API_KEY := Some "sk-two" |}
           (JObj [("count", JNum 3)])).
  - exists "sk-one". split; [reflexivity | discriminate].
  - exists "sk-two". split; [reflexivity | discriminate].
  - intros req. reflexivity.
Defined.



(** ** The page and the server *)

Lemma trimStart_head (s : string) :
  trimStart s = ""
  \/ exists c r, trimStart s = String c r /\ is_white_space c = false.
Proof.
  induction s as [|c s IH]; [now left|].
  cbn [trimStart]. destruct (is_white_space c) eqn:Hc; [exact IH|].
  right. now exists c, s.
Qed.

Lemma trimEnd_idem (s : string) : trimEnd (trimEnd s) = trimEnd s.
Proof.
  induction s as [|c s IH]; [reflexivity|].
  cbn [trimEnd]. destruct (trimEnd s) as [|d r] eqn:E.
  - destruct (is_white_space c) eqn:Hc; [reflexivity|].
    cbn [trimEnd]. now rewrite Hc.
  - cbn [trimEnd] in *. rewrite IH. reflexivity.
Qed.

Lemma trimEnd_head (c : ascii) (r : string) :
  is_white_space c = false -> exists r', trimEnd (String c r) = String c r'.
Proof.
  intros Hc. cbn [trimEnd]. destruct (trimEnd r) as [|d r'].
  - rewrite Hc. now exists "".
  - now exists (String d r').
Qed.

Lemma trim_idem (s : string) : trim (trim s) = trim s.
Proof.
  unfold trim.
  destruct (trimStart_head s) as [E | [c [r [E Hc]]]]; rewrite E.
  - reflexivity.
  - destruct (trimEnd_head c r Hc) as [r' E'].
    assert (S1 : trimStart (trimEnd (String c r)) = trimEnd (String c r))
      by (rewrite E'; cbn [trimStart]; now rewrite Hc).
    rewrite S1. apply trimEnd_idem.
Qed.

Lemma topic_field_truthy (value : string) : is_empty (topic_field value) = false.
Proof.
  unfold topic_field. destruct (is_empty (trim value)) eqn:E; [reflexivity | exact E].
Qed.

Lemma difficulty_field_truthy (value : string) : is_empty (difficulty_field value) = false.
Proof.
  unfold difficulty_field. destruct (is_empty value) eqn:E; [reflexivity | exact E].
Qed.

Lemma numQuestions_wire (x : float) : exists n, numQuestions (wire_number x) = Ok n.
Proof.
  unfold wire_number.
  destruct (is_nan x || is_infinity x); [|destruct (is_zero x)];
    unfold numQuestions, parseInt; cbn [ToString bind]; eexists; reflexivity.
Qed.

Lemma safeTopic_text (t : string) :
  is_empty t = false -> safeTopic (JStr t) = Ok (JStr (String_slice0 80 t)).
Proof.
  intros H. unfold safeTopic, or_else. cbn [truthy]. rewrite H. reflexivity.
Qed.

Lemma small_count_on_the_wire (k : Z) :
  1 <= k <= 15 ->
  wire_number (if Number_truthy (Z2F k) then Z2F k else 5%float) = JNum (Z2F k).
Proof.
  intros H. apply small_count_cases in H. simpl in H.
  repeat (destruct H as [<- | H]; [vm_compute; reflexivity|]). contradiction.
Qed.

(** X15. The page and the server together: for every state of the quiz
    form the request the page sends is sanitized without an error.  The
    topic the server uses is the text of the input with the white space
    around it removed (the default topic when nothing is left), cut to 80
    code units: the trimming is the page's, the cut is the server's.  A count
    input that reads as a whole number from 1 to 15 is the effective
    count. *)
Theorem form_request_is_sanitized (topic count difficulty : string) :
  exists s,
    sanitize (quiz_body topic count difficulty) = Ok s
    /\ quiz_topic s
       = JStr (String_slice0 80
                 (if is_empty (trim topic) then "AZ-900 (Microsoft Azure Fundamentals)"
                  else trim topic))
    /\ safeDifficulty (JStr (if is_empty difficulty then "beginner" else difficulty))
       = Ok (quiz_difficulty s)
    /\ (forall k, 1 <= k <= 15 -> parseInt_string count = Z2F k -> quiz_count s = Z2F k).
Proof.
  destruct (numQuestions_wire (count_field count)) as [n Hn].
  destruct (safeDifficulty (JStr (difficulty_field difficulty))) as [d|e] eqn:Hd.
  - exists {| quiz_topic := JStr (String_slice0 80 (topic_field topic));
              quiz_count := n; quiz_difficulty := d |}.
    split; [|split; [reflexivity | split; [exact Hd|]]].
    + unfold sanitize.
      change (destructure (quiz_body topic count difficulty))
        with (Ok (A := JVal) (quiz_body topic count difficulty)).
      cbn [bind].
      change (get (quiz_body topic count difficulty) F_count)
        with (wire_number (count_field count)).
      change (get (quiz_body topic count difficulty) F_topic)
        with (JStr (topic_field topic)).
      change (get (quiz_body topic count difficulty) F_difficulty)
        with (JStr (difficulty_field difficulty)).
      rewrite Hn, (safeTopic_text _ (topic_field_truthy topic)), Hd. reflexivity.
    + intros k Hk Hparse. cbn [quiz_count].
      unfold count_field in Hn. rewrite Hparse, (small_count_on_the_wire k Hk) in Hn.
      destruct (effective_count_facts k Hk) as [_ [_ [Eback _]]].
      rewrite Eback in Hn. congruence.
  - exfalso. unfold safeDifficulty, or_else in Hd. cbn [truthy] in Hd.
    rewrite (difficulty_field_truthy difficulty) in Hd. discriminate.
Qed.

(** X16. The page and the server together: a selection the page accepts
    for [Explain this] (2 to 200 code units after trimming) is sent as it is,
    passes the server's guard against blank text, and reaches the prompt
    whole: the cut at 500 code units never applies to it. *)
Theorem accepted_selection_is_explained_whole
  (error_message : EngineError -> string) (env : ProcessEnv)
  (selection topicInput difficultySelect : option string) :
  mouseup_selection selection <> "" ->
  exists body k topic lvl,
    explain_body (mouseup_selection selection) topicInput difficultySelect = Some body
    /\ request_text body = JStr (mouseup_selection selection)
    /\ (2 <= String.length (mouseup_selection selection) <= 200)%nat
    /\ explain error_message env body
       = Await {| model := "gpt-5-mini";
                  system := "You explain cloud/IT concepts clearly for exam students.";
                  user := ExplainPrompt topic lvl (mouseup_selection selection) |} k.
Proof.
  intros Hne.
  set (last := mouseup_selection selection) in *.
  assert (Hlast : (2 <= String.length last <= 200)%nat /\ trim last = last).
  { unfold last, mouseup_selection in *.
    destruct selection as [s|]; [|contradiction].
    destruct (is_empty (trim s)); [contradiction|].
    cbn [orb] in *.
    destruct (String.length (trim s) <? 2)%nat eqn:H2; [contradiction|].
    cbn [orb] in *.
    destruct (200 <? String.length (trim s))%nat eqn:H200; [contradiction|].
    apply Nat.ltb_ge in H2. apply Nat.ltb_ge in H200.
    split; [lia | apply trim_idem]. }
  destruct Hlast as [Hlen Htrim].
  assert (Hnonempty : is_empty last = false) by now apply is_empty_false.
  set (body := JObj [ ("topic", JStr (explain_topic topicInput));
                      ("text", JStr last);
                      ("difficulty", JStr (explain_difficulty difficultySelect)) ]).
  assert (Hbody : explain_body last topicInput difficultySelect = Some body)
    by (unfold explain_body; rewrite Htrim, Hnonempty; reflexivity).
  assert (Htopic : is_empty (explain_topic topicInput) = false)
    by (destruct topicInput; [apply topic_field_truthy | reflexivity]).
  assert (Hdiff : is_empty (explain_difficulty difficultySelect) = false)
    by (destruct difficultySelect; [apply difficulty_field_truthy | reflexivity]).
  assert (Hslice : String_slice0 500 last = last)
    by (apply substring_0_short; lia).
  exists body, (explain_reply env (JStr (String_slice0 80 (explain_topic topicInput)))),
         (String_slice0 80 (explain_topic topicInput)),
         (level (toLowerCase (explain_difficulty difficultySelect))).
  split; [exact Hbody|]. split; [reflexivity|]. split; [exact Hlen|].
  unfold explain.
  change (or_else body (JObj [])) with body.
  change (get body F_text) with (JStr last).
  change (get body F_topic) with (JStr (explain_topic topicInput)).
  change (get body F_difficulty) with (JStr (explain_difficulty difficultySelect)).
  unfold no_text. cbn [truthy string_method bind]. rewrite Hnonempty, Htrim, Hnonempty.
  cbn [negb].
  unfold explain_prompt. rewrite (safeTopic_text _ Htopic). cbn [bind slice0].
  unfold or_else. cbn [truthy]. rewrite Hdiff. cbn [negb string_method bind ToString].
  rewrite Hslice. reflexivity.
Qed.

Lemma accepted_selection_is_explained_whole_witness :
  exists body k topic lvl,
    explain_body (mouseup_selection (Some " virtual network ")) (Some "AZ-104") None
    = Some body
    /\ request_text body = JStr (mouseup_selection (Some " virtual network "))
    /\ (2 <= String.length (mouseup_selection (Some " virtual network ")) <= 200)%nat
    /\ explain sample_message {| OPENAI_API_KEY := Some "sk-test" |} body
       = Await {| model := "gpt-5-mini";
                  system := "You explain cloud/IT concepts clearly for exam students.";
                  user := ExplainPrompt topic lvl
                            (mouseup_selection (Some " virtual network ")) |} k.
Proof.
  apply (accepted_selection_is_explained_whole sample_message
           {| OPENAI_API_KEY := Some "sk-test" |} (Some " virtual network ")
           (Some "AZ-104") None).
  vm_compute. discriminate.
Defined.

(** X17. The page and the server together: for every question the
    validator puts into a quiz answer, the page creates exactly four radio
    buttons, with the values A, B, C and D in this order (the fallback letter
    for a fifth option is never used), and the correct option of the question
    is a text that is the value of exactly one of them.  (Which radio button
    the page reads when it grades is a lookup in the document by the id of
    the question, and no part of this statement.) *)
Theorem served_question_renders_four_letters (questions : JVal) (out : list JVal)
  (q : JVal) :
  cleaned questions = Ok out ->
  In q out ->
  exists right,
    radio_values q = Ok ["A"; "B"; "C"; "D"]
    /\ get q F_correctOption = JStr right
    /\ count_occ string_dec ["A"; "B"; "C"; "D"] right = 1%nat.
Proof.
  intros Hcl Hin.
  destruct (cleaned_clean questions out Hcl) as [Hall _].
  rewrite Forall_forall in Hall.
  destruct (Hall q Hin)
    as [id [question [o1 [o2 [o3 [o4 [correct [explanation [-> [_ Hc]]]]]]]]]].
  exists correct. split; [reflexivity|]. split; [reflexivity|].
  destruct Hc as [<- | [<- | [<- | [<- | []]]]]; reflexivity.
Qed.

Lemma served_question_renders_four_letters_witness :
  exists right,
    radio_values (JObj [ ("id", JStr "q1"); ("question", JStr "What is a VNet?");
                         ("options", four_options); ("correctOption", JStr "B");
                         ("explanation", JStr "") ])
    = Ok ["A"; "B"; "C"; "D"]
    /\ get (JObj [ ("id", JStr "q1"); ("question", JStr "What is a VNet?");
                   ("options", four_options); ("correctOption", JStr "B");
                   ("explanation", JStr "") ]) F_correctOption
       = JStr right
    /\ count_occ string_dec ["A"; "B"; "C"; "D"] right = 1%nat.
Proof.
  apply (served_question_renders_four_letters (JArr [element_with_id_zero])
           [JObj [ ("id", JStr "q1"); ("question", JStr "What is a VNet?");
                   ("options", four_options); ("correctOption", JStr "B");
                   ("explanation", JStr "") ]]).
  - vm_compute. reflexivity.
  - left. reflexivity.
Defined.

Lemma failure_line_of_error_body (fallback error debug : string) :
  error <> "" ->
  failure_line fallback [("error", JStr error); ("debug", JStr debug)]
  = Ok ("Error: " ++ error).
Proof.
  intros H. apply is_empty_false in H.
  unfold failure_line. cbn [own_property String.eqb Ascii.eqb Bool.eqb].
  change (String.eqb "debug" "error") with false. change (String.eqb "error" "error") with true.
  cbn iota. unfold or_else. cbn [truthy]. rewrite H. reflexivity.
Qed.

Lemma error_texts_nonempty (error : string) :
  In error quiz_error_texts \/ In error explain_error_texts -> error <> "".
Proof.
  unfold quiz_error_texts, explain_error_texts. cbn [In].
  intros H E. subst error.
  repeat (destruct H as [H | H]; try discriminate H; try contradiction).
Qed.

(** X18. The page and the server together: whenever a handler answers
    with a status other than 200, the answer is not [ok] for the page, and the
    page writes [Error: ] followed by the error text of the answer, one of a
    few fixed texts; the [debug] text is not shown, and the page's own
    fallback texts are never needed. *)
Theorem page_shows_the_error_text
  (JSON_parse : string -> option JVal) (error_message : EngineError -> string)
  (env : ProcessEnv) (body : JVal) (openai : ChatRequest -> ModelOutcome) :
  let quiz := response (run openai (generate_quiz JSON_parse error_message env body)) in
  let explanation := response (run openai (explain error_message env body)) in
  (http_status quiz = 200
   \/ (ok (http_status quiz) = false
       /\ exists error props,
            json quiz = JObj props
            /\ In error quiz_error_texts
            /\ failure_line "Failed to generate quiz" props = Ok ("Error: " ++ error)))
  /\ (http_status explanation = 200
      \/ (ok (http_status explanation) = false
          /\ exists error props,
               json explanation = JObj props
               /\ In error explain_error_texts
               /\ failure_line "Failed to get explanation" props
                  = Ok ("Error: " ++ error))).
Proof.
  intros quiz explanation. subst quiz explanation.
  assert (Hbody : forall r fallback error debug texts,
            http_status r = 500 -> json r = error_body error debug ->
            In error texts ->
            (In error texts -> error <> "") ->
            ok (http_status r) = false
            /\ exists error props,
                 json r = JObj props /\ In error texts
                 /\ failure_line fallback props = Ok ("Error: " ++ error)).
  { intros r fallback error debug texts Hst Hj Hin Hne. rewrite Hst. split; [reflexivity|].
    exists error, [("error", JStr error); ("debug", JStr debug)].
    split; [exact Hj|]. split; [exact Hin|].
    apply failure_line_of_error_body. now apply Hne. }
  split.
  - destruct (generate_quiz_cases JSON_parse error_message env body)
      as [[e E] | [s [p [Hs [Hp E]]]]]; rewrite E; cbn [run].
    + right. apply (Hbody _ _ "Internal server error."
                      (buildErrorDebugInfo env (Some (TypeError error_message e))));
        [reflexivity | reflexivity | cbn; tauto |].
      intros H. apply error_texts_nonempty. now left.
    + destruct (quiz_reply_cases JSON_parse env s (openai (quiz_request p)))
        as [[err [Eo R]] | [[c [r [Eo [R [Hst [t [d [Hj Hin]]]]]]]] | [[c [e [Eo R]]]
            | [c [questions [q [cl [Eo [Hparse [Hcl R]]]]]]]]]]; rewrite R.
      * right. apply (Hbody _ _ "Failed to call OpenAI API." (buildErrorDebugInfo env err));
          [reflexivity | reflexivity | cbn; tauto |].
        intros H. apply error_texts_nonempty. now left.
      * right. apply (Hbody _ _ t d); [exact Hst | exact Hj | exact Hin |].
        intros H. apply error_texts_nonempty. now left.
      * right. apply (Hbody _ _ "Internal server error."
                        (buildErrorDebugInfo env (Some (TypeError error_message e))));
          [reflexivity | reflexivity | cbn; tauto |].
        intros H. apply error_texts_nonempty. now left.
      * left. reflexivity.
  - destruct (explain_cases error_message env body)
      as [[e E] | [[E _] | [text [topic' [p [Ht [Hnb [Hp E]]]]]]]];
      rewrite E; cbn [run].
    + right. apply (Hbody _ _ "Internal server error."
                      (buildErrorDebugInfo env (Some (TypeError error_message e))));
        [reflexivity | reflexivity | cbn; tauto |].
      intros H. apply error_texts_nonempty. now right.
    + right. split; [reflexivity|].
      exists "No text provided to explain.", [("error", JStr "No text provided to explain.")].
      split; [reflexivity|]. split; [cbn; tauto | reflexivity].
    + destruct (openai (explain_request p)) as [c|err]; cbn [explain_reply].
      * left. reflexivity.
      * right. apply (Hbody _ _ "Failed to call OpenAI API for explanation."
                        (buildErrorDebugInfo env err));
          [reflexivity | reflexivity | cbn; tauto |].
        intros H. apply error_texts_nonempty. now right.
Qed.

(** X19. Dragging the chat window: for coordinates that are numbers, the
    new position never passes the far margin (the inner size of the window
    less the size of the chat and a padding of 8), and it keeps the padding
    of 8 on the near side whenever the far margin is at least 8; when the far
    margin is below 8, a position short of the near padding is set to the
    far margin: the later test wins. *)
Theorem dragged_position_stays_inside (client dragOffset inner size : float) :
  is_nan (client - dragOffset)%float = false ->
  is_nan (inner - size - 8)%float = false ->
  (dragged_position client dragOffset inner size <=? inner - size - 8)%float = true
  /\ ((8 <=? inner - size - 8)%float = true ->
      (8 <=? dragged_position client dragOffset inner size)%float = true)
  /\ ((inner - size - 8 <? 8)%float = true ->
      (8 <=? client - dragOffset)%float = false ->
      dragged_position client dragOffset inner size = (inner - size - 8)%float).
Proof.
  intros Hp Hm. unfold dragged_position.
  set (newPos := (client - dragOffset)%float) in *.
  set (maxPos := (inner - size - 8)%float) in *.
  assert (H8 : is_nan 8%float = false) by reflexivity.
  destruct (newPos <? 8)%float eqn:H1.
  - destruct (maxPos <? 8)%float eqn:H2.
    + split; [now apply leb_refl|]. split; [tauto | reflexivity].
    + split; [now apply not_ltb_leb|]. split; [intros _; now apply leb_refl | discriminate].
  - destruct (maxPos <? newPos)%float eqn:H2.
    + split; [now apply leb_refl|]. split; [tauto | reflexivity].
    + split; [now apply not_ltb_leb|].
      split; [intros _; now apply not_ltb_leb|].
      intros _ Hn. rewrite (not_ltb_leb newPos 8 Hp H8 H1) in Hn. discriminate.
Qed.

Lemma dragged_position_stays_inside_witness :
  (dragged_position 1900 20 1280 340 <=? 1280 - 340 - 8)%float = true
  /\ ((8 <=? 1280 - 340 - 8)%float = true ->
      (8 <=? dragged_position 1900 20 1280 340)%float = true)
  /\ ((1280 - 340 - 8 <? 8)%float = true ->
      (8 <=? 1900 - 20)%float = false ->
      dragged_position 1900 20 1280 340 = (1280 - 340 - 8)%float).
Proof.
  apply (dragged_position_stays_inside 1900 20 1280 340); reflexivity.
Defined.
